(** * DarkModeController (src/browser/dark-mode.js)

    A shallow embedding of the controller class: its constructor, the
    [toggle] operation, the gesture handler [handleEvent] and [detach],
    over an explicit model of the host objects they touch (the Storage
    object, the container's class list, the listener tables of documents
    and media query lists, and the timer table).  Every method takes the
    instance and the host and returns both; the host also keeps the log of
    the calls made on it, so that "exactly one call" and "no write" can be
    stated.

    The Storage object is taken to behave as a plain map from keys to
    strings whose reads and writes do not throw, and nothing but the
    controller changes the container's class list. *)

From Stdlib Require Import ZArith QArith Qround Lia Ascii String.
From stdpp Require Import base option list strings gmap.

Local Open Scope string_scope.
Local Open Scope list_scope.

(** ** Completions

    A JavaScript call either returns or throws.  Only the two error
    classes the class can raise are distinguished. *)

Inductive ErrorKind := TypeError | ReferenceError.

Inductive Completion (A : Type) :=
| Normal (a : A)
| Throw (e : ErrorKind).
Arguments Normal {A} a.
Arguments Throw {A} e.

#[global] Instance completion_ret : MRet Completion := @Normal.
#[global] Instance completion_bind : MBind Completion := fun A B k c =>
  match c with
  | Normal a => k a
  | Throw e => Throw e
  end.

(** ** Numbers

    A Number is NaN, an infinity, or a finite double; finite doubles are
    dyadic rationals, so they are embedded in [Q].  The zero sign is not
    kept: the constructor only compares the rounded value with positive
    constants. *)

Inductive Number :=
| NaN
| Infinity (negative : bool)
| Finite (q : Q).

Definition num (z : Z) : Number := Finite (inject_Z z).

(** [Math.round]: the integral Number closest to the argument, ties towards
    +Infinity; NaN and the infinities are returned as they are. *)
Definition Math_round (x : Number) : Number :=
  match x with
  | Finite q => num (Qfloor (q + (1 # 2)))
  | _ => x
  end.

(** The relational operators on Numbers.  Every comparison with NaN is
    false. *)
Definition num_lt (x y : Number) : bool :=
  match x, y with
  | NaN, _ | _, NaN => false
  | Infinity true, Infinity true => false
  | Infinity true, _ => true
  | _, Infinity true => false
  | Infinity false, _ => false
  | Finite _, Infinity false => true
  | Finite p, Finite q => negb (Qle_bool q p)
  end.

Definition num_le (x y : Number) : bool :=
  match x, y with
  | NaN, _ | _, NaN => false
  | Infinity true, _ => true
  | _, Infinity true => false
  | _, Infinity false => true
  | Infinity false, Finite _ => false
  | Finite p, Finite q => Qle_bool p q
  end.

Definition num_gt (x y : Number) : bool := num_lt y x.
Definition num_ge (x y : Number) : bool := num_le y x.

(** ** Values handed to [Math.round]

    [ToNumber] of a primitive.  A String is represented by the Number that
    StringToNumber yields for it (NaN when it is not a numeric literal);
    an object by the completion of its [ToPrimitive] conversion. *)

Inductive Primitive :=
| PUndefined
| PNull
| PBoolean (b : bool)
| PNumber (n : Number)
| PString (numericValue : Number)
| PSymbol
| PBigInt (z : Z).

Inductive JsValue :=
| VPrim (p : Primitive)
| VObject (toPrimitive : Completion Primitive).

Definition ToNumber_prim (p : Primitive) : Completion Number :=
  match p with
  | PUndefined => Normal NaN
  | PNull => Normal (num 0%Z)
  | PBoolean b => Normal (num (if b then 1%Z else 0%Z))
  | PNumber n => Normal n
  | PString n => Normal n
  | PSymbol => Throw TypeError
  | PBigInt _ => Throw TypeError
  end.

Definition ToNumber (v : JsValue) : Completion Number :=
  match v with
  | VPrim p => ToNumber_prim p
  | VObject c => p ← c; ToNumber_prim p
  end.

(** Lines 61-65 of the constructor:
<<
    ((longPressTimeout = Math.round(longPressTimeout)) > 0 &&
      (longPressTimeout <= 10000 || (longPressTimeout = 10000)) &&
      (longPressTimeout >= 1500 || (longPressTimeout = 1500))) ||
      (longPressTimeout = 2000);
>>
    The assignments inside the [||] operands yield truthy constants, so the
    outer [||] reaches its right operand only when the first comparison
    fails. *)
Definition resolveLongPressTimeout (longPressTimeout : JsValue) : Completion Number :=
  n ← ToNumber longPressTimeout;
  let longPressTimeout := Math_round n in
  if num_gt longPressTimeout (num 0%Z) then
    let longPressTimeout :=
      if num_le longPressTimeout (num 10000%Z) then longPressTimeout else num 10000%Z in
    let longPressTimeout :=
      if num_ge longPressTimeout (num 1500%Z) then longPressTimeout else num 1500%Z in
    Normal longPressTimeout
  else Normal (num 2000%Z).

(** ** Strings and the class's matchers

    Strings are sequences of code units below 256.  [createMatcher(regexp)]
    yields [source => (regexp.exec(source) || '')[1]]: the first capture
    group of the leftmost match, [None] standing for [undefined]. *)

Definition code (c : ascii) : nat := nat_of_ascii c.

(** [\w]: ASCII letters, digits and the underscore. *)
Definition is_word_char (c : ascii) : bool :=
  let n := code c in
  ((48 <=? n) && (n <=? 57) || (65 <=? n) && (n <=? 90) ||
   (97 <=? n) && (n <=? 122) || (n =? 95))%nat.

(** [\s] restricted to code units below 256. *)
Definition is_white_space (c : ascii) : bool :=
  let n := code c in
  ((9 <=? n) && (n <=? 13) || (n =? 32) || (n =? 160))%nat.

(** Case folding of the [i] flag: only ASCII letters fold onto ASCII
    letters. *)
Definition fold_case (c : ascii) : ascii :=
  let n := code c in
  if ((65 <=? n) && (n <=? 90))%nat then ascii_of_nat (n + 32) else c.

(** [source] equals the lower-case [pattern] up to case. *)
Fixpoint equal_ci (pattern source : string) : bool :=
  match pattern, source with
  | EmptyString, EmptyString => true
  | String p pattern', String c source' =>
      bool_decide (p = fold_case c) && equal_ci pattern' source'
  | _, _ => false
  end.

(** [source] starts with [pattern] up to case: the matched text and the
    rest. *)
Fixpoint take_ci (pattern source : string) : option (string * string) :=
  match pattern, source with
  | EmptyString, _ => Some (EmptyString, source)
  | String p pattern', String c source' =>
      if bool_decide (p = fold_case c) then
        '(m, rest) ← take_ci pattern' source'; Some (String c m, rest)
      else None
  | String _ _, EmptyString => None
  end.

(** [\bword\b] at the current position, [before] telling whether the
    previous code unit is a word character.  [word] consists of letters, so
    both boundaries ask for a non-word neighbour. *)
Definition word_here (word : string) (before : bool) (source : string) : option string :=
  '(m, rest) ← take_ci word source;
  let after := match rest with String c _ => is_word_char c | EmptyString => false end in
  if negb before && negb after then Some m else None.

(** The scan of [exec] over the start positions for the two unanchored
    alternatives; the final [$] alternative leaves the group undefined. *)
Fixpoint scan_scheme (before : bool) (source : string) : option string :=
  match word_here "light" before source with
  | Some m => Some m
  | None =>
      match word_here "dark" before source with
      | Some m => Some m
      | None =>
          match source with
          | EmptyString => None
          | String c source' => scan_scheme (is_word_char c) source'
          end
      end
  end.

(** [/(^mouseup$|^mousedown$|^pointerup$|^pointerdown$|\blight\b|\bdark\b)|$/i] *)
Definition matchTrigger (source : string) : option string :=
  if existsb (fun p => equal_ci p source) ["mouseup"; "mousedown"; "pointerup"; "pointerdown"]
  then Some source
  else scan_scheme false source.

(** [/(^\S{2,}$|$)/]: the whole source when it is two or more non-blank
    code units, the empty string otherwise. *)
Definition matchID (source : string) : string :=
  if forallb (fun c => negb (is_white_space c)) (list_ascii_of_string source)
     && (2 <=? String.length source)%nat
  then source else "".

Definition matchScope : string -> string := matchID.

(** A string is truthy when it is not empty. *)
Definition truthy (s : string) : bool := negb (bool_decide (s = "")).

(** ** Host objects

    Documents are known by identity.  An event target carries its own
    identity and its [ownerDocument] ([None] for a target that has none,
    such as a document or a window). *)

Definition DocumentRef := nat.

Record Element := {
  el_ref : nat;
  el_ownerDocument : option DocumentRef;
}.

#[global] Instance Element_eq_dec : EqDecision Element.
Proof. solve_decision. Defined.

(** The events the handler reads: [media] (a MediaQueryListEvent has one),
    [type], [target] and [matches]. *)
Record Event := {
  ev_media : option string;
  ev_type : string;
  ev_target : option Element;
  ev_matches : option bool;
}.

Record MediaQueryList := {
  mql_media : string;
  mql_matches : bool;
}.

Record MediaQueries := {
  prefersDarkMode : option MediaQueryList;
  prefersLightMode : option MediaQueryList;
}.

Definition noQueries : MediaQueries :=
  {| prefersDarkMode := None; prefersLightMode := None |}.

(** A listener installed with [this.handleEvent] as its callback. *)
Record Listener := {
  l_document : DocumentRef;
  l_type : string;
  l_capture : bool;
}.

#[global] Instance Listener_eq_dec : EqDecision Listener.
Proof. solve_decision. Defined.

(** [DarkModeController.State] and [DarkModeController.ColorScheme]. *)
Inductive State := Auto | Enabled | Disabled.
Inductive ColorScheme := Light | Dark.

#[global] Instance State_eq_dec : EqDecision State.
Proof. solve_decision. Defined.
#[global] Instance ColorScheme_eq_dec : EqDecision ColorScheme.
Proof. solve_decision. Defined.

Definition State_string (s : State) : string :=
  match s with
  | Auto => "auto"
  | Enabled => "enabled"
  | Disabled => "disabled"
  end.

(** The first argument of [toggle]: absent, a boolean or a State string. *)
Inductive ToggleArg :=
| ArgUndefined
| ArgBool (b : bool)
| ArgState (s : State).

#[global] Instance ToggleArg_eq_dec : EqDecision ToggleArg.
Proof. solve_decision. Defined.

(** What the class does to the host, in the order it does it. *)
Inductive Effect :=
| CallToggle (state : ToggleArg) (auto : option bool)
| StorageSet (key value : string)
| ClassListAdd (token : string)
| ClassListRemove (token : string)
| AddEventListener (l : Listener)
| RemoveEventListener (l : Listener)
| AddListener (media : string)
| SetTimeout (handle : nat) (delay : Number)
| ClearTimeout (handle : nat)
| ConsoleWarn.

(** The host state one controller can reach: the Storage object its
    [localStorage] property refers to ([None] when the property is
    undefined), the class list of its container, the listeners and media
    query subscriptions whose callback is its bound [handleEvent], the
    pending timers with that callback, and the log of effects. *)
Record Host := {
  storage : option (gmap string string);
  classList : list string;
  listeners : list Listener;
  subscriptions : list string;
  timers : list nat;
  nextTimer : nat;
  trace : list Effect;
}.

Definition log (e : Effect) (h : Host) : Host :=
  {| storage := storage h; classList := classList h; listeners := listeners h;
     subscriptions := subscriptions h; timers := timers h;
     nextTimer := nextTimer h; trace := trace h ++ [e] |}.

(** [localStorage[key] = value] *)
Definition storage_set (k v : string) (h : Host) : Host :=
  log (StorageSet k v)
    {| storage := (fun m : gmap string string => <[k:=v]> m) <$> storage h;
       classList := classList h; listeners := listeners h;
       subscriptions := subscriptions h; timers := timers h;
       nextTimer := nextTimer h; trace := trace h |}.

Definition classList_contains (token : string) (h : Host) : bool :=
  bool_decide (token ∈ classList h).

Definition classList_add (token : string) (h : Host) : Host :=
  log (ClassListAdd token)
    {| storage := storage h;
       classList := if bool_decide (token ∈ classList h) then classList h
                    else classList h ++ [token];
       listeners := listeners h; subscriptions := subscriptions h;
       timers := timers h; nextTimer := nextTimer h; trace := trace h |}.

Definition classList_remove (token : string) (h : Host) : Host :=
  log (ClassListRemove token)
    {| storage := storage h;
       classList := filter (fun t => t ≠ token) (classList h);
       listeners := listeners h; subscriptions := subscriptions h;
       timers := timers h; nextTimer := nextTimer h; trace := trace h |}.

(** [document.addEventListener(type, this.handleEvent, capture)]: a listener
    already present with the same type and capture flag is not added again. *)
Definition addEventListener (l : Listener) (h : Host) : Host :=
  log (AddEventListener l)
    {| storage := storage h; classList := classList h;
       listeners := if bool_decide (l ∈ listeners h) then listeners h
                    else listeners h ++ [l];
       subscriptions := subscriptions h; timers := timers h;
       nextTimer := nextTimer h; trace := trace h |}.

(** [document.removeEventListener(type, this.handleEvent, capture)] removes
    the listener of that type and capture flag, if there is one. *)
Definition removeEventListener (l : Listener) (h : Host) : Host :=
  log (RemoveEventListener l)
    {| storage := storage h; classList := classList h;
       listeners := filter (fun l' => l' ≠ l) (listeners h);
       subscriptions := subscriptions h; timers := timers h;
       nextTimer := nextTimer h; trace := trace h |}.

(** [mediaQueryList.addListener(this.handleEvent)] *)
Definition addListener (q : MediaQueryList) (h : Host) : Host :=
  log (AddListener (mql_media q))
    {| storage := storage h; classList := classList h; listeners := listeners h;
       subscriptions := if bool_decide (mql_media q ∈ subscriptions h)
                        then subscriptions h
                        else subscriptions h ++ [mql_media q];
       timers := timers h; nextTimer := nextTimer h; trace := trace h |}.

(** [setTimeout(this.handleEvent, delay)] hands out a fresh handle. *)
Definition setTimeout (delay : Number) (h : Host) : nat * Host :=
  (nextTimer h,
   log (SetTimeout (nextTimer h) delay)
     {| storage := storage h; classList := classList h; listeners := listeners h;
        subscriptions := subscriptions h; timers := timers h ++ [nextTimer h];
        nextTimer := S (nextTimer h); trace := trace h |}).

Definition clearTimeout (handle : nat) (h : Host) : Host :=
  log (ClearTimeout handle)
    {| storage := storage h; classList := classList h; listeners := listeners h;
       subscriptions := subscriptions h;
       timers := filter (fun t => t ≠ handle) (timers h);
       nextTimer := nextTimer h; trace := trace h |}.

Definition console_warn (h : Host) : Host := log ConsoleWarn h.

(** ** The controller

    The own properties of a constructed instance.  [container] is an
    element (the constructor's parameter type), so it has a class list and
    an owner document.  [key] is immutable and a function of [scope] and
    [id]; the object [handleEvent[Symbol.for('dark-mode.toggler.handler.state')]]
    is [handlerState], absent until the handler first runs. *)

Record Container := {
  container_ref : nat;
  container_ownerDocument : DocumentRef;
  container_has_onmouseup : bool;
}.

Record HandlerState := {
  action : option string;
  committed : option bool;
  target : option Element;
  timeout : option nat;
  targets : list DocumentRef;
}.

Record Controller := {
  id : string;
  scope : string;
  container : Container;
  mediaQueries : MediaQueries;
  longPressTimeout : Number;
  state : option State;
  prefers : option ColorScheme;
  handlerState : option HandlerState;
}.

(** [`dark-mode-state@${scope}${id ? `#${id}` : ''}`] *)
Definition makeKey (scope id : string) : string :=
  ("dark-mode-state@" ++ scope ++ (if truthy id then "#" ++ id else ""))%string.

Definition key (c : Controller) : string := makeKey (scope c) (id c).

Definition set_state (v : option State) (c : Controller) : Controller :=
  {| id := id c; scope := scope c; container := container c;
     mediaQueries := mediaQueries c; longPressTimeout := longPressTimeout c;
     state := v; prefers := prefers c; handlerState := handlerState c |}.

Definition set_prefers (v : option ColorScheme) (c : Controller) : Controller :=
  {| id := id c; scope := scope c; container := container c;
     mediaQueries := mediaQueries c; longPressTimeout := longPressTimeout c;
     state := state c; prefers := v; handlerState := handlerState c |}.

Definition set_handlerState (v : option HandlerState) (c : Controller) : Controller :=
  {| id := id c; scope := scope c; container := container c;
     mediaQueries := mediaQueries c; longPressTimeout := longPressTimeout c;
     state := state c; prefers := prefers c; handlerState := v |}.

(** *** toggle (lines 288-320)

    The method is [async] but holds no [await]: its body runs to the end
    within the call.  [this.container] is set on every constructed
    instance, so the branch for a missing container is left out. *)

Definition nextStateOf (arg : ToggleArg) (c : Controller) (h : Host) : bool :=
  match arg with
  | ArgState Auto => negb (bool_decide (prefers c = Some Light))
  | ArgState _ => true
  | ArgBool b => b
  | ArgUndefined => negb (classList_contains "dark-mode" h)
  end.

Definition toggle (arg : ToggleArg) (auto : option bool) (c : Controller) (h : Host)
  : Controller * Host :=
  let h := log (CallToggle arg auto) h in
  let c :=
    if bool_decide (auto = Some true) then
      match arg with
      | ArgBool true => set_prefers (Some Dark) c
      | ArgBool false => set_prefers (Some Light) c
      | _ => c
      end
    else c in
  if bool_decide (auto = Some true) && negb (bool_decide (state c = Some Auto))
  then (c, h)
  else
    let nextState := nextStateOf arg c h in
    let st :=
      if bool_decide (arg = ArgState Auto) || bool_decide (auto = Some true) then Auto
      else if nextState then Enabled else Disabled in
    let c := set_state (Some st) c in
    let h :=
      match storage h with
      | Some _ => if truthy (key c) then storage_set (key c) (State_string st) h else h
      | None => h
      end in
    let h := classList_add (if nextState then "dark-mode" else "light-mode") h in
    let h := classList_remove (if nextState then "light-mode" else "dark-mode") h in
    (c, h).

(** [enable] and [disable] are [toggle] bound to [true] and [false]. *)
Definition enable : Controller -> Host -> Controller * Host := toggle (ArgBool true) None.
Definition disable : Controller -> Host -> Controller * Host := toggle (ArgBool false) None.

(** *** handleEvent (lines 182-282) *)

Definition set_action (v : option string) (s : HandlerState) : HandlerState :=
  {| action := v; committed := committed s; target := target s;
     timeout := timeout s; targets := targets s |}.

Definition set_committed (v : option bool) (s : HandlerState) : HandlerState :=
  {| action := action s; committed := v; target := target s;
     timeout := timeout s; targets := targets s |}.

Definition set_target (v : option Element) (s : HandlerState) : HandlerState :=
  {| action := action s; committed := committed s; target := v;
     timeout := timeout s; targets := targets s |}.

Definition set_timeout (v : option nat) (s : HandlerState) : HandlerState :=
  {| action := action s; committed := committed s; target := target s;
     timeout := v; targets := targets s |}.

Definition set_targets (v : list DocumentRef) (s : HandlerState) : HandlerState :=
  {| action := action s; committed := committed s; target := target s;
     timeout := timeout s; targets := v |}.

(** ['onmouseup' in this.container ? 'mouseup' : 'pointerup'], registered
    for the capture phase. *)
Definition upListener (c : Controller) (d : DocumentRef) : Listener :=
  {| l_document := d;
     l_type := if container_has_onmouseup (container c) then "mouseup" else "pointerup";
     l_capture := true |}.

(** The state found on the bound handler, or the one created on the spot
    together with the up-listener on the container's document.  The
    ReferenceError of line 201 needs a receiver without container or with
    the prototype's own [handleEvent]; an instance has neither. *)
Definition ensureHandlerState (c : Controller) (h : Host) : HandlerState * Host :=
  match handlerState c with
  | Some s => (s, h)
  | None =>
      ({| action := None; committed := None; target := None; timeout := None;
          targets := [container_ownerDocument (container c)] |},
       addEventListener (upListener c (container_ownerDocument (container c))) h)
  end.

(** [matchTrigger(event.media || event.type)], [undefined] without event. *)
Definition triggerOf (event : option Event) : option string :=
  e ← event;
  matchTrigger
    (match ev_media e with
     | Some m => if truthy m then m else ev_type e
     | None => ev_type e
     end).

(** The arms of the [switch]. *)
Inductive Arm :=
| ArmScheme (isDark : bool)
| ArmUndefined
| ArmUp
| ArmDown
| ArmDefault.

Definition armOf (trigger : option string) : Arm :=
  match trigger with
  | None => ArmUndefined
  | Some t =>
      if bool_decide (t = "dark") then ArmScheme true
      else if bool_decide (t = "light") then ArmScheme false
      else if bool_decide (t = "mouseup") || bool_decide (t = "pointerup") then ArmUp
      else if bool_decide (t = "mousedown") || bool_decide (t = "pointerdown") then ArmDown
      else ArmDefault
  end.

Definition releaseState (s : HandlerState) : HandlerState :=
  set_target None (set_committed None s).

(** Lines 215-218: a pending timer is cleared on every entry. *)
Definition clearPending (s : HandlerState) (h : Host) : HandlerState * Host :=
  match timeout s with
  | Some t => (set_timeout None s, clearTimeout t h)
  | None => (s, h)
  end.

(** Lines 220-224: the target's document joins the registry, with an
    up-listener of its own, unless it is the container's or already there. *)
Definition registerContext (c : Controller) (ownerDocument : option DocumentRef)
    (s : HandlerState) (h : Host) : HandlerState * Host :=
  match ownerDocument with
  | Some d =>
      if bool_decide (d = container_ownerDocument (container c))
         || bool_decide (d ∈ targets s)
      then (s, h)
      else (set_targets (targets s ++ [d]) s, addEventListener (upListener c d) h)
  | None => (s, h)
  end.

Definition handleEvent (event : option Event) (c : Controller) (h : Host)
  : Controller * Host :=
  let '(s, h) := ensureHandlerState c h in
  let tgt : option Element := event ≫= ev_target in
  let trigger := triggerOf event in
  let ownerDocument : option DocumentRef := tgt ≫= el_ownerDocument in
  let '(s, h) := clearPending s h in
  let '(s, h) := registerContext c ownerDocument s h in
  match armOf trigger with
  | ArmScheme isDark =>
      let '(c, h) :=
        if bool_decide ((event ≫= ev_matches) = Some true)
        then toggle (ArgBool isDark) (Some true) c h
        else (c, h) in
      (set_handlerState (Some (releaseState s)) c, h)
  | ArmUndefined =>
      if bool_decide (target s ≠ None) && bool_decide (committed s = Some false) then
        let s := set_committed (Some true) (set_action (Some "auto") s) in
        let '(c, h) := toggle (ArgState Auto) None c h in
        (set_handlerState (Some s) c, h)
      else (set_handlerState (Some (set_action (Some "ignore") s)) c, h)
  | ArmUp =>
      if bool_decide (target s = None) then
        (set_handlerState (Some (set_action (Some "ignore") s)) c, h)
      else if bool_decide (target s = tgt) && bool_decide (committed s = Some false) then
        let s := set_action (Some "toggle") s in
        let '(c, h) := toggle ArgUndefined None c h in
        (set_handlerState (Some (releaseState s)) c, h)
      else
        (set_handlerState (Some (releaseState (set_action (Some "release") s))) c, h)
  | ArmDown =>
      match tgt, ownerDocument with
      | Some t, Some _ =>
          let s := set_committed (Some false)
                     (set_target (Some t) (set_action (Some "capture") s)) in
          let '(handle, h) := setTimeout (longPressTimeout c) h in
          (set_handlerState (Some (set_timeout (Some handle) s)) c, h)
      | _, _ =>
          if bool_decide (target s = None) then
            (set_handlerState (Some (set_action (Some "ignore") s)) c, h)
          else
            (set_handlerState (Some (releaseState (set_action (Some "release") s))) c, h)
      end
  | ArmDefault =>
      (set_handlerState (Some s) c, console_warn h)
  end.

(** The host fires a pending timer: the handle leaves the timer table and
    the callback runs without an event. *)
Definition timerFires (handle : nat) (c : Controller) (h : Host)
  : option (Controller * Host) :=
  if bool_decide (handle ∈ timers h) then
    Some (handleEvent None c
            {| storage := storage h; classList := classList h;
               listeners := listeners h; subscriptions := subscriptions h;
               timers := filter (fun t => t ≠ handle) (timers h);
               nextTimer := nextTimer h; trace := trace h |})
  else None.

(** *** detach (lines 109-119)

    Destructuring the missing handler state throws a TypeError.  The [for]
    loop visits every member of the Set: deleting the member being visited
    does not disturb the iteration.  [removeEventListener] is called
    without a third argument, that is for the bubbling phase. *)

Definition detachTarget (d : DocumentRef) (h : Host) : Host :=
  let h := removeEventListener {| l_document := d; l_type := "onmousedown"; l_capture := false |} h in
  let h := removeEventListener {| l_document := d; l_type := "onmouseup"; l_capture := false |} h in
  let h := removeEventListener {| l_document := d; l_type := "onpointerdown"; l_capture := false |} h in
  removeEventListener {| l_document := d; l_type := "onpointerup"; l_capture := false |} h.

Fixpoint detachLoop (pending : list DocumentRef) (members : list DocumentRef) (h : Host)
  : list DocumentRef * Host :=
  match pending with
  | [] => (members, h)
  | d :: pending' =>
      detachLoop pending' (filter (fun d' => d' ≠ d) members) (detachTarget d h)
  end.

Definition detach (c : Controller) (h : Host) : Completion (Controller * Host) :=
  match handlerState c with
  | None => Throw TypeError
  | Some s =>
      if bool_decide (targets s = []) then Normal (c, h)
      else
        let '(members, h) := detachLoop (targets s) (targets s) h in
        Normal (set_handlerState (Some (set_targets members s)) c, h)
  end.

(** ** The constructor (lines 20-107)

    What the constructor reads from its arguments and from the globals.  A
    window is described by the document it reports, its Storage object and
    its [matchMedia] ([None] when the call throws). *)

Record Window := {
  window_document : DocumentRef;
  window_localStorage : option (gmap string string);
  window_matchMedia : option (string -> MediaQueryList);
}.

Record Document := {
  document_ref : DocumentRef;
  document_isDocumentNode : bool;
  document_defaultView : option Window;
  document_location_href : option string;
}.

Record HTMLElement := {
  element_ref : nat;
  element_ownerDocument : Document;
  element_has_onmouseup : bool;
  element_classList : list string;
}.

Record Options := {
  opt_localStorage : option (gmap string string);
  opt_scope : option string;
  opt_id : option string;
  opt_longPressTimeout : JsValue;
}.

(** [{...undefined}] *)
Definition noOptions : Options :=
  {| opt_localStorage := None; opt_scope := None; opt_id := None;
     opt_longPressTimeout := VPrim PUndefined |}.

(** [liveWindow] is [typeof window === 'object' && window.self === window];
    [window_body] is [window.document && window.document.body];
    [URL_pathname input base] is [new URL(input, base).pathname] where [URL]
    is a function. *)
Record Globals := {
  liveWindow : bool;
  window_body : option HTMLElement;
  URL_pathname : option (string -> string -> Completion string);
  timerSeed : nat;
}.

Definition getValidDocumentFrom (node : option HTMLElement) : option Document :=
  n ← node;
  let node := element_ownerDocument n in
  if document_isDocumentNode node then
    view ← document_defaultView node;
    if bool_decide (window_document view = document_ref node) then Some node else None
  else None.

Definition getLocalStorageFromContainer (container : HTMLElement)
  : option (gmap string string) :=
  view ← document_defaultView (element_ownerDocument container);
  window_localStorage view.

(** The two lists of the container's window, or the empty record when the
    document is not its window's document or [matchMedia] throws.  The
    WeakMap in front of [matchMedia] only lets instances of one document
    share the two list objects; it is not modelled. *)
Definition getMediaQueriesFromContainer (container : HTMLElement) : MediaQueries :=
  let owner := element_ownerDocument container in
  match document_defaultView owner with
  | Some view =>
      if bool_decide (window_document view = document_ref owner) then
        match window_matchMedia view with
        | Some matchMedia =>
            {| prefersDarkMode := Some (matchMedia "(prefers-color-scheme: dark)");
               prefersLightMode := Some (matchMedia "(prefers-color-scheme: light)") |}
        | None => noQueries
        end
      else noQueries
  | None => noQueries
  end.

(** [(q && q.matches) === true] *)
Definition matchesNow (q : option MediaQueryList) : bool :=
  bool_decide ((mql_matches <$> q) = Some true).

(** Line 92-94: the dark marker is chosen unless light is the one scheme
    that matches ([mediaQueries] is always an object). *)
Definition initiallyDark (q : MediaQueries) : bool :=
  matchesNow (prefersDarkMode q) || negb (matchesNow (prefersLightMode q)).

(** Lines 97-100: the subscriptions to the two feeds that exist. *)
Definition subscribe (q : MediaQueries) (h : Host) : Host :=
  let h := from_option (fun m => addListener m h) h (prefersDarkMode q) in
  from_option (fun m => addListener m h) h (prefersLightMode q).

(** Lines 86-101, run on the instance whose properties were just defined.
    The persisted value is read from the Storage object; in the last arm
    the second argument of [toggle] sets the mode and writes "auto" before
    the call is made. *)
Definition initialise (c : Controller) (h : Host) : Controller * Host :=
  match storage h with
  | Some store =>
      let queries := mediaQueries c in
      let '(c, h) :=
        if bool_decide (store !! key c = Some "enabled") then
          enable (set_state (Some Enabled) c) h
        else if bool_decide (store !! key c = Some "disabled") then
          disable (set_state (Some Disabled) c) h
        else
          toggle (ArgBool (initiallyDark queries)) (Some true)
            (set_state (Some Auto) c) (storage_set (key c) "auto" h) in
      (c, subscribe queries h)
  | None => (c, h)
  end.

(** The constructor returns the instance, or the inert placeholder built
    outside a live window, or throws. *)
Inductive Constructed :=
| Placeholder
| Instance (c : Controller) (h : Host).

(** Lines 21-23: a missing container defaults to the window's body. *)
Definition defaultContainer (g : Globals) (container : option HTMLElement)
  : option HTMLElement :=
  match container with
  | Some e => Some e
  | None => if liveWindow g then window_body g else None
  end.

(** Line 59: [localStorage || getLocalStorageFromContainer(container)] *)
Definition resolveLocalStorage (options : Options) (container : HTMLElement)
  : option (gmap string string) :=
  match opt_localStorage options with
  | Some s => Some s
  | None => getLocalStorageFromContainer container
  end.

Definition construct (g : Globals) (container : option HTMLElement) (options : Options)
  : Completion Constructed :=
  let container := defaultContainer g container in
  match container, getValidDocumentFrom container with
  | Some container, Some ownerDocument =>
      let id :=
        match opt_id options with
        | Some i => if truthy i then matchID i else ""
        | None => ""
        end in
      let scopeOr (d : string) :=
        match opt_scope options with
        | Some s => if truthy s then s else d
        | None => d
        end in
      scope ←
        match URL_pathname g with
        | Some pathname =>
            pathname (scopeOr "./")
              (match document_location_href ownerDocument with
               | Some href => if truthy href then href else "http://0.0.0.0/"
               | None => "http://0.0.0.0/"
               end)
        | None =>
            Normal ("/" ++ match opt_scope options with
                           | Some s => if truthy s then matchScope s else ""
                           | None => ""
                           end ++ "/")%string
        end;
      let mediaQueries := getMediaQueriesFromContainer container in
      let localStorage := resolveLocalStorage options container in
      longPressTimeout ← resolveLongPressTimeout (opt_longPressTimeout options);
      let '(c, h) :=
        initialise
          {| id := id; scope := scope;
             container :=
               {| container_ref := element_ref container;
                  container_ownerDocument := document_ref ownerDocument;
                  container_has_onmouseup := element_has_onmouseup container |};
             mediaQueries := mediaQueries; longPressTimeout := longPressTimeout;
             state := None; prefers := None; handlerState := None |}
          {| storage := localStorage; classList := element_classList container;
             listeners := []; subscriptions := []; timers := [];
             nextTimer := timerSeed g; trace := [] |} in
      Normal (Instance c h)
  | _, _ => if liveWindow g then Throw TypeError else Normal Placeholder
  end.

(** ** Running the handler over a sequence of deliveries *)

Fixpoint deliver (events : list (option Event)) (c : Controller) (h : Host)
  : Controller * Host :=
  match events with
  | [] => (c, h)
  | e :: events' => let '(c, h) := handleEvent e c h in deliver events' c h
  end.

(** The calls of [toggle], the Storage writes and the listener removals
    recorded in a trace. *)
Definition isCallToggle (e : Effect) : bool :=
  match e with CallToggle _ _ => true | _ => false end.

Definition isStorageSet (e : Effect) : bool :=
  match e with StorageSet _ _ => true | _ => false end.

Definition isRemoval (e : Effect) : bool :=
  match e with RemoveEventListener _ => true | _ => false end.

Definition toggleCalls (t : list Effect) : list Effect := List.filter isCallToggle t.
Definition storageWrites (t : list Effect) : list Effect := List.filter isStorageSet t.
Definition removals (t : list Effect) : list Effect := List.filter isRemoval t.

(** ** Sample inputs

    A page at [http://example.org/a/b] whose window offers [matchMedia] and,
    when [store] is given, a Storage object; the container is an element of
    that page carrying the class [page]. *)

Definition emptyStore : gmap string string := ∅.

Definition sampleWindow (store : option (gmap string string)) (darkMatches lightMatches : bool)
  : Window :=
  {| window_document := 1;
     window_localStorage := store;
     window_matchMedia :=
       Some (fun q =>
               {| mql_media := q;
                  mql_matches :=
                    if bool_decide (q = "(prefers-color-scheme: dark)")
                    then darkMatches else lightMatches |}) |}.

Definition sampleElement (store : option (gmap string string)) (darkMatches lightMatches : bool)
  : HTMLElement :=
  {| element_ref := 7;
     element_ownerDocument :=
       {| document_ref := 1; document_isDocumentNode := true;
          document_defaultView := Some (sampleWindow store darkMatches lightMatches);
          document_location_href := Some "http://example.org/a/b" |};
     element_has_onmouseup := true;
     element_classList := ["page"] |}.

Definition sampleGlobals : Globals :=
  {| liveWindow := true; window_body := None;
     URL_pathname := Some (fun _ _ => Normal "/a/"); timerSeed := 1 |}.

(** The instance and the host the constructor yields for the sample page
    with an empty Storage object while the system prefers dark. *)
Definition sampleController : Controller :=
  {| id := ""; scope := "/a/";
     container := {| container_ref := 7; container_ownerDocument := 1;
                     container_has_onmouseup := true |};
     mediaQueries :=
       {| prefersDarkMode :=
            Some {| mql_media := "(prefers-color-scheme: dark)"; mql_matches := true |};
          prefersLightMode :=
            Some {| mql_media := "(prefers-color-scheme: light)"; mql_matches := false |} |};
     longPressTimeout := num 2000%Z;
     state := Some Auto; prefers := Some Dark; handlerState := None |}.

Definition sampleHost : Host :=
  {| storage := Some {[ "dark-mode-state@/a/" := "auto" ]};
     classList := ["page"; "dark-mode"];
     listeners := [];
     subscriptions := ["(prefers-color-scheme: dark)"; "(prefers-color-scheme: light)"];
     timers := []; nextTimer := 1;
     trace := [StorageSet "dark-mode-state@/a/" "auto";
               CallToggle (ArgBool true) (Some true);
               StorageSet "dark-mode-state@/a/" "auto";
               ClassListAdd "dark-mode"; ClassListRemove "light-mode";
               AddListener "(prefers-color-scheme: dark)";
               AddListener "(prefers-color-scheme: light)"] |}.

(** The same page without any Storage object. *)
Definition bareController : Controller :=
  {| id := ""; scope := "/a/";
     container := {| container_ref := 7; container_ownerDocument := 1;
                     container_has_onmouseup := true |};
     mediaQueries :=
       {| prefersDarkMode :=
            Some {| mql_media := "(prefers-color-scheme: dark)"; mql_matches := true |};
          prefersLightMode :=
            Some {| mql_media := "(prefers-color-scheme: light)"; mql_matches := false |} |};
     longPressTimeout := num 2000%Z;
     state := None; prefers := None; handlerState := None |}.

Definition bareHost : Host :=
  {| storage := None; classList := ["page"]; listeners := []; subscriptions := [];
     timers := []; nextTimer := 1; trace := [] |}.

(** The element the sample gestures press and release. *)
Definition sampleTarget : Element := {| el_ref := 7; el_ownerDocument := Some 1 |}.

(** A mouse or pointer event: no [media], no [matches]. *)
Definition pointerEvent (type : string) (tgt : option Element) : Event :=
  {| ev_media := None; ev_type := type; ev_target := tgt; ev_matches := None |}.

(** A change event of the media query list [media]; its target is the list
    itself, which has no owner document. *)
Definition changeEvent (media : string) (matches : bool) : Event :=
  {| ev_media := Some media; ev_type := "change";
     ev_target := Some {| el_ref := 100; el_ownerDocument := None |};
     ev_matches := Some matches |}.

(** ** Notions used in the statements *)

(** The clamp applied to a rounded value. *)
Definition clampRounded (r : Z) : Z :=
  if (r <=? 0)%Z then 2000%Z else Z.max 1500 (Z.min 10000 r).

(** Adding a token to a list kept as a set: the list afterwards. *)
Definition added (token : string) (l : list string) : list string :=
  if bool_decide (token ∈ l) then l else l ++ [token].

(** The class list after [add on] and [remove off]. *)
Definition marked (on off : string) (l : list string) : list string :=
  filter (fun t => t ≠ off) (added on l).

(** Two hosts that differ at most in listeners and timers: same Storage
    contents, class list and subscriptions, and no [toggle] call, Storage
    write or listener removal between them. *)
Definition quiet (h h' : Host) : Prop :=
  storage h' = storage h /\ classList h' = classList h /\
  subscriptions h' = subscriptions h /\
  toggleCalls (trace h') = toggleCalls (trace h) /\
  storageWrites (trace h') = storageWrites (trace h) /\
  removals (trace h') = removals (trace h).

(** The handler state on entry: the one kept on the bound handler, or the
    blank one. *)
Definition entryTarget (c : Controller) : option Element := handlerState c ≫= target.
Definition entryCommitted (c : Controller) : option bool := handlerState c ≫= committed.
Definition entryTimeout (c : Controller) : option nat := handlerState c ≫= timeout.

(** The entry of [handleEvent], lines 184-224: the handler state is found
    or created, a pending timer is cleared, and the document of the event's
    target is registered. *)
Definition prepare (event : option Event) (c : Controller) (h : Host) : HandlerState * Host :=
  let '(s, h) := ensureHandlerState c h in
  let '(s, h) := clearPending s h in
  registerContext c ((event ≫= ev_target) ≫= el_ownerDocument) s h.

(** The subscriptions after lines 97-100. *)
Definition subscribed (q : MediaQueries) (l : list string) : list string :=
  let l := from_option (fun m => added (mql_media m) l) l (prefersDarkMode q) in
  from_option (fun m => added (mql_media m) l) l (prefersLightMode q).

(** A sequence of [toggle] calls made by the page. *)
Fixpoint toggleAll (calls : list (ToggleArg * option bool)) (c : Controller) (h : Host)
  : Controller * Host :=
  match calls with
  | [] => (c, h)
  | (arg, auto) :: calls' => let '(c, h) := toggle arg auto c h in toggleAll calls' c h
  end.

(** From a constructed instance, by calls of [toggle], deliveries to the
    handler, timers firing and calls of [detach]. *)
Inductive reachable : Controller -> Host -> Prop :=
| reach_construct g container options c h :
    construct g container options = Normal (Instance c h) -> reachable c h
| reach_toggle arg auto c h :
    reachable c h -> reachable (toggle arg auto c h).1 (toggle arg auto c h).2
| reach_event event c h :
    reachable c h -> reachable (handleEvent event c h).1 (handleEvent event c h).2
| reach_timer handle c h c' h' :
    reachable c h -> timerFires handle c h = Some (c', h') -> reachable c' h'
| reach_detach c h c' h' :
    reachable c h -> detach c h = Normal (c', h') -> reachable c' h'.

(** The mode agrees with the marker on the container. *)
Definition coherent (c : Controller) (h : Host) : Prop :=
  (state c = Some Enabled -> "dark-mode" ∈ classList h) /\
  (state c = Some Disabled -> "dark-mode" ∉ classList h).

(** Every document of the registry carries the instance's up-listener. *)
Definition registered (c : Controller) (h : Host) : Prop :=
  forall s d, handlerState c = Some s -> d ∈ targets s -> upListener c d ∈ listeners h.

(** Every listener of the instance is a capture-phase listener. *)
Definition capturing (h : Host) : Prop :=
  forall l, l ∈ listeners h -> l_capture l = true.

(** With a Storage object, the value under the instance's key is the mode. *)
Definition persisted (c : Controller) (h : Host) : Prop :=
  forall m, storage h = Some m ->
    exists st, state c = Some st /\ m !! key c = Some (State_string st).

(** The removals [detach] asks of one document. *)
Definition detachRequests (d : DocumentRef) : list Effect :=
  [RemoveEventListener {| l_document := d; l_type := "onmousedown"; l_capture := false |};
   RemoveEventListener {| l_document := d; l_type := "onmouseup"; l_capture := false |};
   RemoveEventListener {| l_document := d; l_type := "onpointerdown"; l_capture := false |};
   RemoveEventListener {| l_document := d; l_type := "onpointerup"; l_capture := false |}].

(** The invariant of the handler state, and the half of it that survives
    every delivery. *)
Definition timerPending (s : HandlerState) : Prop := is_Some (timeout s).
Definition capturePending (s : HandlerState) : Prop :=
  is_Some (target s) /\ committed s = Some false.

(** ** Further notions *)

(** Every code unit of the string is a non-blank one. *)
Definition blankFree (s : string) : Prop :=
  forall a, a ∈ list_ascii_of_string s -> is_white_space a = false.

(** The host once the timer [handle] has gone off: the handle has left the
    timer table. *)
Definition expire (handle : nat) (h : Host) : Host :=
  {| storage := storage h; classList := classList h;
     listeners := listeners h; subscriptions := subscriptions h;
     timers := filter (fun t => t ≠ handle) (timers h);
     nextTimer := nextTimer h; trace := trace h |}.

(** With a mode set, exactly one of the two markers is on the container. *)
Definition exclusive (c : Controller) (h : Host) : Prop :=
  is_Some (state c) -> ("dark-mode" ∈ classList h <-> "light-mode" ∉ classList h).

(** The sample page reopened once the mode [disabled] has been persisted:
    the Storage contents, and the instance and the host the constructor
    yields for them. *)
Definition disabledStore : gmap string string := {[ "dark-mode-state@/a/" := "disabled" ]}.

Definition reopenedController : Controller :=
  {| id := ""; scope := "/a/";
     container := {| container_ref := 7; container_ownerDocument := 1;
                     container_has_onmouseup := true |};
     mediaQueries :=
       {| prefersDarkMode :=
            Some {| mql_media := "(prefers-color-scheme: dark)"; mql_matches := true |};
          prefersLightMode :=
            Some {| mql_media := "(prefers-color-scheme: light)"; mql_matches := false |} |};
     longPressTimeout := num 2000%Z;
     state := Some Disabled; prefers := None; handlerState := None |}.

Definition reopenedHost : Host :=
  {| storage := Some disabledStore;
     classList := ["page"; "light-mode"];
     listeners := [];
     subscriptions := ["(prefers-color-scheme: dark)"; "(prefers-color-scheme: light)"];
     timers := []; nextTimer := 1;
     trace := [CallToggle (ArgBool false) None;
               StorageSet "dark-mode-state@/a/" "disabled";
               ClassListAdd "light-mode"; ClassListRemove "dark-mode";
               AddListener "(prefers-color-scheme: dark)";
               AddListener "(prefers-color-scheme: light)"] |}.

(** The timer table holds nothing, or just the handle the handler state
    remembers, and then a press is in progress. *)
Definition timerTracked (c : Controller) (h : Host) : Prop :=
  timers h = [] \/
  exists s t, handlerState c = Some s /\ timeout s = Some t /\ timers h = [t] /\
    is_Some (target s) /\ committed s = Some false.

(** No listener before the handler has run; afterwards the up-listener on
    the container's document; and nothing but up-listeners. *)
Definition listening (c : Controller) (h : Host) : Prop :=
  (handlerState c = None -> listeners h = []) /\
  (is_Some (handlerState c) ->
   upListener c (container_ownerDocument (container c)) ∈ listeners h) /\
  (forall l, l ∈ listeners h -> l = upListener c (l_document l)).

(** What the instance [c] may do to the host: write a mode name under its
    own key, add or remove one of the two markers, install one of its
    up-listeners, ask for the removals of [detach], subscribe to one of its
    two feeds, arm a timer with its own delay. *)
Definition allowed (c : Controller) (e : Effect) : Prop :=
  match e with
  | StorageSet k v => k = key c /\ exists st, v = State_string st
  | ClassListAdd token | ClassListRemove token =>
      token = "dark-mode" \/ token = "light-mode"
  | AddEventListener l => l = upListener c (l_document l)
  | RemoveEventListener l =>
      l_capture l = false /\
      l_type l ∈ ["onmousedown"; "onmouseup"; "onpointerdown"; "onpointerup"]
  | AddListener media =>
      Some media = mql_media <$> prefersDarkMode (mediaQueries c) \/
      Some media = mql_media <$> prefersLightMode (mediaQueries c)
  | SetTimeout _ delay => delay = longPressTimeout c
  | CallToggle _ _ | ClearTimeout _ | ConsoleWarn => True
  end.

Definition confined (c : Controller) (h : Host) : Prop := Forall (allowed c) (trace h).

(** What the instance [c] leaves alone between two hosts: every class but
    the two markers, every Storage entry but the one under its key, and the
    subscriptions. *)
Definition untouched (c : Controller) (h h' : Host) : Prop :=
  (forall token, token ≠ "dark-mode" -> token ≠ "light-mode" ->
     (token ∈ classList h' <-> token ∈ classList h)) /\
  (forall k, k ≠ key c ->
     (storage h' ≫= fun m => m !! k) = (storage h ≫= fun m => m !! k)) /\
  subscriptions h' = subscriptions h.

(** A tap: a press on [t] and the release on it, with nothing in between. *)
Definition tap (downType upType : string) (t : Element) (c : Controller) (h : Host)
  : Controller * Host :=
  let '(c1, h1) := handleEvent (Some (pointerEvent downType (Some t))) c h in
  handleEvent (Some (pointerEvent upType (Some t))) c1 h1.

(** Without a Storage object nothing has been written and no feed is
    subscribed. *)
Definition unpersisted (h : Host) : Prop :=
  storage h = None -> storageWrites (trace h) = [] /\ subscriptions h = [].

(** The code unit [a] is the lower-case letter [p] or its upper-case form,
    which lies 32 below it. *)
Definition sameLetter (p a : ascii) : Prop :=
  nat_of_ascii a = nat_of_ascii p \/ nat_of_ascii a + 32 = nat_of_ascii p.

(** The code units [m] spell the lower-case [word] up to letter case. *)
Definition readsAs (word : string) (m : list ascii) : Prop :=
  Forall2 sameLetter (list_ascii_of_string word) m.

(** A word character: a digit, a letter or the underscore. *)
Definition wordUnit (a : ascii) : Prop :=
  (48 <= nat_of_ascii a <= 57)%nat \/ (65 <= nat_of_ascii a <= 90)%nat \/
  (97 <= nat_of_ascii a <= 122)%nat \/ nat_of_ascii a = 95%nat.

(** One of the four pointer-event names, up to letter case. *)
Definition pointerName (source : string) : Prop :=
  readsAs "mouseup" (list_ascii_of_string source) \/
  readsAs "mousedown" (list_ascii_of_string source) \/
  readsAs "pointerup" (list_ascii_of_string source) \/
  readsAs "pointerdown" (list_ascii_of_string source).

(** [source] is [pre], then [m], then [post], where [m] spells "light" or
    "dark" up to case and is a whole word: no word character right before
    it and none right after it. *)
Definition schemeWordAt (source pre m post : list ascii) : Prop :=
  source = pre ++ m ++ post /\
  (readsAs "light" m \/ readsAs "dark" m) /\
  (forall a, last pre = Some a -> ~ wordUnit a) /\
  (forall a, head post = Some a -> ~ wordUnit a).

(** [m] is the leftmost such word of [source]. *)
Definition firstSchemeWord (source m : list ascii) : Prop :=
  exists pre post, schemeWordAt source pre m post /\
    forall pre' m' post', schemeWordAt source pre' m' post' ->
      (length pre <= length pre')%nat.

(** A word made of lower-case letters. *)
Definition lowerWord (w : string) : Prop :=
  Forall (fun p => (97 <= nat_of_ascii p <= 122)%nat) (list_ascii_of_string w).

(** An occurrence seen from inside the scan: [before] tells whether the
    code unit in front of the scanned part is a word character. *)
Definition occAt (before : bool) (s : string) (pre m post : list ascii) : Prop :=
  list_ascii_of_string s = pre ++ m ++ post /\
  (readsAs "light" m \/ readsAs "dark" m) /\
  match last pre with Some a => ~ wordUnit a | None => before = false end /\
  (forall a, head post = Some a -> ~ wordUnit a).

(** The sample page while the system prefers light: the instance and the
    host the constructor yields over an empty Storage object. *)
Definition lightController : Controller :=
  {| id := ""; scope := "/a/";
     container := {| container_ref := 7; container_ownerDocument := 1;
                     container_has_onmouseup := true |};
     mediaQueries :=
       {| prefersDarkMode :=
            Some {| mql_media := "(prefers-color-scheme: dark)"; mql_matches := false |};
          prefersLightMode :=
            Some {| mql_media := "(prefers-color-scheme: light)"; mql_matches := true |} |};
     longPressTimeout := num 2000%Z;
     state := Some Auto; prefers := Some Light; handlerState := None |}.

Definition lightHost : Host :=
  {| storage := Some {[ "dark-mode-state@/a/" := "auto" ]};
     classList := ["page"; "light-mode"];
     listeners := [];
     subscriptions := ["(prefers-color-scheme: dark)"; "(prefers-color-scheme: light)"];
     timers := []; nextTimer := 1;
     trace := [StorageSet "dark-mode-state@/a/" "auto";
               CallToggle (ArgBool false) (Some true);
               StorageSet "dark-mode-state@/a/" "auto";
               ClassListAdd "light-mode"; ClassListRemove "dark-mode";
               AddListener "(prefers-color-scheme: dark)";
               AddListener "(prefers-color-scheme: light)"] |}.

(** Options that give an id and nothing else. *)
Definition idOptions (i : string) : Options :=
  {| opt_localStorage := None; opt_scope := None; opt_id := Some i;
     opt_longPressTimeout := VPrim PUndefined |}.

(** The sample page, system preferring dark, constructed with the id "ab". *)
Definition namedController : Controller :=
  {| id := "ab"; scope := "/a/";
     container := {| container_ref := 7; container_ownerDocument := 1;
                     container_has_onmouseup := true |};
     mediaQueries :=
       {| prefersDarkMode :=
            Some {| mql_media := "(prefers-color-scheme: dark)"; mql_matches := true |};
          prefersLightMode :=
            Some {| mql_media := "(prefers-color-scheme: light)"; mql_matches := false |} |};
     longPressTimeout := num 2000%Z;
     state := Some Auto; prefers := Some Dark; handlerState := None |}.

Definition namedHost : Host :=
  {| storage := Some {[ "dark-mode-state@/a/#ab" := "auto" ]};
     classList := ["page"; "dark-mode"];
     listeners := [];
     subscriptions := ["(prefers-color-scheme: dark)"; "(prefers-color-scheme: light)"];
     timers := []; nextTimer := 1;
     trace := [StorageSet "dark-mode-state@/a/#ab" "auto";
               CallToggle (ArgBool true) (Some true);
               StorageSet "dark-mode-state@/a/#ab" "auto";
               ClassListAdd "dark-mode"; ClassListRemove "light-mode";
               AddListener "(prefers-color-scheme: dark)";
               AddListener "(prefers-color-scheme: light)"] |}.

(** The sample instance once a press on the sample target has reached the
    handler. *)
Definition pressedController : Controller :=
  (handleEvent (Some (pointerEvent "mousedown" (Some sampleTarget)))
     sampleController sampleHost).1.

Definition pressedHost : Host :=
  (handleEvent (Some (pointerEvent "mousedown" (Some sampleTarget)))
     sampleController sampleHost).2.

(** * Properties *)

(** ** The long-press timeout *)

Lemma Qle_bool_inject_Z (a b : Z) : Qle_bool (inject_Z a) (inject_Z b) = (a <=? b)%Z.
Proof. unfold Qle_bool, inject_Z; simpl. by rewrite !Z.mul_1_r. Qed.

Lemma num_gt_num (a b : Z) : num_gt (num a) (num b) = negb (a <=? b)%Z.
Proof. unfold num_gt, num_lt, num. by rewrite Qle_bool_inject_Z. Qed.

Lemma num_le_num (a b : Z) : num_le (num a) (num b) = (a <=? b)%Z.
Proof. unfold num_le, num. by rewrite Qle_bool_inject_Z. Qed.

Lemma Math_round_cases (n : Number) :
  Math_round n = NaN \/ (exists b, Math_round n = Infinity b) \/ (exists r, Math_round n = num r).
Proof. destruct n as [|b|q]; simpl; eauto. Qed.

Lemma clampRounded_range (r : Z) : (1500 <= clampRounded r <= 10000)%Z.
Proof. unfold clampRounded. destruct (Z.leb_spec r 0); lia. Qed.

Lemma resolve_rounded (v : JsValue) (n : Number) (r : Z) :
  ToNumber v = Normal n -> Math_round n = num r ->
  resolveLongPressTimeout v = Normal (num (clampRounded r)).
Proof.
  intros Hv Hr. unfold resolveLongPressTimeout. rewrite Hv.
  unfold mbind, completion_bind. rewrite Hr.
  rewrite num_gt_num. unfold clampRounded.
  destruct (Z.leb_spec r 0) as [Hle|Hgt]; cbn [negb]; [done|].
  rewrite num_le_num.
  destruct (Z.leb_spec r 10000) as [H1|H1]; unfold num_ge; rewrite num_le_num.
  - destruct (Z.leb_spec 1500 r) as [H2|H2]; do 2 f_equal; lia.
  - destruct (Z.leb_spec 1500 10000) as [H2|H2]; [|lia]. do 2 f_equal. lia.
Qed.

Example resolveLongPressTimeout_examples :
  resolveLongPressTimeout (VPrim PUndefined) = Normal (num 2000%Z) /\
  resolveLongPressTimeout (VPrim (PNumber (num 3000%Z))) = Normal (num 3000%Z) /\
  resolveLongPressTimeout (VPrim (PNumber (Finite (3001 # 2)))) = Normal (num 1501%Z) /\
  resolveLongPressTimeout (VPrim (PNumber (Infinity false))) = Normal (num 10000%Z) /\
  resolveLongPressTimeout (VPrim (PNumber (Infinity true))) = Normal (num 2000%Z) /\
  resolveLongPressTimeout (VPrim (PBoolean true)) = Normal (num 1500%Z) /\
  resolveLongPressTimeout (VPrim PNull) = Normal (num 2000%Z) /\
  resolveLongPressTimeout (VPrim PSymbol) = Throw TypeError /\
  resolveLongPressTimeout (VObject (Normal (PString (num 4000%Z)))) = Normal (num 4000%Z).
Proof. repeat split; reflexivity. Qed.

(** C7, as the code has it: whenever the rounding returns, the timeout is
    an integer within [1500, 10000]; it is the default 2000 when the option
    rounds to NaN, to -Infinity or to a number that is not positive, and
    the rounded value clamped into the range otherwise (+Infinity giving
    10000).  The rounding throws exactly when [ToNumber] does. *)
Theorem longPressTimeout_resolved (v : JsValue) (t : Number) :
  resolveLongPressTimeout v = Normal t ->
  exists (z : Z) (n : Number),
    t = num z /\ (1500 <= z <= 10000)%Z /\ ToNumber v = Normal n /\
    match Math_round n with
    | NaN => z = 2000%Z
    | Infinity negative => z = if negative then 2000%Z else 10000%Z
    | Finite q =>
        exists r : Z, q = inject_Z r /\
          z = if (r <=? 0)%Z then 2000%Z else Z.max 1500 (Z.min 10000 r)
    end.
Proof.
  intros H. destruct (ToNumber v) as [n|e] eqn:Hv.
  2:{ unfold resolveLongPressTimeout in H. rewrite Hv in H. discriminate. }
  destruct (Math_round_cases n) as [Hn|[[b Hn]|[r Hn]]].
  - unfold resolveLongPressTimeout in H. rewrite Hv in H. simpl in H. rewrite Hn in H.
    simpl in H. inversion H; subst. exists 2000%Z, n. rewrite Hn. repeat split; lia.
  - unfold resolveLongPressTimeout in H. rewrite Hv in H. simpl in H. rewrite Hn in H.
    destruct b; simpl in H; inversion H; subst.
    + exists 2000%Z, n. rewrite Hn. repeat split; lia.
    + exists 10000%Z, n. rewrite Hn. repeat split; lia.
  - rewrite (resolve_rounded v n r Hv Hn) in H. inversion H; subst.
    exists (clampRounded r), n. rewrite Hn.
    split; [done|]. split; [apply clampRounded_range|]. split; [done|].
    exists r. split; reflexivity.
Qed.

Lemma longPressTimeout_resolved_witness :
  exists (z : Z) (n : Number),
    num 10000%Z = num z /\ (1500 <= z <= 10000)%Z /\
    ToNumber (VPrim (PNumber (num 20000%Z))) = Normal n /\
    match Math_round n with
    | NaN => z = 2000%Z
    | Infinity negative => z = if negative then 2000%Z else 10000%Z
    | Finite q =>
        exists r : Z, q = inject_Z r /\
          z = if (r <=? 0)%Z then 2000%Z else Z.max 1500 (Z.min 10000 r)
    end.
Proof.
  apply (longPressTimeout_resolved (VPrim (PNumber (num 20000%Z))) (num 10000%Z)).
  reflexivity.
Defined.

(** C7 as stated fails: 20000 and 100 lie outside [1500, 10000], yet they
    resolve to the nearer bound and not to the default 2000. *)
Lemma longPressTimeout_out_of_range_not_default :
  resolveLongPressTimeout (VPrim (PNumber (num 20000%Z))) = Normal (num 10000%Z) /\
  resolveLongPressTimeout (VPrim (PNumber (num 100%Z))) = Normal (num 1500%Z) /\
  Normal (num 10000%Z) <> Normal (num 2000%Z) /\
  Normal (num 1500%Z) <> Normal (num 2000%Z).
Proof. repeat split; try reflexivity; discriminate. Qed.

(** ** Projections of the host primitives

    Each primitive rebuilds the host record; its effect is read off one
    field at a time, by rewriting with the equations below. *)

Lemma host_ext (h1 h2 : Host) :
  storage h1 = storage h2 -> classList h1 = classList h2 ->
  listeners h1 = listeners h2 -> subscriptions h1 = subscriptions h2 ->
  timers h1 = timers h2 -> nextTimer h1 = nextTimer h2 -> trace h1 = trace h2 ->
  h1 = h2.
Proof. destruct h1, h2; cbn [storage classList listeners subscriptions timers nextTimer trace]. congruence. Qed.

Lemma storage_log (e : Effect) (h : Host) :
  storage (log e h) = storage h.
Proof. reflexivity. Qed.

Lemma classList_log (e : Effect) (h : Host) :
  classList (log e h) = classList h.
Proof. reflexivity. Qed.

Lemma listeners_log (e : Effect) (h : Host) :
  listeners (log e h) = listeners h.
Proof. reflexivity. Qed.

Lemma subscriptions_log (e : Effect) (h : Host) :
  subscriptions (log e h) = subscriptions h.
Proof. reflexivity. Qed.

Lemma timers_log (e : Effect) (h : Host) :
  timers (log e h) = timers h.
Proof. reflexivity. Qed.

Lemma nextTimer_log (e : Effect) (h : Host) :
  nextTimer (log e h) = nextTimer h.
Proof. reflexivity. Qed.

Lemma trace_log (e : Effect) (h : Host) :
  trace (log e h) = (trace h ++ [e])%list.
Proof. reflexivity. Qed.

Lemma storage_storage_set (k v : string) (h : Host) :
  storage (storage_set k v h) = (fun m : gmap string string => <[k:=v]> m) <$> storage h.
Proof. reflexivity. Qed.

Lemma classList_storage_set (k v : string) (h : Host) :
  classList (storage_set k v h) = classList h.
Proof. reflexivity. Qed.

Lemma listeners_storage_set (k v : string) (h : Host) :
  listeners (storage_set k v h) = listeners h.
Proof. reflexivity. Qed.

Lemma subscriptions_storage_set (k v : string) (h : Host) :
  subscriptions (storage_set k v h) = subscriptions h.
Proof. reflexivity. Qed.

Lemma timers_storage_set (k v : string) (h : Host) :
  timers (storage_set k v h) = timers h.
Proof. reflexivity. Qed.

Lemma nextTimer_storage_set (k v : string) (h : Host) :
  nextTimer (storage_set k v h) = nextTimer h.
Proof. reflexivity. Qed.

Lemma trace_storage_set (k v : string) (h : Host) :
  trace (storage_set k v h) = (trace h ++ [StorageSet k v])%list.
Proof. reflexivity. Qed.

Lemma storage_classList_add (token : string) (h : Host) :
  storage (classList_add token h) = storage h.
Proof. reflexivity. Qed.

Lemma classList_classList_add (token : string) (h : Host) :
  classList (classList_add token h) = added token (classList h).
Proof. reflexivity. Qed.

Lemma listeners_classList_add (token : string) (h : Host) :
  listeners (classList_add token h) = listeners h.
Proof. reflexivity. Qed.

Lemma subscriptions_classList_add (token : string) (h : Host) :
  subscriptions (classList_add token h) = subscriptions h.
Proof. reflexivity. Qed.

Lemma timers_classList_add (token : string) (h : Host) :
  timers (classList_add token h) = timers h.
Proof. reflexivity. Qed.

Lemma nextTimer_classList_add (token : string) (h : Host) :
  nextTimer (classList_add token h) = nextTimer h.
Proof. reflexivity. Qed.

Lemma trace_classList_add (token : string) (h : Host) :
  trace (classList_add token h) = (trace h ++ [ClassListAdd token])%list.
Proof. reflexivity. Qed.

Lemma storage_classList_remove (token : string) (h : Host) :
  storage (classList_remove token h) = storage h.
Proof. reflexivity. Qed.

Lemma classList_classList_remove (token : string) (h : Host) :
  classList (classList_remove token h) = filter (fun t => t ≠ token) (classList h).
Proof. reflexivity. Qed.

Lemma listeners_classList_remove (token : string) (h : Host) :
  listeners (classList_remove token h) = listeners h.
Proof. reflexivity. Qed.

Lemma subscriptions_classList_remove (token : string) (h : Host) :
  subscriptions (classList_remove token h) = subscriptions h.
Proof. reflexivity. Qed.

Lemma timers_classList_remove (token : string) (h : Host) :
  timers (classList_remove token h) = timers h.
Proof. reflexivity. Qed.

Lemma nextTimer_classList_remove (token : string) (h : Host) :
  nextTimer (classList_remove token h) = nextTimer h.
Proof. reflexivity. Qed.

Lemma trace_classList_remove (token : string) (h : Host) :
  trace (classList_remove token h) = (trace h ++ [ClassListRemove token])%list.
Proof. reflexivity. Qed.

Lemma storage_addEventListener (l : Listener) (h : Host) :
  storage (addEventListener l h) = storage h.
Proof. reflexivity. Qed.

Lemma classList_addEventListener (l : Listener) (h : Host) :
  classList (addEventListener l h) = classList h.
Proof. reflexivity. Qed.

Lemma listeners_addEventListener (l : Listener) (h : Host) :
  listeners (addEventListener l h) = (if bool_decide (l ∈ listeners h) then listeners h else listeners h ++ [l])%list.
Proof. reflexivity. Qed.

Lemma subscriptions_addEventListener (l : Listener) (h : Host) :
  subscriptions (addEventListener l h) = subscriptions h.
Proof. reflexivity. Qed.

Lemma timers_addEventListener (l : Listener) (h : Host) :
  timers (addEventListener l h) = timers h.
Proof. reflexivity. Qed.

Lemma nextTimer_addEventListener (l : Listener) (h : Host) :
  nextTimer (addEventListener l h) = nextTimer h.
Proof. reflexivity. Qed.

Lemma trace_addEventListener (l : Listener) (h : Host) :
  trace (addEventListener l h) = (trace h ++ [AddEventListener l])%list.
Proof. reflexivity. Qed.

Lemma storage_removeEventListener (l : Listener) (h : Host) :
  storage (removeEventListener l h) = storage h.
Proof. reflexivity. Qed.

Lemma classList_removeEventListener (l : Listener) (h : Host) :
  classList (removeEventListener l h) = classList h.
Proof. reflexivity. Qed.

Lemma listeners_removeEventListener (l : Listener) (h : Host) :
  listeners (removeEventListener l h) = filter (fun l' => l' ≠ l) (listeners h).
Proof. reflexivity. Qed.

Lemma subscriptions_removeEventListener (l : Listener) (h : Host) :
  subscriptions (removeEventListener l h) = subscriptions h.
Proof. reflexivity. Qed.

Lemma timers_removeEventListener (l : Listener) (h : Host) :
  timers (removeEventListener l h) = timers h.
Proof. reflexivity. Qed.

Lemma nextTimer_removeEventListener (l : Listener) (h : Host) :
  nextTimer (removeEventListener l h) = nextTimer h.
Proof. reflexivity. Qed.

Lemma trace_removeEventListener (l : Listener) (h : Host) :
  trace (removeEventListener l h) = (trace h ++ [RemoveEventListener l])%list.
Proof. reflexivity. Qed.

Lemma storage_addListener (q : MediaQueryList) (h : Host) :
  storage (addListener q h) = storage h.
Proof. reflexivity. Qed.

Lemma classList_addListener (q : MediaQueryList) (h : Host) :
  classList (addListener q h) = classList h.
Proof. reflexivity. Qed.

Lemma listeners_addListener (q : MediaQueryList) (h : Host) :
  listeners (addListener q h) = listeners h.
Proof. reflexivity. Qed.

Lemma subscriptions_addListener (q : MediaQueryList) (h : Host) :
  subscriptions (addListener q h) = added (mql_media q) (subscriptions h).
Proof. reflexivity. Qed.

Lemma timers_addListener (q : MediaQueryList) (h : Host) :
  timers (addListener q h) = timers h.
Proof. reflexivity. Qed.

Lemma nextTimer_addListener (q : MediaQueryList) (h : Host) :
  nextTimer (addListener q h) = nextTimer h.
Proof. reflexivity. Qed.

Lemma trace_addListener (q : MediaQueryList) (h : Host) :
  trace (addListener q h) = (trace h ++ [AddListener (mql_media q)])%list.
Proof. reflexivity. Qed.

Lemma storage_setTimeout (d : Number) (h : Host) :
  storage ((setTimeout d h).2) = storage h.
Proof. reflexivity. Qed.

Lemma classList_setTimeout (d : Number) (h : Host) :
  classList ((setTimeout d h).2) = classList h.
Proof. reflexivity. Qed.

Lemma listeners_setTimeout (d : Number) (h : Host) :
  listeners ((setTimeout d h).2) = listeners h.
Proof. reflexivity. Qed.

Lemma subscriptions_setTimeout (d : Number) (h : Host) :
  subscriptions ((setTimeout d h).2) = subscriptions h.
Proof. reflexivity. Qed.

Lemma timers_setTimeout (d : Number) (h : Host) :
  timers ((setTimeout d h).2) = (timers h ++ [nextTimer h])%list.
Proof. reflexivity. Qed.

Lemma nextTimer_setTimeout (d : Number) (h : Host) :
  nextTimer ((setTimeout d h).2) = S (nextTimer h).
Proof. reflexivity. Qed.

Lemma trace_setTimeout (d : Number) (h : Host) :
  trace ((setTimeout d h).2) = (trace h ++ [SetTimeout (nextTimer h) d])%list.
Proof. reflexivity. Qed.

Lemma storage_clearTimeout (t : nat) (h : Host) :
  storage (clearTimeout t h) = storage h.
Proof. reflexivity. Qed.

Lemma classList_clearTimeout (t : nat) (h : Host) :
  classList (clearTimeout t h) = classList h.
Proof. reflexivity. Qed.

Lemma listeners_clearTimeout (t : nat) (h : Host) :
  listeners (clearTimeout t h) = listeners h.
Proof. reflexivity. Qed.

Lemma subscriptions_clearTimeout (t : nat) (h : Host) :
  subscriptions (clearTimeout t h) = subscriptions h.
Proof. reflexivity. Qed.

Lemma timers_clearTimeout (t : nat) (h : Host) :
  timers (clearTimeout t h) = filter (fun t' => t' ≠ t) (timers h).
Proof. reflexivity. Qed.

Lemma nextTimer_clearTimeout (t : nat) (h : Host) :
  nextTimer (clearTimeout t h) = nextTimer h.
Proof. reflexivity. Qed.

Lemma trace_clearTimeout (t : nat) (h : Host) :
  trace (clearTimeout t h) = (trace h ++ [ClearTimeout t])%list.
Proof. reflexivity. Qed.

Lemma storage_console_warn (h : Host) :
  storage (console_warn h) = storage h.
Proof. reflexivity. Qed.

Lemma classList_console_warn (h : Host) :
  classList (console_warn h) = classList h.
Proof. reflexivity. Qed.

Lemma listeners_console_warn (h : Host) :
  listeners (console_warn h) = listeners h.
Proof. reflexivity. Qed.

Lemma subscriptions_console_warn (h : Host) :
  subscriptions (console_warn h) = subscriptions h.
Proof. reflexivity. Qed.

Lemma timers_console_warn (h : Host) :
  timers (console_warn h) = timers h.
Proof. reflexivity. Qed.

Lemma nextTimer_console_warn (h : Host) :
  nextTimer (console_warn h) = nextTimer h.
Proof. reflexivity. Qed.

Lemma trace_console_warn (h : Host) :
  trace (console_warn h) = (trace h ++ [ConsoleWarn])%list.
Proof. reflexivity. Qed.

Lemma setTimeout_handle (d : Number) (h : Host) : (setTimeout d h).1 = nextTimer h.
Proof. reflexivity. Qed.

Create Rewrite HintDb host.

#[global] Hint Rewrite
  storage_log classList_log listeners_log subscriptions_log timers_log nextTimer_log
  trace_log storage_storage_set classList_storage_set listeners_storage_set
  subscriptions_storage_set timers_storage_set nextTimer_storage_set trace_storage_set
  storage_classList_add classList_classList_add listeners_classList_add
  subscriptions_classList_add timers_classList_add nextTimer_classList_add
  trace_classList_add storage_classList_remove classList_classList_remove
  listeners_classList_remove subscriptions_classList_remove timers_classList_remove
  nextTimer_classList_remove trace_classList_remove storage_addEventListener
  classList_addEventListener listeners_addEventListener subscriptions_addEventListener
  timers_addEventListener nextTimer_addEventListener trace_addEventListener
  storage_removeEventListener classList_removeEventListener
  listeners_removeEventListener subscriptions_removeEventListener
  timers_removeEventListener nextTimer_removeEventListener trace_removeEventListener
  storage_addListener classList_addListener listeners_addListener
  subscriptions_addListener timers_addListener nextTimer_addListener trace_addListener
  storage_setTimeout classList_setTimeout listeners_setTimeout subscriptions_setTimeout
  timers_setTimeout nextTimer_setTimeout trace_setTimeout storage_clearTimeout
  classList_clearTimeout listeners_clearTimeout subscriptions_clearTimeout
  timers_clearTimeout nextTimer_clearTimeout trace_clearTimeout storage_console_warn
  classList_console_warn listeners_console_warn subscriptions_console_warn
  timers_console_warn nextTimer_console_warn trace_console_warn setTimeout_handle
  : host.

(** ** Class list and storage primitives *)

Lemma key_truthy (c : Controller) : truthy (key c) = true.
Proof. reflexivity. Qed.

Lemma filter_ne_idemp {A} `{EqDecision A} (x : A) (l : list A) :
  filter (fun y => y ≠ x) (filter (fun y => y ≠ x) l) = filter (fun y => y ≠ x) l.
Proof.
  induction l as [|a l IH]; [done|].
  rewrite filter_cons. destruct (decide (a ≠ x)); [|done].
  rewrite filter_cons. destruct (decide (a ≠ x)); [|done]. by rewrite IH.
Qed.

Lemma elem_of_filter_ne {A} `{EqDecision A} (x y : A) (l : list A) :
  y ∈ filter (fun z => z ≠ x) l <-> y ≠ x /\ y ∈ l.
Proof. by rewrite list_elem_of_filter. Qed.

Lemma not_elem_of_filter_ne {A} `{EqDecision A} (x : A) (l : list A) :
  x ∉ filter (fun z => z ≠ x) l.
Proof. rewrite elem_of_filter_ne. tauto. Qed.

Lemma elem_of_added (token : string) (l : list string) : token ∈ added token l.
Proof.
  unfold added. case_bool_decide; [done|]. apply elem_of_app. right. by left.
Qed.

Lemma added_id (token : string) (l : list string) : token ∈ l -> added token l = l.
Proof. intros H. unfold added. by rewrite bool_decide_eq_true_2. Qed.

Lemma marked_on (on off : string) (l : list string) : on ≠ off -> on ∈ marked on off l.
Proof. intros H. unfold marked. rewrite elem_of_filter_ne. split; [done|apply elem_of_added]. Qed.

Lemma marked_off (on off : string) (l : list string) : off ∉ marked on off l.
Proof. apply not_elem_of_filter_ne. Qed.

Lemma marked_idemp (on off : string) (l : list string) :
  on ≠ off -> marked on off (marked on off l) = marked on off l.
Proof.
  intros H. unfold marked at 1. rewrite added_id by by apply marked_on.
  unfold marked. apply filter_ne_idemp.
Qed.

(** ** toggle *)

(** Rewriting with the projection equations, wherever they apply. *)
Ltac host_rw := try rewrite_strat (topdown (hints host)).

(** Projections of the instance and of the handler state. *)
Ltac own_simpl :=
  cbn [id scope container mediaQueries longPressTimeout state prefers handlerState
       set_state set_prefers set_handlerState
       action committed target timeout targets
       set_action set_committed set_target set_timeout set_targets releaseState
       fst snd].

Tactic Notation "own_simpl" "in" hyp(H) :=
  cbn [id scope container mediaQueries longPressTimeout state prefers handlerState
       set_state set_prefers set_handlerState
       action committed target timeout targets
       set_action set_committed set_target set_timeout set_targets releaseState
       fst snd] in H.

Lemma key_set_state (v : option State) (c : Controller) : key (set_state v c) = key c.
Proof. reflexivity. Qed.

Lemma key_set_prefers (v : option ColorScheme) (c : Controller) : key (set_prefers v c) = key c.
Proof. reflexivity. Qed.

Lemma key_set_handlerState (v : option HandlerState) (c : Controller) :
  key (set_handlerState v c) = key c.
Proof. reflexivity. Qed.

Lemma nextStateOf_log (arg : ToggleArg) (c : Controller) (e : Effect) (h : Host) :
  nextStateOf arg c (log e h) = nextStateOf arg c h.
Proof. reflexivity. Qed.

(** A call that is not flagged as driven by the system preference. *)
Lemma toggle_manual (arg : ToggleArg) (c : Controller) (h : Host) :
  toggle arg None c h =
  let nextState := nextStateOf arg c h in
  let st := if bool_decide (arg = ArgState Auto) then Auto
            else if nextState then Enabled else Disabled in
  let on := if nextState then "dark-mode" else "light-mode" in
  let off := if nextState then "light-mode" else "dark-mode" in
  (set_state (Some st) c,
   {| storage := (fun m : gmap string string => <[key c := State_string st]> m) <$> storage h;
      classList := marked on off (classList h);
      listeners := listeners h; subscriptions := subscriptions h;
      timers := timers h; nextTimer := nextTimer h;
      trace := trace h ++ [CallToggle arg None]
                 ++ match storage h with
                    | Some _ => [StorageSet (key c) (State_string st)]
                    | None => []
                    end
                 ++ [ClassListAdd on; ClassListRemove off] |}).
Proof.
  unfold toggle. cbv zeta.
  rewrite (bool_decide_eq_false_2 (None = Some true)) by done.
  cbn [andb orb]. rewrite orb_false_r.
  rewrite nextStateOf_log, key_set_state, key_truthy, storage_log.
  set (ns := nextStateOf arg c h).
  set (st := if bool_decide (arg = ArgState Auto) then Auto else if ns then Enabled else Disabled).
  f_equal.
  destruct (storage h) as [m|] eqn:Hs;
    apply host_ext; try reflexivity;
    host_rw; rewrite ?Hs; try reflexivity;
    cbn [trace]; rewrite <- ?List.app_assoc; reflexivity.
Qed.

(** A call flagged as driven by the system preference: the preference is
    recorded, and the rest happens only in automatic mode. *)
Lemma toggle_system (b : bool) (c : Controller) (h : Host) :
  toggle (ArgBool b) (Some true) c h =
  let c1 := set_prefers (Some (if b then Dark else Light)) c in
  let on := if b then "dark-mode" else "light-mode" in
  let off := if b then "light-mode" else "dark-mode" in
  if bool_decide (state c = Some Auto) then
    (set_state (Some Auto) c1,
     {| storage := (fun m : gmap string string => <[key c := "auto"]> m) <$> storage h;
        classList := marked on off (classList h);
        listeners := listeners h; subscriptions := subscriptions h;
        timers := timers h; nextTimer := nextTimer h;
        trace := trace h ++ [CallToggle (ArgBool b) (Some true)]
                   ++ match storage h with
                      | Some _ => [StorageSet (key c) "auto"]
                      | None => []
                      end
                   ++ [ClassListAdd on; ClassListRemove off] |})
  else (c1, log (CallToggle (ArgBool b) (Some true)) h).
Proof.
  unfold toggle. cbv zeta.
  rewrite (bool_decide_eq_true_2 (Some true = Some true)) by done.
  cbn [andb orb]. rewrite orb_true_r.
  assert (Hc : (match ArgBool b with
                | ArgBool true => set_prefers (Some Dark) c
                | ArgBool false => set_prefers (Some Light) c
                | _ => c
                end) = set_prefers (Some (if b then Dark else Light)) c)
    by (by destruct b).
  rewrite Hc. clear Hc.
  change (state (set_prefers (Some (if b then Dark else Light)) c)) with (state c).
  destruct (bool_decide (state c = Some Auto)); cbn [negb]; [|reflexivity].
  rewrite key_set_state, key_set_prefers, key_truthy, storage_log.
  cbn [nextStateOf State_string].
  f_equal.
  destruct (storage h) as [m|] eqn:Hs;
    apply host_ext; try reflexivity;
    host_rw; rewrite ?Hs; try reflexivity;
    cbn [trace]; rewrite <- ?List.app_assoc; reflexivity.
Qed.

(** [toggle] leaves the handler state, the listeners, the subscriptions and
    the timers alone, whatever its arguments. *)
Lemma toggle_frame (arg : ToggleArg) (auto : option bool) (c : Controller) (h : Host) :
  handlerState (toggle arg auto c h).1 = handlerState c /\
  container (toggle arg auto c h).1 = container c /\
  key (toggle arg auto c h).1 = key c /\
  longPressTimeout (toggle arg auto c h).1 = longPressTimeout c /\
  listeners (toggle arg auto c h).2 = listeners h /\
  subscriptions (toggle arg auto c h).2 = subscriptions h /\
  timers (toggle arg auto c h).2 = timers h /\
  nextTimer (toggle arg auto c h).2 = nextTimer h /\
  (is_Some (storage (toggle arg auto c h).2) <-> is_Some (storage h)).
Proof.
  unfold toggle. cbv zeta.
  set (c1 := if bool_decide (auto = Some true) then _ else c).
  assert (Hc1 : handlerState c1 = handlerState c /\ container c1 = container c /\
                key c1 = key c /\ longPressTimeout c1 = longPressTimeout c).
  { unfold c1. destruct (bool_decide (auto = Some true)); [|done]. by destruct arg as [|[]|]. }
  destruct Hc1 as (H1 & H2 & H3 & H4).
  destruct (bool_decide (auto = Some true) && negb (bool_decide (state c1 = Some Auto))).
  { own_simpl. by rewrite storage_log. }
  own_simpl. rewrite key_set_state, key_truthy, storage_log.
  destruct (storage h) as [m|] eqn:Hs; host_rw; rewrite ?Hs;
    repeat split; try done; cbn [fmap option_fmap option_map]; eauto.
Qed.

(** C9: [toggle(true)] twice in a row.  The second call finds the mode
    [enabled] and leaves it so, and it changes neither the instance, nor
    the container's class list, nor the contents of the Storage object;
    the dark marker stays on and the light marker stays off. *)
Theorem toggle_true_idempotent (c : Controller) (h : Host) :
  let '(c1, h1) := toggle (ArgBool true) None c h in
  let '(c2, h2) := toggle (ArgBool true) None c1 h1 in
  state c1 = Some Enabled /\ state c2 = Some Enabled /\ c2 = c1 /\
  classList h2 = classList h1 /\ storage h2 = storage h1 /\
  "dark-mode" ∈ classList h2 /\ "light-mode" ∉ classList h2.
Proof.
  rewrite toggle_manual. cbv zeta. cbn [nextStateOf].
  rewrite (bool_decide_eq_false_2 (ArgBool true = ArgState Auto)) by done.
  rewrite toggle_manual. cbv zeta. cbn [nextStateOf].
  rewrite (bool_decide_eq_false_2 (ArgBool true = ArgState Auto)) by done.
  rewrite key_set_state.
  cbn [state set_state classList storage].
  split; [done|]. split; [done|]. split; [done|].
  split; [by apply marked_idemp|]. split.
  - destruct (storage h) as [m|]; [|done].
    cbn [fmap option_fmap option_map]. by rewrite insert_insert_eq.
  - rewrite marked_idemp by done. split; [by apply marked_on|apply marked_off].
Qed.

(** ** The steps of handleEvent *)

Lemma toggleCalls_app (t u : list Effect) :
  toggleCalls (t ++ u) = toggleCalls t ++ toggleCalls u.
Proof. apply List.filter_app. Qed.

Lemma storageWrites_app (t u : list Effect) :
  storageWrites (t ++ u) = storageWrites t ++ storageWrites u.
Proof. apply List.filter_app. Qed.

Lemma removals_app (t u : list Effect) : removals (t ++ u) = removals t ++ removals u.
Proof. apply List.filter_app. Qed.

Lemma quiet_refl (h : Host) : quiet h h.
Proof. by repeat split. Qed.

Lemma quiet_trans (h1 h2 h3 : Host) : quiet h1 h2 -> quiet h2 h3 -> quiet h1 h3.
Proof.
  intros (?&?&?&?&?&?) (?&?&?&?&?&?). repeat split; congruence.
Qed.

Lemma quiet_step (h h' : Host) (e : Effect) :
  storage h' = storage h -> classList h' = classList h ->
  subscriptions h' = subscriptions h -> trace h' = (trace h ++ [e])%list ->
  isCallToggle e = false -> isStorageSet e = false -> isRemoval e = false ->
  quiet h h'.
Proof.
  intros Hs Hc Hu Ht E1 E2 E3. unfold quiet. rewrite Hs, Hc, Hu, Ht.
  rewrite toggleCalls_app, storageWrites_app, removals_app.
  unfold toggleCalls, storageWrites, removals. cbn [List.filter].
  rewrite E1, E2, E3. by rewrite !app_nil_r.
Qed.

Lemma quiet_addEventListener (l : Listener) (h : Host) : quiet h (addEventListener l h).
Proof. by eapply quiet_step. Qed.

Lemma quiet_clearTimeout (t : nat) (h : Host) : quiet h (clearTimeout t h).
Proof. by eapply quiet_step. Qed.

Lemma quiet_setTimeout (d : Number) (h : Host) : quiet h (setTimeout d h).2.
Proof. by eapply quiet_step. Qed.

Lemma quiet_console_warn (h : Host) : quiet h (console_warn h).
Proof. by eapply quiet_step. Qed.

Lemma elem_of_if_app {A} `{EqDecision A} (x y : A) (l : list A) :
  y ∈ (if bool_decide (x ∈ l) then l else l ++ [x]) <-> y ∈ l \/ y = x.
Proof.
  case_bool_decide.
  - split; [by left|intros [?| ->]; done].
  - by rewrite elem_of_app, list_elem_of_singleton.
Qed.

Lemma ensureHandlerState_spec (c : Controller) (h : Host) (s : HandlerState) (h' : Host) :
  ensureHandlerState c h = (s, h') ->
  target s = entryTarget c /\ committed s = entryCommitted c /\
  timeout s = entryTimeout c /\
  (handlerState c = None ->
   upListener c (container_ownerDocument (container c)) ∈ listeners h' /\
   targets s = [container_ownerDocument (container c)]) /\
  (forall l, l ∈ listeners h -> l ∈ listeners h') /\
  (forall l, l ∈ listeners h' -> l ∈ listeners h \/ l_capture l = true) /\
  timers h' = timers h /\ nextTimer h' = nextTimer h /\ quiet h h'.
Proof.
  unfold ensureHandlerState, entryTarget, entryCommitted, entryTimeout.
  destruct (handlerState c) as [s0|] eqn:Hs; intros [= <- <-].
  - repeat split; try done; try apply quiet_refl; auto.
  - repeat split; try done; try apply quiet_addEventListener.
    + rewrite listeners_addEventListener. apply elem_of_if_app. by right.
    + intros l Hl. rewrite listeners_addEventListener. apply elem_of_if_app. by left.
    + intros l Hl. rewrite listeners_addEventListener in Hl.
      apply elem_of_if_app in Hl as [Hl| ->]; [by left|by right].
Qed.

Lemma clearPending_spec (s : HandlerState) (h : Host) (s' : HandlerState) (h' : Host) :
  clearPending s h = (s', h') ->
  timeout s' = None /\ target s' = target s /\ committed s' = committed s /\
  action s' = action s /\ targets s' = targets s /\
  (forall t, timeout s = Some t -> t ∉ timers h') /\
  (forall t, t ∈ timers h' -> t ∈ timers h) /\
  listeners h' = listeners h /\ nextTimer h' = nextTimer h /\ quiet h h'.
Proof.
  unfold clearPending. destruct (timeout s) as [t|] eqn:Ht; intros [= <- <-].
  - repeat split; try done; try apply quiet_clearTimeout.
    + intros t' [= <-]. rewrite timers_clearTimeout. apply not_elem_of_filter_ne.
    + intros t'. rewrite timers_clearTimeout, elem_of_filter_ne. tauto.
  - repeat split; try done; try apply quiet_refl.
Qed.

Lemma registerContext_spec (c : Controller) (d : option DocumentRef)
    (s : HandlerState) (h : Host) (s' : HandlerState) (h' : Host) :
  registerContext c d s h = (s', h') ->
  timeout s' = timeout s /\ target s' = target s /\ committed s' = committed s /\
  action s' = action s /\
  (forall x, x ∈ targets s -> x ∈ targets s') /\
  (forall l, l ∈ listeners h -> l ∈ listeners h') /\
  (forall l, l ∈ listeners h' -> l ∈ listeners h \/ l_capture l = true) /\
  timers h' = timers h /\ nextTimer h' = nextTimer h /\ quiet h h'.
Proof.
  unfold registerContext. destruct d as [d|].
  - destruct (bool_decide (d = container_ownerDocument (container c)) || bool_decide (d ∈ targets s));
      intros [= <- <-].
    + repeat split; try done; try apply quiet_refl; auto.
    + repeat split; try done; try apply quiet_addEventListener.
      * intros x Hx. own_simpl. apply elem_of_app. by left.
      * intros l Hl. rewrite listeners_addEventListener. apply elem_of_if_app. by left.
      * intros l Hl. rewrite listeners_addEventListener in Hl.
        apply elem_of_if_app in Hl as [Hl| ->]; [by left|by right].
  - intros [= <- <-]. repeat split; try done; try apply quiet_refl; auto.
Qed.

Lemma prepare_spec (event : option Event) (c : Controller) (h : Host)
    (s : HandlerState) (h' : Host) :
  prepare event c h = (s, h') ->
  timeout s = None /\ target s = entryTarget c /\ committed s = entryCommitted c /\
  (forall t, entryTimeout c = Some t -> t ∉ timers h') /\
  (forall t, t ∈ timers h' -> t ∈ timers h) /\
  (handlerState c = None ->
   upListener c (container_ownerDocument (container c)) ∈ listeners h' /\
   container_ownerDocument (container c) ∈ targets s) /\
  (forall l, l ∈ listeners h -> l ∈ listeners h') /\
  (forall l, l ∈ listeners h' -> l ∈ listeners h \/ l_capture l = true) /\
  nextTimer h' = nextTimer h /\ quiet h h'.
Proof.
  unfold prepare.
  destruct (ensureHandlerState c h) as [s0 h0] eqn:E0.
  destruct (clearPending s0 h0) as [s1 h1] eqn:E1.
  intros E2.
  apply ensureHandlerState_spec in E0 as (T0 & C0 & O0 & F0 & L0 & L0' & M0 & N0 & Q0).
  apply clearPending_spec in E1 as (O1 & T1 & C1 & A1 & G1 & M1 & M1' & L1 & N1 & Q1).
  apply registerContext_spec in E2 as (O2 & T2 & C2 & A2 & G2 & L2 & L2' & M2 & N2 & Q2).
  split; [congruence|]. split; [congruence|]. split; [congruence|].
  split; [intros t Ht; rewrite M2; apply M1; congruence|].
  split; [intros t Ht; rewrite M2 in Ht; apply M1' in Ht; congruence|].
  split.
  { intros Hn. destruct (F0 Hn) as [Hin Ht]. split.
    - apply L2. rewrite L1. exact Hin.
    - apply G2. rewrite G1, Ht. by left. }
  split; [intros l Hl; apply L2; rewrite L1; by apply L0|].
  split.
  { intros l Hl. apply L2' in Hl as [Hl|Hl]; [|by right]. rewrite L1 in Hl. by apply L0'. }
  split; [congruence|].
  eapply quiet_trans; [|exact Q2]. eapply quiet_trans; [exact Q0|exact Q1].
Qed.

Lemma handleEvent_prepare (event : option Event) (c : Controller) (h : Host) :
  handleEvent event c h =
  let '(s, h) := prepare event c h in
  let tgt := event ≫= ev_target in
  let ownerDocument := tgt ≫= el_ownerDocument in
  match armOf (triggerOf event) with
  | ArmScheme isDark =>
      let '(c, h) :=
        if bool_decide ((event ≫= ev_matches) = Some true)
        then toggle (ArgBool isDark) (Some true) c h
        else (c, h) in
      (set_handlerState (Some (releaseState s)) c, h)
  | ArmUndefined =>
      if bool_decide (target s ≠ None) && bool_decide (committed s = Some false) then
        let s := set_committed (Some true) (set_action (Some "auto") s) in
        let '(c, h) := toggle (ArgState Auto) None c h in
        (set_handlerState (Some s) c, h)
      else (set_handlerState (Some (set_action (Some "ignore") s)) c, h)
  | ArmUp =>
      if bool_decide (target s = None) then
        (set_handlerState (Some (set_action (Some "ignore") s)) c, h)
      else if bool_decide (target s = tgt) && bool_decide (committed s = Some false) then
        let s := set_action (Some "toggle") s in
        let '(c, h) := toggle ArgUndefined None c h in
        (set_handlerState (Some (releaseState s)) c, h)
      else
        (set_handlerState (Some (releaseState (set_action (Some "release") s))) c, h)
  | ArmDown =>
      match tgt, ownerDocument with
      | Some t, Some _ =>
          let s := set_committed (Some false)
                     (set_target (Some t) (set_action (Some "capture") s)) in
          let '(handle, h) := setTimeout (longPressTimeout c) h in
          (set_handlerState (Some (set_timeout (Some handle) s)) c, h)
      | _, _ =>
          if bool_decide (target s = None) then
            (set_handlerState (Some (set_action (Some "ignore") s)) c, h)
          else
            (set_handlerState (Some (releaseState (set_action (Some "release") s))) c, h)
      end
  | ArmDefault =>
      (set_handlerState (Some s) c, console_warn h)
  end.
Proof.
  unfold handleEvent, prepare.
  destruct (ensureHandlerState c h) as [s0 h0].
  destruct (clearPending s0 h0) as [s1 h1].
  destruct (registerContext c _ s1 h1) as [s2 h2].
  cbv zeta. destruct (event ≫= ev_target); reflexivity.
Qed.

(** ** Classification of events *)

Lemma arm_down (type : string) (tgt : option Element) :
  type = "mousedown" \/ type = "pointerdown" ->
  armOf (triggerOf (Some (pointerEvent type tgt))) = ArmDown.
Proof. by intros [-> | ->]. Qed.

Lemma arm_up (type : string) (tgt : option Element) :
  type = "mouseup" \/ type = "pointerup" ->
  armOf (triggerOf (Some (pointerEvent type tgt))) = ArmUp.
Proof. by intros [-> | ->]. Qed.

Example arm_examples :
  armOf (triggerOf None) = ArmUndefined /\
  armOf (triggerOf (Some (pointerEvent "click" None))) = ArmUndefined /\
  armOf (triggerOf (Some (pointerEvent "MouseUp" None))) = ArmDefault /\
  armOf (triggerOf (Some (changeEvent "(prefers-color-scheme: dark)" true))) = ArmScheme true /\
  armOf (triggerOf (Some (changeEvent "(prefers-color-scheme: light)" true))) = ArmScheme false /\
  armOf (triggerOf (Some (changeEvent "(prefers-color-scheme: DARK)" true))) = ArmDefault.
Proof. repeat split; reflexivity. Qed.

(** ** What one delivery can do *)

(** Either the delivery calls [toggle] once, on the host as [prepare] left
    it, or it calls nothing and the host stays [quiet].  The registry is the
    one [prepare] left. *)
Lemma handleEvent_shape (event : option Event) (c : Controller) (h : Host) :
  exists s0 h0, prepare event c h = (s0, h0) /\
    ((exists s h1, handleEvent event c h = (set_handlerState (Some s) c, h1) /\
        targets s = targets s0 /\
        quiet h0 h1 /\ listeners h1 = listeners h0 /\
        (forall t, t ∈ timers h0 -> t ∈ timers h1)) \/
     (exists s arg auto,
        handleEvent event c h =
          (set_handlerState (Some s) (toggle arg auto c h0).1, (toggle arg auto c h0).2) /\
        targets s = targets s0)).
Proof.
  rewrite handleEvent_prepare.
  destruct (prepare event c h) as [s0 h0]. exists s0, h0. split; [done|].
  cbv zeta. destruct (armOf (triggerOf event)) as [isDark| | | |].
  - destruct (bool_decide (event ≫= ev_matches = Some true)).
    + right. destruct (toggle (ArgBool isDark) (Some true) c h0) as [c' h'] eqn:E.
      exists (releaseState s0), (ArgBool isDark), (Some true). by rewrite E.
    + left. eexists _, _. do 2 (split; [done|]). split; [apply quiet_refl|done].
  - destruct (bool_decide (target s0 ≠ None) && bool_decide (committed s0 = Some false)).
    + right. destruct (toggle (ArgState Auto) None c h0) as [c' h'] eqn:E.
      eexists _, (ArgState Auto), None. by rewrite E.
    + left. eexists _, _. do 2 (split; [done|]). split; [apply quiet_refl|done].
  - destruct (bool_decide (target s0 = None)).
    { left. eexists _, _. do 2 (split; [done|]). split; [apply quiet_refl|done]. }
    destruct (bool_decide (target s0 = event ≫= ev_target) && bool_decide (committed s0 = Some false)).
    + right. destruct (toggle ArgUndefined None c h0) as [c' h'] eqn:E.
      eexists _, ArgUndefined, None. by rewrite E.
    + left. eexists _, _. do 2 (split; [done|]). split; [apply quiet_refl|done].
  - destruct (event ≫= ev_target) as [t|]; cbn [mbind option_bind].
    + destruct (el_ownerDocument t).
      * left. eexists _, _. split; [reflexivity|]. split; [done|].
        split; [apply quiet_setTimeout|]. split; [done|].
        intros t' Ht'. change (t' ∈ timers (setTimeout (longPressTimeout c) h0).2).
        rewrite timers_setTimeout. apply elem_of_app. by left.
      * destruct (bool_decide (target s0 = None));
          left; eexists _, _; do 2 (split; [done|]); (split; [apply quiet_refl|done]).
    + destruct (bool_decide (target s0 = None));
        left; eexists _, _; do 2 (split; [done|]); (split; [apply quiet_refl|done]).
  - left. eexists _, _. do 2 (split; [done|]). split; [apply quiet_console_warn|done].
Qed.

(** The handler state exists after every delivery. *)
Lemma handleEvent_handlerState (event : option Event) (c : Controller) (h : Host) :
  is_Some (handlerState (handleEvent event c h).1).
Proof.
  destruct (handleEvent_shape event c h)
    as (s0 & h0 & _ & [(s & h1 & -> & _)|(s & arg & auto & -> & _)]); own_simpl; eauto.
Qed.

(** ** The constructor *)

Lemma matchesNow_spec (q : option MediaQueryList) :
  matchesNow q = true <-> exists m, q = Some m /\ mql_matches m = true.
Proof.
  unfold matchesNow. rewrite bool_decide_eq_true. destruct q as [m|]; cbn.
  - split; [intros [= H]; eauto|intros (m' & [= <-] & H); by rewrite H].
  - split; [done|intros (m' & [=] & _)].
Qed.

Lemma subscribe_spec (q : MediaQueries) (h : Host) :
  storage (subscribe q h) = storage h /\ classList (subscribe q h) = classList h /\
  listeners (subscribe q h) = listeners h /\ timers (subscribe q h) = timers h /\
  nextTimer (subscribe q h) = nextTimer h /\
  subscriptions (subscribe q h) = subscribed q (subscriptions h).
Proof.
  unfold subscribe, subscribed.
  destruct (prefersDarkMode q), (prefersLightMode q); cbn [from_option]; by repeat split.
Qed.

Lemma initialise_spec (c0 : Controller) (h0 : Host) (c : Controller) (h : Host) :
  initialise c0 h0 = (c, h) ->
  handlerState c = handlerState c0 /\ key c = key c0 /\
  mediaQueries c = mediaQueries c0 /\ container c = container c0 /\
  longPressTimeout c = longPressTimeout c0 /\
  listeners h = listeners h0 /\ timers h = timers h0 /\ nextTimer h = nextTimer h0 /\
  match storage h0 with
  | None => c = c0 /\ h = h0
  | Some store =>
      subscriptions h = subscribed (mediaQueries c0) (subscriptions h0) /\
      if bool_decide (store !! key c0 = Some "enabled") then
        state c = Some Enabled /\
        classList h = marked "dark-mode" "light-mode" (classList h0) /\
        storage h = Some (<[key c0 := "enabled"]> store)
      else if bool_decide (store !! key c0 = Some "disabled") then
        state c = Some Disabled /\
        classList h = marked "light-mode" "dark-mode" (classList h0) /\
        storage h = Some (<[key c0 := "disabled"]> store)
      else
        state c = Some Auto /\
        prefers c = Some (if initiallyDark (mediaQueries c0) then Dark else Light) /\
        classList h =
          (if initiallyDark (mediaQueries c0)
           then marked "dark-mode" "light-mode" (classList h0)
           else marked "light-mode" "dark-mode" (classList h0)) /\
        storage h = Some (<[key c0 := "auto"]> store)
  end.
Proof.
  unfold initialise. destruct (storage h0) as [store|] eqn:Hs.
  2:{ intros [= <- <-]. by repeat split. }
  cbv zeta.
  case_bool_decide as He; [|case_bool_decide as Hd].
  - unfold enable. rewrite toggle_manual. cbv zeta. cbn [nextStateOf].
    rewrite (bool_decide_eq_false_2 (ArgBool true = ArgState Auto)) by done.
    intros [= <- <-].
    match goal with |- context [subscribe ?q ?x] =>
      destruct (subscribe_spec q x) as (S1 & S2 & S3 & S4 & S5 & S6) end.
    rewrite S1, S2, S3, S4, S5, S6, key_set_state.
    cbn [storage classList listeners subscriptions timers nextTimer State_string].
    rewrite Hs. by repeat split.
  - unfold disable. rewrite toggle_manual. cbv zeta. cbn [nextStateOf].
    rewrite (bool_decide_eq_false_2 (ArgBool false = ArgState Auto)) by done.
    intros [= <- <-].
    match goal with |- context [subscribe ?q ?x] =>
      destruct (subscribe_spec q x) as (S1 & S2 & S3 & S4 & S5 & S6) end.
    rewrite S1, S2, S3, S4, S5, S6, key_set_state.
    cbn [storage classList listeners subscriptions timers nextTimer State_string].
    rewrite Hs. by repeat split.
  - rewrite toggle_system. cbv zeta.
    rewrite (bool_decide_eq_true_2 (state (set_state (Some Auto) c0) = Some Auto)) by done.
    intros [= <- <-].
    match goal with |- context [subscribe ?q ?x] =>
      destruct (subscribe_spec q x) as (S1 & S2 & S3 & S4 & S5 & S6) end.
    rewrite S1, S2, S3, S4, S5, S6, key_set_state.
    cbn [storage classList listeners subscriptions timers nextTimer].
    host_rw. rewrite Hs. cbn [fmap option_fmap option_map]. rewrite insert_insert_eq.
    destruct (initiallyDark (mediaQueries c0)); by repeat split.
Qed.

(** The instance and the host on which lines 86-101 start. *)
Lemma construct_Instance (g : Globals) (container : option HTMLElement) (options : Options)
    (c : Controller) (h : Host) :
  construct g container options = Normal (Instance c h) ->
  exists e c0 h0,
    defaultContainer g container = Some e /\ initialise c0 h0 = (c, h) /\
    state c0 = None /\ prefers c0 = None /\ handlerState c0 = None /\
    mediaQueries c0 = getMediaQueriesFromContainer e /\
    resolveLongPressTimeout (opt_longPressTimeout options) = Normal (longPressTimeout c0) /\
    storage h0 = resolveLocalStorage options e /\
    classList h0 = element_classList e /\
    listeners h0 = [] /\ subscriptions h0 = [] /\ timers h0 = [] /\ trace h0 = [].
Proof.
  unfold construct.
  destruct (defaultContainer g container) as [e|]; cbn zeta.
  2:{ destruct (getValidDocumentFrom None); by destruct (liveWindow g). }
  destruct (getValidDocumentFrom (Some e)) as [doc|].
  2:{ by destruct (liveWindow g). }
  match goal with |- (?scope ≫= _) = _ -> _ => destruct scope as [sc|err] end; [|done].
  cbn [mbind completion_bind].
  destruct (resolveLongPressTimeout (opt_longPressTimeout options)) as [lp|err]; [|done].
  cbn [mbind completion_bind].
  match goal with |- (let '(_, _) := initialise ?c0 ?h0 in _) = _ -> _ =>
    destruct (initialise c0 h0) as [c1 h1] eqn:E; intros [= <- <-];
    exists e, c0, h0 end.
  by repeat split.
Qed.

Lemma toggleAll_handlerState (calls : list (ToggleArg * option bool)) (c : Controller) (h : Host) :
  handlerState (toggleAll calls c h).1 = handlerState c.
Proof.
  revert c h. induction calls as [|[arg auto] calls IH]; intros c h; cbn; [done|].
  destruct (toggle arg auto c h) as [c1 h1] eqn:E. rewrite IH.
  pose proof (toggle_frame arg auto c h) as (F & _). by rewrite E in F.
Qed.

(** C1, as the code has it: a construction that returns an instance leaves
    the mode at one of the three values when a Storage handle was resolved
    (from the options or from the container's window); when none was, lines
    86-101 are skipped as a whole, so the mode stays undefined and no
    preference feed is subscribed. *)
Theorem constructed_mode (g : Globals) (container : option HTMLElement) (options : Options)
    (c : Controller) (h : Host) :
  construct g container options = Normal (Instance c h) ->
  exists e, defaultContainer g container = Some e /\
    match resolveLocalStorage options e with
    | Some _ =>
        is_Some (storage h) /\
        (state c = Some Auto \/ state c = Some Enabled \/ state c = Some Disabled)
    | None => storage h = None /\ state c = None /\ subscriptions h = []
    end.
Proof.
  intros H.
  apply construct_Instance in H
    as (e & c0 & h0 & He & Hi & Hst & _ & _ & _ & _ & Hsto & _ & _ & Hsub & _).
  exists e. split; [done|].
  apply initialise_spec in Hi as (_ & _ & _ & _ & _ & _ & _ & _ & Hi).
  rewrite <- Hsto. destruct (storage h0) as [store|] eqn:Hs0.
  - destruct Hi as (_ & Hi).
    repeat case_bool_decide; destruct Hi as (Hs & Hi).
    + destruct Hi as (_ & ->). eauto.
    + destruct Hi as (_ & ->). eauto.
    + destruct Hi as (_ & _ & ->). eauto.
  - destruct Hi as (-> & ->). by rewrite Hs0, Hst, Hsub.
Qed.

Example sample_construct :
  construct sampleGlobals (Some (sampleElement (Some emptyStore) true false)) noOptions
  = Normal (Instance sampleController sampleHost).
Proof. vm_compute. reflexivity. Qed.

Example bare_construct :
  construct sampleGlobals (Some (sampleElement None true false)) noOptions
  = Normal (Instance bareController bareHost).
Proof. vm_compute. reflexivity. Qed.

Lemma constructed_mode_witness :
  exists e, defaultContainer sampleGlobals (Some (sampleElement (Some emptyStore) true false)) = Some e /\
    match resolveLocalStorage noOptions e with
    | Some _ =>
        is_Some (storage sampleHost) /\
        (state sampleController = Some Auto \/ state sampleController = Some Enabled \/
         state sampleController = Some Disabled)
    | None =>
        storage sampleHost = None /\ state sampleController = None /\
        subscriptions sampleHost = []
    end.
Proof. exact (constructed_mode _ _ _ _ _ sample_construct). Defined.

(** C1 as stated fails: without a Storage handle the constructor returns an
    instance whose mode is undefined. *)
Lemma constructed_without_storage_mode_unset :
  construct sampleGlobals (Some (sampleElement None true false)) noOptions
  = Normal (Instance bareController bareHost) /\
  storage bareHost = None /\ state bareController = None.
Proof. split; [exact bare_construct|]. split; reflexivity. Qed.

Lemma matchesNow_data (q : option MediaQueryList) :
  matchesNow q = match q with Some m => mql_matches m | None => false end.
Proof. by destruct q as [[media []]|]. Qed.

(** C5: with a Storage handle resolved, the persisted value under the
    instance's key decides the initial mode.  Exactly "enabled": mode
    enabled, dark marker on, light marker off.  Otherwise exactly
    "disabled": mode disabled, light marker on, dark marker off.  Otherwise
    (no value, or any other value): mode auto, "auto" persisted, and the
    marker follows the two feeds of the container's window as they match at
    that moment: the light marker is applied only when the light feed is
    there and matches while the dark feed is missing or does not match; in
    every other case the dark marker is applied. *)
Theorem initial_mode_precedence (g : Globals) (container : option HTMLElement)
    (options : Options) (c : Controller) (h : Host) (e : HTMLElement)
    (store : gmap string string) :
  construct g container options = Normal (Instance c h) ->
  defaultContainer g container = Some e ->
  resolveLocalStorage options e = Some store ->
  mediaQueries c = getMediaQueriesFromContainer e /\
  if bool_decide (store !! key c = Some "enabled") then
    state c = Some Enabled /\ storage h = Some (<[key c := "enabled"]> store) /\
    "dark-mode" ∈ classList h /\ "light-mode" ∉ classList h
  else if bool_decide (store !! key c = Some "disabled") then
    state c = Some Disabled /\ storage h = Some (<[key c := "disabled"]> store) /\
    "light-mode" ∈ classList h /\ "dark-mode" ∉ classList h
  else
    state c = Some Auto /\ storage h = Some (<[key c := "auto"]> store) /\
    let darkMatches :=
      match prefersDarkMode (mediaQueries c) with
      | Some feed => mql_matches feed
      | None => false
      end in
    let lightMatches :=
      match prefersLightMode (mediaQueries c) with
      | Some feed => mql_matches feed
      | None => false
      end in
    if darkMatches || negb lightMatches
    then "dark-mode" ∈ classList h /\ "light-mode" ∉ classList h
    else "light-mode" ∈ classList h /\ "dark-mode" ∉ classList h.
Proof.
  intros H He Hsto.
  apply construct_Instance in H
    as (e' & c0 & h0 & He' & Hi & _ & _ & _ & Hq & _ & Hsto' & _).
  rewrite He in He'. injection He' as <-.
  apply initialise_spec in Hi as (_ & Hk & Hm & _ & _ & _ & _ & _ & Hi).
  rewrite Hsto', Hsto in Hi. destruct Hi as (_ & Hi).
  rewrite Hk, Hm. split; [done|].
  repeat case_bool_decide.
  - destruct Hi as (-> & -> & ->). repeat split; [by apply marked_on|apply marked_off].
  - destruct Hi as (-> & -> & ->). repeat split; [by apply marked_on|apply marked_off].
  - destruct Hi as (-> & _ & -> & ->). unfold initiallyDark. rewrite !matchesNow_data.
    cbv zeta.
    destruct (match prefersDarkMode (mediaQueries c0) with
              | Some feed => mql_matches feed
              | None => false
              end
              || negb match prefersLightMode (mediaQueries c0) with
                      | Some feed => mql_matches feed
                      | None => false
                      end);
      repeat split; solve [by apply marked_on|apply marked_off].
Qed.

Example light_construct :
  construct sampleGlobals (Some (sampleElement (Some emptyStore) false true)) noOptions
  = Normal (Instance lightController lightHost).
Proof. vm_compute. reflexivity. Qed.

Lemma initial_mode_precedence_witness :
  mediaQueries lightController
  = getMediaQueriesFromContainer (sampleElement (Some emptyStore) false true) /\
  if bool_decide (emptyStore !! key lightController = Some "enabled") then
    state lightController = Some Enabled /\
    storage lightHost = Some (<[key lightController := "enabled"]> emptyStore) /\
    "dark-mode" ∈ classList lightHost /\ "light-mode" ∉ classList lightHost
  else if bool_decide (emptyStore !! key lightController = Some "disabled") then
    state lightController = Some Disabled /\
    storage lightHost = Some (<[key lightController := "disabled"]> emptyStore) /\
    "light-mode" ∈ classList lightHost /\ "dark-mode" ∉ classList lightHost
  else
    state lightController = Some Auto /\
    storage lightHost = Some (<[key lightController := "auto"]> emptyStore) /\
    let darkMatches :=
      match prefersDarkMode (mediaQueries lightController) with
      | Some feed => mql_matches feed
      | None => false
      end in
    let lightMatches :=
      match prefersLightMode (mediaQueries lightController) with
      | Some feed => mql_matches feed
      | None => false
      end in
    if darkMatches || negb lightMatches
    then "dark-mode" ∈ classList lightHost /\ "light-mode" ∉ classList lightHost
    else "light-mode" ∈ classList lightHost /\ "dark-mode" ∉ classList lightHost.
Proof.
  apply (initial_mode_precedence sampleGlobals (Some (sampleElement (Some emptyStore) false true))
           noOptions lightController lightHost (sampleElement (Some emptyStore) false true)
           emptyStore).
  - exact light_construct.
  - reflexivity.
  - reflexivity.
Defined.

(** C10: on an instance as constructed, and after any calls of [toggle],
    no handler state exists, so [detach] throws a TypeError; the first
    delivery to the handler creates the state. *)
Theorem detach_before_first_event (g : Globals) (container : option HTMLElement)
    (options : Options) (c : Controller) (h : Host)
    (calls : list (ToggleArg * option bool)) :
  construct g container options = Normal (Instance c h) ->
  handlerState c = None /\
  let '(c', h') := toggleAll calls c h in
  handlerState c' = None /\ detach c' h' = Throw TypeError /\
  forall event, is_Some (handlerState (handleEvent event c' h').1).
Proof.
  intros H.
  apply construct_Instance in H as (e & c0 & h0 & _ & Hi & _ & _ & Hh & _).
  apply initialise_spec in Hi as (Hh' & _).
  assert (Hc : handlerState c = None) by congruence.
  split; [done|].
  pose proof (toggleAll_handlerState calls c h) as Ht.
  destruct (toggleAll calls c h) as [c' h']. cbn in Ht. rewrite Hc in Ht.
  split; [done|]. split.
  - unfold detach. by rewrite Ht.
  - intros event. apply handleEvent_handlerState.
Qed.

Lemma detach_before_first_event_witness :
  handlerState sampleController = None /\
  let '(c', h') := toggleAll [(ArgBool true, None)] sampleController sampleHost in
  handlerState c' = None /\ detach c' h' = Throw TypeError /\
  forall event, is_Some (handlerState (handleEvent event c' h').1).
Proof.
  exact (detach_before_first_event _ _ _ _ _ [(ArgBool true, None)] sample_construct).
Defined.

(** ** States the class can reach *)

Lemma toggle_coherent (arg : ToggleArg) (auto : option bool) (c : Controller) (h : Host) :
  coherent c h -> coherent (toggle arg auto c h).1 (toggle arg auto c h).2.
Proof.
  intros [He Hd]. unfold toggle. cbv zeta.
  set (c1 := if bool_decide (auto = Some true) then _ else c).
  assert (Hc1 : state c1 = state c).
  { unfold c1. destruct (bool_decide (auto = Some true)); [|done]. by destruct arg as [|[]|]. }
  destruct (bool_decide (auto = Some true) && negb (bool_decide (state c1 = Some Auto))) eqn:E.
  { unfold coherent. own_simpl. by rewrite Hc1, classList_log. }
  rewrite key_set_state, key_truthy, storage_log.
  set (ns := nextStateOf arg c1 _).
  unfold coherent. own_simpl.
  rewrite classList_classList_remove, classList_classList_add.
  assert (Hcl : classList (match storage h with
                           | Some _ => storage_set (key c1)
                                        (State_string
                                           (if bool_decide (arg = ArgState Auto)
                                               || bool_decide (auto = Some true)
                                            then Auto else if ns then Enabled else Disabled))
                                        (log (CallToggle arg auto) h)
                           | None => log (CallToggle arg auto) h
                           end) = classList h).
  { by destruct (storage h). }
  rewrite Hcl.
  fold (marked (if ns then "dark-mode" else "light-mode")
          (if ns then "light-mode" else "dark-mode") (classList h)).
  split; intros [= Hst]; destruct (_ || _); try done; destruct ns; try done.
  - by apply marked_on.
  - apply marked_off.
Qed.

Lemma prepare_registered (event : option Event) (c : Controller) (h : Host)
    (s : HandlerState) (h' : Host) :
  registered c h -> prepare event c h = (s, h') ->
  forall d, d ∈ targets s -> upListener c d ∈ listeners h'.
Proof.
  unfold prepare. intros R.
  destruct (ensureHandlerState c h) as [s0 h0] eqn:E0.
  destruct (clearPending s0 h0) as [s1 h1] eqn:E1.
  intros E2.
  assert (R0 : forall d, d ∈ targets s0 -> upListener c d ∈ listeners h0).
  { pose proof (ensureHandlerState_spec _ _ _ _ E0) as (_ & _ & _ & F0 & L0 & _).
    unfold ensureHandlerState in E0. destruct (handlerState c) as [sc|] eqn:Hs.
    - injection E0 as <- <-. intros d Hd. by apply (R sc).
    - destruct (F0 eq_refl) as [Hin Ht]. intros d Hd. rewrite Ht in Hd.
      apply list_elem_of_singleton in Hd. by subst d. }
  apply clearPending_spec in E1 as (_ & _ & _ & _ & G1 & _ & _ & L1 & _).
  assert (R1 : forall d, d ∈ targets s1 -> upListener c d ∈ listeners h1).
  { intros d Hd. rewrite L1. apply R0. by rewrite <- G1. }
  unfold registerContext in E2.
  destruct ((event ≫= ev_target) ≫= el_ownerDocument) as [d0|]; [|by injection E2 as <- <-].
  destruct (bool_decide (d0 = container_ownerDocument (container c)) || bool_decide (d0 ∈ targets s1));
    injection E2 as <- <-; [done|].
  intros d Hd. own_simpl in Hd. rewrite listeners_addEventListener.
  apply elem_of_if_app. apply elem_of_app in Hd as [Hd|Hd]; [left; by apply R1|].
  apply list_elem_of_singleton in Hd. subst d. by right.
Qed.

Lemma handleEvent_invariants (event : option Event) (c : Controller) (h : Host) :
  coherent c h /\ registered c h /\ capturing h ->
  coherent (handleEvent event c h).1 (handleEvent event c h).2 /\
  registered (handleEvent event c h).1 (handleEvent event c h).2 /\
  capturing (handleEvent event c h).2.
Proof.
  intros (Co & Re & Ca).
  destruct (handleEvent_shape event c h) as (s0 & h0 & P & Hshape).
  pose proof (prepare_registered _ _ _ _ _ Re P) as R0.
  pose proof (prepare_spec _ _ _ _ _ P) as (_ & _ & _ & _ & _ & _ & _ & L0 & _ & Q0).
  assert (Ca0 : capturing h0).
  { intros l Hl. destruct (L0 l Hl) as [Hl'|Hl']; [by apply Ca|done]. }
  assert (Co0 : coherent c h0).
  { destruct Q0 as (_ & Hcl & _). unfold coherent. by rewrite Hcl. }
  destruct Hshape as [(s & h1 & -> & Ht & Q1 & L1 & _)|(s & arg & auto & -> & Ht)]; cbn [fst snd].
  - destruct Q1 as (_ & Hcl & _). split; [|split].
    + unfold coherent. own_simpl. rewrite Hcl. apply Co0.
    + intros s' d [= <-] Hd. rewrite L1. apply R0. by rewrite <- Ht.
    + unfold capturing. by rewrite L1.
  - pose proof (toggle_frame arg auto c h0) as (_ & Fc & _ & _ & Fl & _).
    pose proof (toggle_coherent arg auto c h0 Co0) as [Co1 Co2].
    split; [|split].
    + split; [apply Co1|apply Co2].
    + intros s' d [= <-] Hd. rewrite Fl.
      unfold upListener. cbn [container set_handlerState]. rewrite Fc.
      apply R0. by rewrite <- Ht.
    + unfold capturing. by rewrite Fl.
Qed.

(** ** detach *)

Lemma filter_ne_absent {A} `{EqDecision A} (x : A) (l : list A) :
  x ∉ l -> filter (fun y => y ≠ x) l = l.
Proof.
  induction l as [|a l IH]; [done|]. intros Hx.
  apply not_elem_of_cons in Hx as [Hne Hx].
  rewrite filter_cons. destruct (decide (a ≠ x)) as [|n]; [|exfalso; apply n; congruence].
  by rewrite IH.
Qed.

Lemma removeEventListener_bubbling (l : Listener) (h : Host) :
  l_capture l = false -> capturing h ->
  listeners (removeEventListener l h) = listeners h.
Proof.
  intros Hl Hc. rewrite listeners_removeEventListener.
  apply filter_ne_absent. intros Hin. apply Hc in Hin. congruence.
Qed.

Lemma detachTarget_spec (d : DocumentRef) (h : Host) :
  capturing h ->
  listeners (detachTarget d h) = listeners h /\
  storage (detachTarget d h) = storage h /\
  classList (detachTarget d h) = classList h /\
  subscriptions (detachTarget d h) = subscriptions h /\
  timers (detachTarget d h) = timers h /\
  toggleCalls (trace (detachTarget d h)) = toggleCalls (trace h) /\
  storageWrites (trace (detachTarget d h)) = storageWrites (trace h) /\
  removals (trace (detachTarget d h)) = removals (trace h) ++ detachRequests d.
Proof.
  intros Hc. unfold detachTarget. cbv zeta. split.
  - assert (Hstep : forall l h1, l_capture l = false -> listeners h1 = listeners h ->
                      listeners (removeEventListener l h1) = listeners h).
    { intros l h1 Hl Hh. rewrite removeEventListener_bubbling; [done|done|].
      unfold capturing. by rewrite Hh. }
    by repeat apply Hstep.
  - host_rw. rewrite !toggleCalls_app, !storageWrites_app, !removals_app.
    repeat split; try done.
    + by rewrite !app_nil_r.
    + by rewrite !app_nil_r.
    + by rewrite <- !app_assoc.
Qed.

Lemma detachLoop_spec (pending members : list DocumentRef) (h : Host) :
  capturing h ->
  let '(members', h') := detachLoop pending members h in
  (forall d, d ∈ members' <-> d ∈ members /\ d ∉ pending) /\
  listeners h' = listeners h /\ storage h' = storage h /\
  classList h' = classList h /\ subscriptions h' = subscriptions h /\
  timers h' = timers h /\
  toggleCalls (trace h') = toggleCalls (trace h) /\
  storageWrites (trace h') = storageWrites (trace h) /\
  removals (trace h') = removals (trace h) ++ flat_map detachRequests pending.
Proof.
  revert members h. induction pending as [|d pending IH]; intros members h Hc.
  - cbn [detachLoop flat_map]. rewrite app_nil_r. repeat split; try done.
    + apply not_elem_of_nil.
    + tauto.
  - cbn [detachLoop flat_map].
    pose proof (detachTarget_spec d h Hc) as (L & S & C & U & T & TC & SW & RM).
    assert (Hc' : capturing (detachTarget d h)) by (unfold capturing; by rewrite L).
    specialize (IH (filter (fun d' => d' ≠ d) members) (detachTarget d h) Hc').
    destruct (detachLoop pending _ _) as [members' h'].
    destruct IH as (M & L' & S' & C' & U' & T' & TC' & SW' & RM').
    split; [|repeat split].
    + intros d'. rewrite M, elem_of_filter_ne, not_elem_of_cons. tauto.
    + congruence.
    + congruence.
    + congruence.
    + congruence.
    + congruence.
    + congruence.
    + congruence.
    + rewrite RM', RM. by rewrite <- app_assoc.
Qed.

(** [detach] on an instance whose handler has run: the registry ends
    empty, and, the instance's listeners being capture-phase listeners, no
    listener and no subscription is removed. *)
Lemma detach_spec (c : Controller) (h : Host) (s : HandlerState) :
  capturing h -> handlerState c = Some s ->
  exists h', detach c h = Normal (set_handlerState (Some (set_targets [] s)) c, h') /\
    listeners h' = listeners h /\ storage h' = storage h /\
    classList h' = classList h /\ subscriptions h' = subscriptions h /\
    timers h' = timers h /\
    toggleCalls (trace h') = toggleCalls (trace h) /\
    storageWrites (trace h') = storageWrites (trace h) /\
    removals (trace h') = removals (trace h) ++ flat_map detachRequests (targets s).
Proof.
  intros Hc Hs. unfold detach. rewrite Hs. case_bool_decide as Ht.
  - exists h. rewrite Ht. cbn [flat_map]. rewrite app_nil_r.
    replace (set_handlerState (Some (set_targets [] s)) c) with c; [done|].
    destruct c, s; cbn in *. by subst.
  - pose proof (detachLoop_spec (targets s) (targets s) h Hc) as D.
    destruct (detachLoop (targets s) (targets s) h) as [members h'].
    destruct D as (M & D). exists h'. split; [|done].
    assert (members = []) as ->; [|done].
    destruct members as [|d members]; [done|].
    destruct (M d) as [M1 _]. destruct M1 as [? ?]; [by left|done].
Qed.

Lemma construct_invariants (g : Globals) (container : option HTMLElement) (options : Options)
    (c : Controller) (h : Host) :
  construct g container options = Normal (Instance c h) ->
  coherent c h /\ registered c h /\ capturing h /\ handlerState c = None /\ timers h = [].
Proof.
  intros H.
  apply construct_Instance in H
    as (e & c0 & h0 & _ & Hi & Hst & _ & Hh & _ & _ & _ & _ & Hl & _ & Htm & _).
  apply initialise_spec in Hi as (Hh' & _ & _ & _ & _ & Hl' & Htm' & _ & Hi).
  assert (Hc : handlerState c = None) by congruence.
  split; [|split; [|split; [|split]]].
  - unfold coherent. destruct (storage h0) as [store|].
    + destruct Hi as (_ & Hi). repeat case_bool_decide.
      * destruct Hi as (-> & -> & _). split; [intros _; by apply marked_on|done].
      * destruct Hi as (-> & -> & _). split; [done|intros _; apply marked_off].
      * destruct Hi as (-> & _). by split.
    + destruct Hi as (-> & ->). rewrite Hst. by split.
  - intros s d Hs. congruence.
  - intros l Hl0. rewrite Hl', Hl in Hl0. by apply elem_of_nil in Hl0.
  - done.
  - congruence.
Qed.

Lemma reachable_invariants (c : Controller) (h : Host) :
  reachable c h -> coherent c h /\ registered c h /\ capturing h.
Proof.
  induction 1 as [g container options c h H|arg auto c h _ (Co & Re & Ca)
                 |event c h _ IH|handle c h c' h' _ (Co & Re & Ca) Hf
                 |c h c' h' _ ([Co1 Co2] & Re & Ca) Hd].
  - apply construct_invariants in H as (? & ? & ? & _). done.
  - pose proof (toggle_frame arg auto c h) as (Fh & Fc & _ & _ & Fl & _).
    split; [by apply toggle_coherent|]. split.
    + intros s d Hs Hd. rewrite Fl. unfold upListener. rewrite Fc.
      rewrite Fh in Hs. by apply (Re s).
    + unfold capturing. by rewrite Fl.
  - by apply handleEvent_invariants.
  - unfold timerFires in Hf. case_bool_decide; [|done]. injection Hf as Hf.
    match type of Hf with handleEvent None c ?h0 = _ =>
      pose proof (handleEvent_invariants None c h0) as IH; rewrite Hf in IH end.
    apply IH. done.
  - unfold detach in Hd. destruct (handlerState c) as [s|] eqn:Hs; [|done].
    pose proof (detach_spec c h s Ca Hs) as (h1 & Hd1 & L & _ & C & _).
    unfold detach in Hd1. rewrite Hs in Hd1. rewrite Hd in Hd1.
    injection Hd1 as -> ->. split; [|split].
    + unfold coherent. rewrite C. exact (conj Co1 Co2).
    + intros s' d [= <-] Hin. own_simpl in Hin. by apply elem_of_nil in Hin.
    + unfold capturing. by rewrite L.
Qed.

Lemma sample_reachable : reachable sampleController sampleHost.
Proof. exact (reach_construct _ _ _ _ _ sample_construct). Qed.

(** ** The persisted value follows the mode *)

Lemma toggle_persisted (arg : ToggleArg) (auto : option bool) (c : Controller) (h : Host) :
  persisted c h -> persisted (toggle arg auto c h).1 (toggle arg auto c h).2.
Proof.
  intros Hp. unfold toggle. cbv zeta.
  set (c1 := if bool_decide (auto = Some true) then _ else c).
  assert (Hc1 : state c1 = state c /\ key c1 = key c).
  { unfold c1. destruct (bool_decide (auto = Some true)); [|done]. by destruct arg as [|[]|]. }
  destruct Hc1 as [Hst Hk].
  destruct (bool_decide (auto = Some true) && negb (bool_decide (state c1 = Some Auto))).
  { unfold persisted. own_simpl. rewrite storage_log, Hst, Hk. exact Hp. }
  rewrite key_set_state, key_truthy, storage_log.
  unfold persisted. own_simpl. rewrite key_set_state, Hk.
  intros m. destruct (storage h) as [m0|] eqn:Hs; host_rw; rewrite Hs;
    cbn [fmap option_fmap option_map]; intros [= <-].
  eexists. split; [reflexivity|]. by rewrite lookup_insert_eq.
Qed.

Lemma handleEvent_persisted (event : option Event) (c : Controller) (h : Host) :
  persisted c h -> persisted (handleEvent event c h).1 (handleEvent event c h).2.
Proof.
  intros Hp.
  destruct (handleEvent_shape event c h) as (s0 & h0 & P & Hshape).
  apply prepare_spec in P as (_ & _ & _ & _ & _ & _ & _ & _ & _ & Q0).
  assert (Hp0 : persisted c h0).
  { destruct Q0 as (Hs & _). unfold persisted. by rewrite Hs. }
  destruct Hshape as [(s & h1 & -> & _ & Q1 & _)|(s & arg & auto & -> & _)]; cbn [fst snd].
  - destruct Q1 as (Hs & _). unfold persisted. own_simpl.
    rewrite key_set_handlerState, Hs. exact Hp0.
  - pose proof (toggle_persisted arg auto c h0 Hp0) as Hp1.
    unfold persisted in *. own_simpl. by rewrite key_set_handlerState.
Qed.

Lemma reachable_persisted (c : Controller) (h : Host) : reachable c h -> persisted c h.
Proof.
  induction 1 as [g container options c h H|arg auto c h _ IH
                 |event c h _ IH|handle c h c' h' R IH Hf
                 |c h c' h' R IH Hd].
  - apply construct_Instance in H
      as (e & c0 & h0 & _ & Hi & _ & _ & _ & _ & _ & _).
    apply initialise_spec in Hi as (_ & Hk & _ & _ & _ & _ & _ & _ & Hi).
    unfold persisted. rewrite Hk. intros m Hm.
    destruct (storage h0) as [store|] eqn:Hs0.
    + destruct Hi as (_ & Hi). repeat case_bool_decide.
      * destruct Hi as (-> & _ & Hs). rewrite Hs in Hm. injection Hm as <-.
        eexists. split; [reflexivity|]. by rewrite lookup_insert_eq.
      * destruct Hi as (-> & _ & Hs). rewrite Hs in Hm. injection Hm as <-.
        eexists. split; [reflexivity|]. by rewrite lookup_insert_eq.
      * destruct Hi as (-> & _ & _ & Hs). rewrite Hs in Hm. injection Hm as <-.
        eexists. split; [reflexivity|]. by rewrite lookup_insert_eq.
    + destruct Hi as (_ & ->). congruence.
  - by apply toggle_persisted.
  - by apply handleEvent_persisted.
  - unfold timerFires in Hf. case_bool_decide; [|done]. injection Hf as Hf.
    match type of Hf with handleEvent None c ?h0 = _ =>
      pose proof (handleEvent_persisted None c h0) as Hp; rewrite Hf in Hp end.
    apply Hp. exact IH.
  - apply reachable_invariants in R as (_ & _ & Ca).
    unfold detach in Hd. destruct (handlerState c) as [s|] eqn:Hs; [|done].
    pose proof (detach_spec c h s Ca Hs) as (h1 & Hd1 & _ & St & _).
    unfold detach in Hd1. rewrite Hs in Hd1. rewrite Hd in Hd1.
    injection Hd1 as -> ->. unfold persisted. own_simpl.
    rewrite key_set_handlerState, St. exact IH.
Qed.

(** In every reachable state with a Storage object, the mode is defined and
    the value stored under the instance's key is its name. *)
Theorem mode_is_persisted (c : Controller) (h : Host) (m : gmap string string) :
  reachable c h -> storage h = Some m ->
  exists st, state c = Some st /\ m !! key c = Some (State_string st).
Proof. intros R Hm. by apply (reachable_persisted c h R). Qed.

Lemma mode_is_persisted_witness :
  exists st, state sampleController = Some st /\
    ({[ "dark-mode-state@/a/" := "auto" ]} : gmap string string) !! key sampleController
    = Some (State_string st).
Proof.
  exact (mode_is_persisted sampleController sampleHost _ sample_reachable eq_refl).
Defined.

(** ** Gestures *)

(** A press on an element that has an owner document starts a capture. *)
Lemma handleEvent_capture (c : Controller) (h : Host) (type : string) (t : Element)
    (d : DocumentRef) :
  type = "mousedown" \/ type = "pointerdown" ->
  el_ownerDocument t = Some d ->
  handleEvent (Some (pointerEvent type (Some t))) c h =
  let '(s0, h0) := prepare (Some (pointerEvent type (Some t))) c h in
  (set_handlerState
     (Some (set_timeout (Some (nextTimer h0))
              (set_committed (Some false)
                 (set_target (Some t) (set_action (Some "capture") s0))))) c,
   (setTimeout (longPressTimeout c) h0).2).
Proof.
  intros Hd Ht. rewrite handleEvent_prepare.
  destruct (prepare _ c h) as [s0 h0].
  rewrite (arm_down _ _ Hd). cbv zeta.
  cbn [mbind option_bind ev_target pointerEvent]. rewrite Ht. reflexivity.
Qed.

(** A release, as the [mouseup]/[pointerup] arm handles it. *)
Lemma handleEvent_up (c : Controller) (h : Host) (type : string) (tgt : option Element) :
  type = "mouseup" \/ type = "pointerup" ->
  handleEvent (Some (pointerEvent type tgt)) c h =
  let '(s0, h0) := prepare (Some (pointerEvent type tgt)) c h in
  if bool_decide (target s0 = None) then
    (set_handlerState (Some (set_action (Some "ignore") s0)) c, h0)
  else if bool_decide (target s0 = tgt) && bool_decide (committed s0 = Some false) then
    let '(c', h') := toggle ArgUndefined None c h0 in
    (set_handlerState (Some (releaseState (set_action (Some "toggle") s0))) c', h')
  else
    (set_handlerState (Some (releaseState (set_action (Some "release") s0))) c, h0).
Proof.
  intros Hu. rewrite handleEvent_prepare.
  destruct (prepare _ c h) as [s0 h0].
  rewrite (arm_up _ _ Hu). reflexivity.
Qed.

(** The timer callback, or any delivery without a trigger. *)
Lemma handleEvent_timer (c : Controller) (h : Host) :
  handleEvent None c h =
  let '(s0, h0) := prepare None c h in
  if bool_decide (target s0 ≠ None) && bool_decide (committed s0 = Some false) then
    let '(c', h') := toggle (ArgState Auto) None c h0 in
    (set_handlerState
       (Some (set_committed (Some true) (set_action (Some "auto") s0))) c', h')
  else (set_handlerState (Some (set_action (Some "ignore") s0)) c, h0).
Proof.
  rewrite handleEvent_prepare. destruct (prepare None c h) as [s0 h0]. reflexivity.
Qed.

Lemma toggleCalls_toggle_manual (arg : ToggleArg) (c : Controller) (h : Host) :
  toggleCalls (trace (toggle arg None c h).2) = toggleCalls (trace h) ++ [CallToggle arg None].
Proof.
  rewrite toggle_manual. cbv zeta. cbn [snd trace].
  rewrite !toggleCalls_app. destruct (storage h); cbn; by rewrite ?app_nil_r.
Qed.

(** C3: a press on an element that has an owner document, followed by the
    release on the same element before the timer fires.  The press leaves
    the handler capturing with a timer pending; the release clears that
    timer, calls [toggle] once and without arguments, and leaves the handler
    idle.  The mode afterwards is the opposite of the marker shown before:
    [disabled] if the container showed the dark marker, [enabled] if not; so
    a mode [enabled] becomes [disabled] and a mode [disabled] becomes
    [enabled], and the marker is inverted. *)
Theorem tap_toggles_once (c : Controller) (h : Host) (downType upType : string)
    (t : Element) (d : DocumentRef) :
  reachable c h ->
  downType = "mousedown" \/ downType = "pointerdown" ->
  upType = "mouseup" \/ upType = "pointerup" ->
  el_ownerDocument t = Some d ->
  let '(c1, h1) := handleEvent (Some (pointerEvent downType (Some t))) c h in
  let '(c2, h2) := handleEvent (Some (pointerEvent upType (Some t))) c1 h1 in
  (exists s1 handle,
     handlerState c1 = Some s1 /\ action s1 = Some "capture" /\ target s1 = Some t /\
     committed s1 = Some false /\ timeout s1 = Some handle /\
     handle ∈ timers h1 /\ handle ∉ timers h2) /\
  (exists s2,
     handlerState c2 = Some s2 /\ action s2 = Some "toggle" /\ target s2 = None /\
     committed s2 = None /\ timeout s2 = None) /\
  toggleCalls (trace h2) = toggleCalls (trace h) ++ [CallToggle ArgUndefined None] /\
  state c2 = Some (if bool_decide ("dark-mode" ∈ classList h) then Disabled else Enabled) /\
  ("dark-mode" ∈ classList h2 <-> "dark-mode" ∉ classList h) /\
  (state c = Some Enabled -> state c2 = Some Disabled) /\
  (state c = Some Disabled -> state c2 = Some Enabled).
Proof.
  intros R Hd Hu Ht.
  apply reachable_invariants in R as ([CoE CoD] & _ & _).
  rewrite (handleEvent_capture _ _ _ _ _ Hd Ht).
  destruct (prepare _ c h) as [s0 h0] eqn:P0.
  apply prepare_spec in P0 as (_ & _ & _ & _ & _ & _ & _ & _ & _ & Q0).
  set (s1 := set_timeout (Some (nextTimer h0)) _).
  set (c1 := set_handlerState (Some s1) c).
  set (h1 := (setTimeout (longPressTimeout c) h0).2).
  rewrite (handleEvent_up _ _ _ _ Hu).
  destruct (prepare _ c1 h1) as [s2 h2] eqn:P1.
  apply prepare_spec in P1 as (O2 & T2 & C2 & M2 & _ & _ & _ & _ & _ & Q1).
  change (entryTarget c1) with (Some t) in T2.
  change (entryCommitted c1) with (Some false) in C2.
  specialize (M2 (nextTimer h0) eq_refl).
  rewrite T2, C2.
  rewrite (bool_decide_eq_false_2 (Some t = None)) by done.
  rewrite !bool_decide_eq_true_2 by done. cbn [andb].
  pose proof (toggleCalls_toggle_manual ArgUndefined c1 h2) as TC.
  pose proof (toggle_frame ArgUndefined None c1 h2) as (Fh & _ & _ & _ & _ & _ & Ft & _).
  rewrite toggle_manual in TC, Fh, Ft |- *. cbv zeta in TC, Fh, Ft |- *.
  cbn [fst snd] in TC, Fh, Ft.
  assert (Q : quiet h h2).
  { eapply quiet_trans; [exact Q0|]. eapply quiet_trans; [apply quiet_setTimeout|exact Q1]. }
  destruct Q as (_ & Qc & _ & Qt & _).
  split.
  { exists s1, (nextTimer h0). repeat split.
    - unfold h1. rewrite timers_setTimeout. apply elem_of_app. right. by left.
    - rewrite Ft. exact M2. }
  split.
  { eexists. split; [reflexivity|]. own_simpl. by rewrite O2. }
  split; [by rewrite TC, Qt|].
  own_simpl. cbn [classList nextStateOf classList_contains].
  rewrite (bool_decide_eq_false_2 (ArgUndefined = ArgState Auto)) by done.
  rewrite Qc.
  unfold classList_contains. rewrite Qc.
  destruct (decide ("dark-mode" ∈ classList h)) as [Hdark|Hdark];
    [rewrite (bool_decide_eq_true_2 _ Hdark)|rewrite (bool_decide_eq_false_2 _ Hdark)];
    cbn [negb].
  - split; [done|]. split.
    { split; [intros Hin; by apply marked_off in Hin|done]. }
    split; [done|]. intros Hst. by apply CoD in Hst.
  - split; [done|]. split.
    { split; [done|intros _; by apply marked_on]. }
    split; [|done]. intros Hst. by apply CoE in Hst.
Qed.

Lemma tap_toggles_once_witness :
  let '(c1, h1) :=
    handleEvent (Some (pointerEvent "mousedown" (Some sampleTarget)))
      sampleController sampleHost in
  let '(c2, h2) := handleEvent (Some (pointerEvent "mouseup" (Some sampleTarget))) c1 h1 in
  (exists s1 handle,
     handlerState c1 = Some s1 /\ action s1 = Some "capture" /\
     target s1 = Some sampleTarget /\
     committed s1 = Some false /\ timeout s1 = Some handle /\
     handle ∈ timers h1 /\ handle ∉ timers h2) /\
  (exists s2,
     handlerState c2 = Some s2 /\ action s2 = Some "toggle" /\ target s2 = None /\
     committed s2 = None /\ timeout s2 = None) /\
  toggleCalls (trace h2)
  = toggleCalls (trace sampleHost) ++ [CallToggle ArgUndefined None] /\
  state c2
  = Some (if bool_decide ("dark-mode" ∈ classList sampleHost) then Disabled else Enabled) /\
  ("dark-mode" ∈ classList h2 <-> "dark-mode" ∉ classList sampleHost) /\
  (state sampleController = Some Enabled -> state c2 = Some Disabled) /\
  (state sampleController = Some Disabled -> state c2 = Some Enabled).
Proof.
  exact (tap_toggles_once sampleController sampleHost "mousedown" "mouseup" sampleTarget 1
           sample_reachable (or_introl eq_refl) (or_introl eq_refl) eq_refl).
Defined.

Example tap_on_sample :
  let '(c2, h2) :=
    deliver [Some (pointerEvent "mousedown" (Some sampleTarget));
             Some (pointerEvent "mouseup" (Some sampleTarget))]
      sampleController sampleHost in
  state c2 = Some Disabled /\
  classList h2 = ["page"; "light-mode"] /\
  (storage h2 ≫= fun m => m !! "dark-mode-state@/a/") = Some "disabled" /\
  listeners h2 = [{| l_document := 1; l_type := "mouseup"; l_capture := true |}] /\
  timers h2 = [].
Proof. vm_compute. repeat split. Qed.

(** C4: a press on an element that has an owner document, then the timer
    firing with no release in between.  The timer callback calls [toggle]
    once, with the argument "auto", the mode becomes [auto] and the handler
    holds the target as committed.  A release on the same element after that
    is classified [release]: it calls [toggle] no more, leaves the mode
    [auto] and returns the handler to idle. *)
Theorem long_press_reverts_to_auto (c : Controller) (h : Host) (downType upType : string)
    (t : Element) (d : DocumentRef) :
  downType = "mousedown" \/ downType = "pointerdown" ->
  upType = "mouseup" \/ upType = "pointerup" ->
  el_ownerDocument t = Some d ->
  let '(c1, h1) := handleEvent (Some (pointerEvent downType (Some t))) c h in
  exists handle c2 h2,
    entryTimeout c1 = Some handle /\
    timerFires handle c1 h1 = Some (c2, h2) /\
    toggleCalls (trace h2) = toggleCalls (trace h) ++ [CallToggle (ArgState Auto) None] /\
    state c2 = Some Auto /\
    (exists s2,
       handlerState c2 = Some s2 /\ action s2 = Some "auto" /\ target s2 = Some t /\
       committed s2 = Some true /\ timeout s2 = None) /\
    let '(c3, h3) := handleEvent (Some (pointerEvent upType (Some t))) c2 h2 in
    toggleCalls (trace h3) = toggleCalls (trace h2) /\
    state c3 = Some Auto /\
    exists s3,
      handlerState c3 = Some s3 /\ action s3 = Some "release" /\ target s3 = None /\
      committed s3 = None /\ timeout s3 = None.
Proof.
  intros Hd Hu Ht.
  rewrite (handleEvent_capture _ _ _ _ _ Hd Ht).
  destruct (prepare _ c h) as [s0 h0] eqn:P0.
  apply prepare_spec in P0 as (_ & _ & _ & _ & _ & _ & _ & _ & _ & Q0).
  set (s1 := set_timeout (Some (nextTimer h0)) _).
  set (c1 := set_handlerState (Some s1) c).
  set (h1 := (setTimeout (longPressTimeout c) h0).2).
  exists (nextTimer h0).
  unfold timerFires.
  rewrite bool_decide_eq_true_2
    by (unfold h1; rewrite timers_setTimeout; apply elem_of_app; right; by left).
  set (h1' := {| storage := storage h1; classList := classList h1;
                 listeners := listeners h1; subscriptions := subscriptions h1;
                 timers := filter (fun t0 => t0 ≠ nextTimer h0) (timers h1);
                 nextTimer := nextTimer h1; trace := trace h1 |}).
  assert (Q1' : quiet h1 h1') by (by repeat split).
  rewrite handleEvent_timer.
  destruct (prepare None c1 h1') as [s2 h2'] eqn:P1.
  apply prepare_spec in P1 as (O2 & T2 & C2 & _ & _ & _ & _ & _ & _ & Q1).
  change (entryTarget c1) with (Some t) in T2.
  change (entryCommitted c1) with (Some false) in C2.
  rewrite T2, C2. rewrite !bool_decide_eq_true_2 by done. cbn [andb].
  pose proof (toggleCalls_toggle_manual (ArgState Auto) c1 h2') as TC.
  rewrite toggle_manual in TC |- *. cbv zeta in TC |- *. cbn [snd] in TC.
  rewrite (bool_decide_eq_true_2 (ArgState Auto = ArgState Auto)) in TC |- * by done.
  match goal with |- context [Some (?cc, ?hh)] => set (c2 := cc); set (h2 := hh) end.
  exists c2, h2.
  assert (Q : quiet h h2').
  { eapply quiet_trans; [exact Q0|]. eapply quiet_trans; [apply quiet_setTimeout|].
    eapply quiet_trans; [exact Q1'|exact Q1]. }
  destruct Q as (_ & _ & _ & Qt & _).
  split; [done|]. split; [done|].
  split; [unfold h2; by rewrite TC, Qt|].
  split; [done|].
  split.
  { eexists. split; [reflexivity|]. own_simpl. by rewrite T2, O2. }
  rewrite (handleEvent_up _ _ _ _ Hu).
  destruct (prepare _ c2 h2) as [s3 h3] eqn:P2.
  apply prepare_spec in P2 as (O3 & T3 & C3 & _ & _ & _ & _ & _ & _ & Q2).
  change (entryTarget c2) with (target s2) in T3.
  change (entryCommitted c2) with (Some true) in C3.
  rewrite T2 in T3. rewrite T3, C3.
  rewrite (bool_decide_eq_false_2 (Some t = None)) by done.
  rewrite (bool_decide_eq_false_2 (Some true = Some false)) by done.
  rewrite andb_false_r.
  destruct Q2 as (_ & _ & _ & Qt2 & _).
  split; [done|]. split; [done|].
  eexists. split; [reflexivity|]. own_simpl. by rewrite O3.
Qed.

Lemma long_press_reverts_to_auto_witness :
  let '(c1, h1) :=
    handleEvent (Some (pointerEvent "mousedown" (Some sampleTarget)))
      sampleController sampleHost in
  exists handle c2 h2,
    entryTimeout c1 = Some handle /\
    timerFires handle c1 h1 = Some (c2, h2) /\
    toggleCalls (trace h2)
    = toggleCalls (trace sampleHost) ++ [CallToggle (ArgState Auto) None] /\
    state c2 = Some Auto /\
    (exists s2,
       handlerState c2 = Some s2 /\ action s2 = Some "auto" /\
       target s2 = Some sampleTarget /\
       committed s2 = Some true /\ timeout s2 = None) /\
    let '(c3, h3) := handleEvent (Some (pointerEvent "mouseup" (Some sampleTarget))) c2 h2 in
    toggleCalls (trace h3) = toggleCalls (trace h2) /\
    state c3 = Some Auto /\
    exists s3,
      handlerState c3 = Some s3 /\ action s3 = Some "release" /\ target s3 = None /\
      committed s3 = None /\ timeout s3 = None.
Proof.
  exact (long_press_reverts_to_auto sampleController sampleHost "mousedown" "mouseup"
           sampleTarget 1 (or_introl eq_refl) (or_introl eq_refl) eq_refl).
Defined.

(** ** The timer and the pending target *)

Lemma deliver_app (l1 l2 : list (option Event)) (c : Controller) (h : Host) :
  deliver (l1 ++ l2) c h = deliver l2 (deliver l1 c h).1 (deliver l1 c h).2.
Proof.
  revert c h. induction l1 as [|e l1 IH]; intros c h; cbn [deliver app fst snd].
  - reflexivity.
  - destruct (handleEvent e c h) as [c1 h1]. apply IH.
Qed.

Lemma idle_timer_invariant (s : HandlerState) (P : Prop) :
  timeout s = None -> ~ capturePending s ->
  (timerPending s -> capturePending s) /\ (P -> (timerPending s <-> capturePending s)).
Proof.
  unfold timerPending. intros -> Hn.
  split; [by intros [? ?]|]. intros _. split; [by intros [? ?]|done].
Qed.

Lemma handleEvent_timer_invariant (event : option Event) (c : Controller) (h : Host)
    (s : HandlerState) :
  handlerState (handleEvent event c h).1 = Some s ->
  (timerPending s -> capturePending s) /\
  (armOf (triggerOf event) ≠ ArmDefault -> (timerPending s <-> capturePending s)).
Proof.
  rewrite handleEvent_prepare.
  destruct (prepare event c h) as [s0 h0] eqn:P.
  apply prepare_spec in P as (O & _).
  cbv zeta.
  destruct (armOf (triggerOf event)) as [isDark| | | |].
  - destruct (if bool_decide _ then _ else _) as [c' h'].
    own_simpl. intros [= <-].
    apply idle_timer_invariant; [done|]. unfold capturePending. own_simpl.
    by intros [[? ?] _].
  - case_bool_decide as Ht; case_bool_decide as Hc; cbn [andb];
      try destruct (toggle _ _ c h0) as [c' h'];
      own_simpl; intros [= <-];
      (apply idle_timer_invariant; [done|]); unfold capturePending; own_simpl.
    + by intros [_ ?].
    + by intros [_ ?].
    + intros [[x Hx] _]. congruence.
    + by intros [_ ?].
  - case_bool_decide as Ht.
    { own_simpl. intros [= <-].
      apply idle_timer_invariant; [done|]. unfold capturePending. own_simpl.
      rewrite Ht. by intros [[? ?] _]. }
    destruct (_ && _); try destruct (toggle _ _ c h0) as [c' h'];
      own_simpl; intros [= <-];
      (apply idle_timer_invariant; [done|]); unfold capturePending; own_simpl;
      by intros [[? ?] _].
  - destruct (event ≫= ev_target) as [t|]; cbn [mbind option_bind].
    + destruct (el_ownerDocument t) as [d|].
      * intros [= <-]. unfold timerPending, capturePending. own_simpl.
        split; [|intros _; split]; by eauto.
      * case_bool_decide as Ht; own_simpl; intros [= <-];
          (apply idle_timer_invariant; [done|]); unfold capturePending; own_simpl;
          rewrite ?Ht; by intros [[? ?] _].
    + case_bool_decide as Ht; own_simpl; intros [= <-];
        (apply idle_timer_invariant; [done|]); unfold capturePending; own_simpl;
        rewrite ?Ht; by intros [[? ?] _].
  - own_simpl. intros [= <-]. unfold timerPending. rewrite O.
    split; [by intros [? ?]|done].
Qed.

(** C6, as the code has it.  After any sequence of deliveries to an
    instance whose handler had not run before: if the timer handle is set,
    then a target is pending and [committed] is [false].  The converse holds
    whenever the last delivery was taken by one of the named arms of the
    [switch] (scheme change, no trigger, release, press); a delivery that
    falls to the default arm has had the timer cleared on entry and leaves
    target and [committed] as they were. *)
Theorem timer_invariant (c : Controller) (h : Host) (events : list (option Event))
    (s : HandlerState) :
  handlerState c = None ->
  handlerState (deliver events c h).1 = Some s ->
  (timerPending s -> capturePending s) /\
  ((forall event, last events = Some event -> armOf (triggerOf event) ≠ ArmDefault) ->
   (timerPending s <-> capturePending s)).
Proof.
  intros Hnone.
  destruct events as [|e events _] using rev_ind.
  { cbn [deliver fst]. congruence. }
  rewrite deliver_app. cbn [deliver].
  destruct (handleEvent e _ _) as [c1 h1] eqn:E. cbn [fst].
  intros Hs.
  assert (Hs' : handlerState (handleEvent e (deliver events c h).1 (deliver events c h).2).1
                = Some s) by (by rewrite E).
  apply handleEvent_timer_invariant in Hs' as [H1 H2].
  split; [done|]. intros Hlast. apply H2. apply Hlast. by rewrite last_snoc.
Qed.

Lemma timer_invariant_witness :
  exists s,
    handlerState
      (deliver [Some (pointerEvent "mousedown" (Some sampleTarget))]
         sampleController sampleHost).1 = Some s /\
    (timerPending s -> capturePending s) /\
    ((forall event,
        last [Some (pointerEvent "mousedown" (Some sampleTarget))] = Some event ->
        armOf (triggerOf event) ≠ ArmDefault) ->
     (timerPending s <-> capturePending s)).
Proof.
  eexists. split; [vm_compute; reflexivity|].
  apply (timer_invariant sampleController sampleHost
           [Some (pointerEvent "mousedown" (Some sampleTarget))]).
  - reflexivity.
  - vm_compute. reflexivity.
Defined.

(** C6 as stated fails: after a press, a delivery whose type matches a
    trigger only up to case falls to the default arm; the timer is gone
    while the target is still pending and [committed] is still [false]. *)
Lemma default_arm_breaks_timer_invariant :
  exists s,
    handlerState
      (deliver [Some (pointerEvent "mousedown" (Some sampleTarget));
                Some (pointerEvent "MouseDown" (Some sampleTarget))]
         sampleController sampleHost).1 = Some s /\
    timeout s = None /\ target s = Some sampleTarget /\ committed s = Some false /\
    capturePending s /\ ~ timerPending s.
Proof.
  eexists. split; [vm_compute; reflexivity|].
  repeat split; try done. by intros [? ?].
Qed.

(** ** System preference changes *)

(** C8, as the code has it.  In automatic mode with a Storage object, a
    delivery classified as a scheme change that reports a match records the
    scheme as the preference, applies its marker and removes the other,
    keeps the mode [auto], and, like every [toggle] that reaches line 306,
    writes the mode to the Storage object: exactly one write, of "auto"
    under the instance's key.  The value under the key was "auto" already,
    so the contents of the Storage object are the same afterwards. *)
Theorem scheme_change_in_auto (c : Controller) (h : Host) (e : Event) (isDark : bool)
    (store : gmap string string) :
  reachable c h ->
  state c = Some Auto ->
  storage h = Some store ->
  armOf (triggerOf (Some e)) = ArmScheme isDark ->
  ev_matches e = Some true ->
  let '(c', h') := handleEvent (Some e) c h in
  state c' = Some Auto /\
  prefers c' = Some (if isDark then Dark else Light) /\
  (if isDark
   then "dark-mode" ∈ classList h' /\ "light-mode" ∉ classList h'
   else "light-mode" ∈ classList h' /\ "dark-mode" ∉ classList h') /\
  toggleCalls (trace h') = toggleCalls (trace h) ++ [CallToggle (ArgBool isDark) (Some true)] /\
  storageWrites (trace h') = storageWrites (trace h) ++ [StorageSet (key c) "auto"] /\
  store !! key c = Some "auto" /\
  storage h' = Some store.
Proof.
  intros R Hst Hsto Harm Hm.
  assert (Hk : store !! key c = Some "auto").
  { destruct (reachable_persisted c h R store Hsto) as (st & Hst' & Hk).
    rewrite Hst in Hst'. injection Hst' as <-. exact Hk. }
  rewrite handleEvent_prepare.
  destruct (prepare (Some e) c h) as [s0 h0] eqn:P.
  apply prepare_spec in P as (_ & _ & _ & _ & _ & _ & _ & _ & _ & Q).
  destruct Q as (Qs & Qc & _ & Qt & Qw & _).
  rewrite Harm. cbv zeta. cbn [mbind option_bind]. rewrite Hm.
  rewrite (bool_decide_eq_true_2 (Some true = Some true)) by done.
  rewrite toggle_system. cbv zeta.
  rewrite (bool_decide_eq_true_2 _ Hst).
  own_simpl. cbn [storage classList trace].
  rewrite Qs, Hsto. cbn [fmap option_fmap option_map].
  rewrite !toggleCalls_app, !storageWrites_app, Qt, Qw.
  split; [done|]. split; [done|]. split.
  { destruct isDark; (split; [by apply marked_on|apply marked_off]). }
  split; [done|]. split; [done|]. split; [done|].
  by rewrite insert_id.
Qed.

Lemma scheme_change_in_auto_witness :
  let '(c', h') :=
    handleEvent (Some (changeEvent "(prefers-color-scheme: light)" true))
      sampleController sampleHost in
  state c' = Some Auto /\
  prefers c' = Some (if false then Dark else Light) /\
  (if false
   then "dark-mode" ∈ classList h' /\ "light-mode" ∉ classList h'
   else "light-mode" ∈ classList h' /\ "dark-mode" ∉ classList h') /\
  toggleCalls (trace h')
  = toggleCalls (trace sampleHost) ++ [CallToggle (ArgBool false) (Some true)] /\
  storageWrites (trace h')
  = storageWrites (trace sampleHost) ++ [StorageSet (key sampleController) "auto"] /\
  ({[ "dark-mode-state@/a/" := "auto" ]} : gmap string string) !! key sampleController
  = Some "auto" /\
  storage h' = Some {[ "dark-mode-state@/a/" := "auto" ]}.
Proof.
  exact (scheme_change_in_auto sampleController sampleHost
           (changeEvent "(prefers-color-scheme: light)" true) false
           {[ "dark-mode-state@/a/" := "auto" ]}
           sample_reachable eq_refl eq_refl eq_refl eq_refl).
Defined.

(** C8 as stated fails: the delivery does write to the Storage object. *)
Lemma scheme_change_writes_storage :
  let '(c', h') :=
    handleEvent (Some (changeEvent "(prefers-color-scheme: light)" true))
      sampleController sampleHost in
  state sampleController = Some Auto /\
  (storage sampleHost ≫= fun m => m !! "dark-mode-state@/a/") = Some "auto" /\
  classList h' = ["page"; "light-mode"] /\
  storageWrites (trace sampleHost)
  = [StorageSet "dark-mode-state@/a/" "auto"; StorageSet "dark-mode-state@/a/" "auto"] /\
  storageWrites (trace h')
  = [StorageSet "dark-mode-state@/a/" "auto"; StorageSet "dark-mode-state@/a/" "auto";
     StorageSet "dark-mode-state@/a/" "auto"].
Proof. vm_compute. repeat split. Qed.

(** ** What detach leaves behind *)

(** On any reachable instance whose handler has run, [detach] returns with
    an empty registry, having asked every registered document to remove
    bubbling-phase listeners named [onmousedown], [onmouseup],
    [onpointerdown] and [onpointerup].  The up-listeners were installed for
    the capture phase under the names [mouseup] or [pointerup], so all of
    them are still in place, as are the subscriptions to the preference
    feeds.  A second [detach] changes nothing and asks for nothing. *)
Lemma detach_removes_nothing (c : Controller) (h : Host) (s : HandlerState) :
  reachable c h -> handlerState c = Some s ->
  exists c' h',
    detach c h = Normal (c', h') /\
    (handlerState c' ≫= fun s' => Some (targets s')) = Some [] /\
    removals (trace h') = removals (trace h) ++ flat_map detachRequests (targets s) /\
    (forall d, d ∈ targets s -> upListener c d ∈ listeners h') /\
    listeners h' = listeners h /\
    subscriptions h' = subscriptions h /\
    detach c' h' = Normal (c', h').
Proof.
  intros R Hs. apply reachable_invariants in R as (_ & Re & Ca).
  destruct (detach_spec c h s Ca Hs) as (h' & Hd & L & _ & _ & U & _ & _ & _ & Rm).
  eexists _, h'. split; [exact Hd|]. split; [done|]. split; [done|].
  split; [intros d Hin; rewrite L; by apply (Re s)|].
  split; [done|]. split; [done|].
  unfold detach. own_simpl. by rewrite bool_decide_eq_true_2.
Qed.

Lemma detach_removes_nothing_witness :
  exists s,
    handlerState
      (handleEvent (Some (pointerEvent "mousedown" (Some sampleTarget)))
         sampleController sampleHost).1 = Some s /\
    exists c' h',
      detach
        (handleEvent (Some (pointerEvent "mousedown" (Some sampleTarget)))
           sampleController sampleHost).1
        (handleEvent (Some (pointerEvent "mousedown" (Some sampleTarget)))
           sampleController sampleHost).2 = Normal (c', h') /\
      (handlerState c' ≫= fun s' => Some (targets s')) = Some [] /\
      removals (trace h')
      = removals
          (trace (handleEvent (Some (pointerEvent "mousedown" (Some sampleTarget)))
                    sampleController sampleHost).2)
        ++ flat_map detachRequests (targets s) /\
      (forall d, d ∈ targets s ->
         upListener
           (handleEvent (Some (pointerEvent "mousedown" (Some sampleTarget)))
              sampleController sampleHost).1 d ∈ listeners h') /\
      listeners h'
      = listeners (handleEvent (Some (pointerEvent "mousedown" (Some sampleTarget)))
                     sampleController sampleHost).2 /\
      subscriptions h'
      = subscriptions (handleEvent (Some (pointerEvent "mousedown" (Some sampleTarget)))
                         sampleController sampleHost).2 /\
      detach c' h' = Normal (c', h').
Proof.
  eexists. split; [vm_compute; reflexivity|].
  apply detach_removes_nothing.
  - apply reach_event. exact sample_reachable.
  - vm_compute. reflexivity.
Defined.

(** C2 on the sample page: after one press has reached the handler,
    [detach] asks document 1 for four removals that match no listener; the
    capture-phase [mouseup] listener and both feed subscriptions remain. *)
Theorem detach_on_sample_keeps_listeners :
  let '(c1, h1) :=
    handleEvent (Some (pointerEvent "mousedown" (Some sampleTarget)))
      sampleController sampleHost in
  exists c2 h2,
    detach c1 h1 = Normal (c2, h2) /\
    listeners h1 = [{| l_document := 1; l_type := "mouseup"; l_capture := true |}] /\
    removals (trace h2) = detachRequests 1 /\
    listeners h2 = [{| l_document := 1; l_type := "mouseup"; l_capture := true |}] /\
    subscriptions h2 = ["(prefers-color-scheme: dark)"; "(prefers-color-scheme: light)"] /\
    detach c2 h2 = Normal (c2, h2).
Proof. vm_compute. eexists _, _. repeat split. Qed.

(** ** A release elsewhere *)



(** ** The matchers *)

Lemma take_ci_equal_ci (word source m rest : string) :
  take_ci word source = Some (m, rest) ->
  equal_ci word m = true /\ source = (m ++ rest)%string.
Proof.
  revert source m rest. induction word as [|p word IH]; intros source m rest.
  - cbn [take_ci]. intros [= <- <-]. done.
  - destruct source as [|c source]; cbn [take_ci]; [done|].
    case_bool_decide as Hp; [|done].
    destruct (take_ci word source) as [[m' rest']|] eqn:E; cbn [mbind option_bind]; [|done].
    intros [= <- <-]. apply IH in E as [E1 ->]. split; [|done].
    cbn [equal_ci]. by rewrite bool_decide_eq_true_2.
Qed.

Lemma word_here_equal_ci (word : string) (before : bool) (source m : string) :
  word_here word before source = Some m ->
  equal_ci word m = true /\ exists rest, source = (m ++ rest)%string.
Proof.
  unfold word_here.
  destruct (take_ci word source) as [[m' rest]|] eqn:E; cbn [mbind option_bind]; [|done].
  destruct (negb before && negb _); [|done]. intros [= <-].
  apply take_ci_equal_ci in E as [E1 E2]. eauto.
Qed.

Lemma scan_scheme_equal_ci (before : bool) (source m : string) :
  scan_scheme before source = Some m ->
  (equal_ci "light" m = true \/ equal_ci "dark" m = true) /\
  exists pre post, source = (pre ++ m ++ post)%string.
Proof.
  revert before. induction source as [|c source IH]; intros before.
  - cbn [scan_scheme].
    destruct (word_here "light" before "") as [m1|] eqn:E1.
    { intros [= <-]. apply word_here_equal_ci in E1 as [? [rest ?]].
      split; [by left|]. by exists "", rest. }
    destruct (word_here "dark" before "") as [m2|] eqn:E2; [|done].
    intros [= <-]. apply word_here_equal_ci in E2 as [? [rest ?]].
    split; [by right|]. by exists "", rest.
  - cbn [scan_scheme].
    destruct (word_here "light" before (String c source)) as [m1|] eqn:E1.
    { intros [= <-]. apply word_here_equal_ci in E1 as [? [rest ?]].
      split; [by left|]. by exists "", rest. }
    destruct (word_here "dark" before (String c source)) as [m2|] eqn:E2.
    { intros [= <-]. apply word_here_equal_ci in E2 as [? [rest ?]].
      split; [by right|]. by exists "", rest. }
    intros E. apply IH in E as [E (pre & post & ->)]. split; [done|].
    by exists (String c pre), post.
Qed.

Lemma matchTrigger_cases (source t : string) :
  matchTrigger source = Some t ->
  (t = source /\
   existsb (fun p => equal_ci p source) ["mouseup"; "mousedown"; "pointerup"; "pointerdown"]
   = true) \/
  ((equal_ci "light" t = true \/ equal_ci "dark" t = true) /\
   exists pre post, source = (pre ++ t ++ post)%string).
Proof.
  unfold matchTrigger.
  destruct (existsb _ _) eqn:E.
  - intros [= <-]. by left.
  - intros H. right. by apply scan_scheme_equal_ci in H.
Qed.

Lemma armOf_Some (t : string) :
  (armOf (Some t) = ArmDown <-> t = "mousedown" \/ t = "pointerdown") /\
  (armOf (Some t) = ArmUp <-> t = "mouseup" \/ t = "pointerup") /\
  (forall d, armOf (Some t) = ArmScheme d <-> t = (if d then "dark" else "light")).
Proof.
  unfold armOf.
  repeat case_bool_decide; subst; cbn [orb];
    (split; [|split; [|intros [|]]]); (split; [intros HH|intros HH]);
    try discriminate HH; try reflexivity; try congruence;
    try (destruct HH as [HH|HH]; congruence); auto.
Qed.

Lemma ascii_eq_nat (a b : ascii) : nat_of_ascii a = nat_of_ascii b -> a = b.
Proof.
  intros H. rewrite <- (ascii_nat_embedding a), <- (ascii_nat_embedding b). by rewrite H.
Qed.

Lemma fold_case_sameLetter (p a : ascii) :
  (97 <= nat_of_ascii p <= 122)%nat -> (p = fold_case a <-> sameLetter p a).
Proof.
  intros Hp. unfold fold_case, sameLetter, code.
  pose proof (nat_ascii_bounded a) as Hb.
  destruct ((65 <=? nat_of_ascii a)%nat && (nat_of_ascii a <=? 90)%nat) eqn:E.
  - apply andb_true_iff in E as [E1 E2]. apply Nat.leb_le in E1, E2. split.
    + intros ->. right. rewrite nat_ascii_embedding by lia. done.
    + intros [H|H]; [lia|]. apply ascii_eq_nat. rewrite nat_ascii_embedding by lia. done.
  - apply andb_false_iff in E. split.
    + intros ->. by left.
    + intros [H|H]; [by apply ascii_eq_nat|].
      destruct E as [E|E]; apply Nat.leb_gt in E; lia.
Qed.

Lemma is_word_char_wordUnit (a : ascii) : is_word_char a = true <-> wordUnit a.
Proof.
  unfold is_word_char, wordUnit, code.
  rewrite !orb_true_iff, !andb_true_iff, !Nat.leb_le, Nat.eqb_eq. tauto.
Qed.

Lemma is_word_char_false (a : ascii) : is_word_char a = false <-> ~ wordUnit a.
Proof. rewrite <- is_word_char_wordUnit. by destruct (is_word_char a). Qed.

Lemma L_inj (s t : string) : list_ascii_of_string s = list_ascii_of_string t -> s = t.
Proof.
  intros H. rewrite <- (string_of_list_ascii_of_string s), <- (string_of_list_ascii_of_string t).
  by rewrite H.
Qed.

Lemma take_ci_sound (w s m rest : string) :
  lowerWord w -> take_ci w s = Some (m, rest) ->
  list_ascii_of_string s = list_ascii_of_string m ++ list_ascii_of_string rest /\ readsAs w (list_ascii_of_string m).
Proof.
  unfold lowerWord, readsAs.
  revert s m rest. induction w as [|p w IH]; intros s m rest Hw.
  - cbn [take_ci]. intros [= <- <-]. split; [done|]. constructor.
  - destruct s as [|c s]; cbn [take_ci]; [done|].
    apply Forall_cons in Hw as [Hp Hw].
    case_bool_decide as Hc; [|done].
    destruct (take_ci w s) as [[m' rest']|] eqn:E; cbn [mbind option_bind]; [|done].
    intros [= <- <-]. apply IH in E as [E1 E2]; [|done].
    cbn [list_ascii_of_string]. rewrite E1. split; [done|].
    constructor; [|done]. by apply fold_case_sameLetter.
Qed.

Lemma take_ci_complete (w s : string) (m post : list ascii) :
  lowerWord w -> list_ascii_of_string s = m ++ post -> readsAs w m ->
  exists m' rest, take_ci w s = Some (m', rest) /\ list_ascii_of_string m' = m /\ list_ascii_of_string rest = post.
Proof.
  unfold lowerWord, readsAs.
  revert s m. induction w as [|p w IH]; intros s m Hw Hs Hr.
  - cbn [list_ascii_of_string] in Hr. apply Forall2_nil_inv_l in Hr. subst m.
    exists "", s. done.
  - cbn [list_ascii_of_string] in Hr, Hw.
    apply Forall2_cons_inv_l in Hr as (a & m2 & Ha & Hr & ->).
    apply Forall_cons in Hw as [Hp Hw].
    destruct s as [|c s]; cbn [list_ascii_of_string] in Hs; [done|].
    injection Hs as -> Hs.
    destruct (IH s m2 Hw Hs Hr) as (m' & rest & E & Hm & Hrest).
    exists (String a m'), rest. cbn [take_ci].
    rewrite bool_decide_eq_true_2 by (by apply fold_case_sameLetter).
    rewrite E. cbn [mbind option_bind list_ascii_of_string]. by rewrite Hm.
Qed.

Lemma equal_ci_readsAs (w s : string) :
  lowerWord w -> (equal_ci w s = true <-> readsAs w (list_ascii_of_string s)).
Proof.
  unfold lowerWord, readsAs.
  revert s. induction w as [|p w IH]; intros s Hw.
  - destruct s; cbn [equal_ci list_ascii_of_string].
    + split; [constructor|done].
    + split; [done|]. intros H. by apply Forall2_nil_inv_l in H.
  - cbn [list_ascii_of_string] in Hw. apply Forall_cons in Hw as [Hp Hw].
    destruct s as [|c s]; cbn [equal_ci list_ascii_of_string].
    + split; [done|]. intros H. by apply Forall2_cons_inv_l in H as (? & ? & _ & _ & ?).
    + rewrite andb_true_iff, bool_decide_eq_true, (fold_case_sameLetter p c Hp), (IH s Hw).
      split.
      * intros [? ?]. by constructor.
      * intros H. apply Forall2_cons_1 in H. done.
Qed.

Lemma lower_light : lowerWord "light".
Proof. unfold lowerWord. cbn. repeat constructor; lia. Qed.

Lemma lower_dark : lowerWord "dark".
Proof. unfold lowerWord. cbn. repeat constructor; lia. Qed.

Lemma word_here_sound (w : string) (before : bool) (s m : string) :
  lowerWord w -> word_here w before s = Some m ->
  exists post, list_ascii_of_string s = list_ascii_of_string m ++ post /\ readsAs w (list_ascii_of_string m) /\ before = false /\
    forall a, head post = Some a -> ~ wordUnit a.
Proof.
  intros Hw. unfold word_here.
  destruct (take_ci w s) as [[m' rest]|] eqn:E; cbn [mbind option_bind]; [|done].
  apply take_ci_sound in E as [E1 E2]; [|done].
  destruct before; cbn [negb andb]; [done|].
  destruct rest as [|c rest]; cbn [negb].
  - intros [= <-]. exists []. by repeat split.
  - destruct (is_word_char c) eqn:W; cbn [negb]; [done|]. intros [= <-].
    exists (list_ascii_of_string (String c rest)). repeat split; try done.
    cbn [list_ascii_of_string head]. intros a [= <-]. by apply is_word_char_false.
Qed.

Lemma word_here_complete (w : string) (before : bool) (s : string) (m post : list ascii) :
  lowerWord w -> list_ascii_of_string s = m ++ post -> readsAs w m -> before = false ->
  (forall a, head post = Some a -> ~ wordUnit a) ->
  exists m', word_here w before s = Some m' /\ list_ascii_of_string m' = m.
Proof.
  intros Hw Hs Hr -> Hpost.
  destruct (take_ci_complete w s m post Hw Hs Hr) as (m' & rest & E & Hm & Hrest).
  exists m'. split; [|done]. unfold word_here. rewrite E. cbn [mbind option_bind negb andb].
  destruct rest as [|c rest]; [done|].
  cbn [list_ascii_of_string] in Hrest. subst post.
  assert (W : is_word_char c = false) by (apply is_word_char_false; by apply Hpost).
  by rewrite W.
Qed.

Lemma readsAs_nonempty (w : string) (m : list ascii) :
  w ≠ "" -> readsAs w m -> m ≠ [].
Proof.
  unfold readsAs. destruct w; [done|]. intros _ H ->.
  cbn [list_ascii_of_string] in H. by apply Forall2_nil_inv_r in H.
Qed.

Lemma occAt_nil (before : bool) (s : string) (m post : list ascii) :
  occAt before s [] m post ->
  word_here "light" before s ≠ None \/ word_here "dark" before s ≠ None.
Proof.
  intros (Hs & [Hr|Hr] & Hl & Hp); cbn [last app] in Hs, Hl.
  - left. destruct (word_here_complete "light" before s m post lower_light Hs Hr Hl Hp)
      as (m' & -> & _). done.
  - right. destruct (word_here_complete "dark" before s m post lower_dark Hs Hr Hl Hp)
      as (m' & -> & _). done.
Qed.

Lemma occAt_cons (before : bool) (c : ascii) (s : string) (a : ascii)
    (pre m post : list ascii) :
  occAt before (String c s) (a :: pre) m post -> occAt (is_word_char c) s pre m post.
Proof.
  intros (Hs & Hr & Hl & Hp). cbn [list_ascii_of_string app] in Hs.
  injection Hs as <- Hs. split; [done|]. split; [done|]. split; [|done].
  destruct pre as [|b pre]; cbn [last] in Hl |- *.
  - by apply is_word_char_false.
  - destruct (last (b :: pre)) eqn:E; [exact Hl|]. by apply last_None in E.
Qed.

Lemma occAt_step (before : bool) (c : ascii) (s : string) (pre m post : list ascii) :
  occAt (is_word_char c) s pre m post -> occAt before (String c s) (c :: pre) m post.
Proof.
  intros (Hs & Hr & Hl & Hp). split; [|split; [done|split; [|done]]].
  - cbn [list_ascii_of_string app]. by rewrite Hs.
  - destruct pre as [|b pre]; cbn [last] in Hl |- *.
    + by apply is_word_char_false.
    + destruct (last (b :: pre)) eqn:E; [exact Hl|]. by apply last_None in E.
Qed.

Lemma scan_scheme_spec (s : string) (before : bool) :
  match scan_scheme before s with
  | Some m =>
      exists pre post, occAt before s pre (list_ascii_of_string m) post /\
        forall pre' m' post', occAt before s pre' m' post' -> (length pre <= length pre')%nat
  | None => forall pre m post, ~ occAt before s pre m post
  end.
Proof.
  revert before. induction s as [|c s IH]; intros before.
  - cbn [scan_scheme].
    destruct (word_here "light" before "") as [m|] eqn:E1.
    { apply word_here_sound in E1 as (post & Hs & Hr & Hb & Hp); [|apply lower_light].
      exists [], post. split; [by split; [|split; [left|]]|]. intros; cbn; lia. }
    destruct (word_here "dark" before "") as [m|] eqn:E2.
    { apply word_here_sound in E2 as (post & Hs & Hr & Hb & Hp); [|apply lower_dark].
      exists [], post. split; [by split; [|split; [right|]]|]. intros; cbn; lia. }
    intros pre m post (Hs & Hr & _). cbn [list_ascii_of_string] in Hs.
    symmetry in Hs. apply app_eq_nil in Hs as [_ Hs]. apply app_eq_nil in Hs as [-> _].
    destruct Hr as [Hr|Hr]; by apply readsAs_nonempty in Hr.
  - cbn [scan_scheme].
    destruct (word_here "light" before (String c s)) as [m|] eqn:E1.
    { apply word_here_sound in E1 as (post & Hs & Hr & Hb & Hp); [|apply lower_light].
      exists [], post. split; [by split; [|split; [left|]]|]. intros; cbn; lia. }
    destruct (word_here "dark" before (String c s)) as [m|] eqn:E2.
    { apply word_here_sound in E2 as (post & Hs & Hr & Hb & Hp); [|apply lower_dark].
      exists [], post. split; [by split; [|split; [right|]]|]. intros; cbn; lia. }
    specialize (IH (is_word_char c)).
    destruct (scan_scheme (is_word_char c) s) as [m|].
    + destruct IH as (pre & post & Hocc & Hmin).
      exists (c :: pre), post. split; [by apply occAt_step|].
      intros pre' m' post' Hocc'. destruct pre' as [|a pre'].
      * apply occAt_nil in Hocc' as [H|H]; congruence.
      * apply occAt_cons in Hocc'. apply Hmin in Hocc'. cbn [length]. lia.
    + intros pre m post Hocc. destruct pre as [|a pre].
      * apply occAt_nil in Hocc as [H|H]; congruence.
      * apply occAt_cons in Hocc. by apply IH in Hocc.
Qed.

Lemma occAt_top (s : string) (pre m post : list ascii) :
  occAt false s pre m post <-> schemeWordAt (list_ascii_of_string s) pre m post.
Proof.
  unfold occAt, schemeWordAt. split; intros (Hs & Hr & Hl & Hp); repeat split; try done.
  - intros a Ha. by rewrite Ha in Hl.
  - destruct (last pre) as [a|]; [by apply Hl|done].
Qed.

Lemma sameLetter_l_d (a : ascii) : sameLetter "l"%char a -> sameLetter "d"%char a -> False.
Proof.
  unfold sameLetter. change (nat_of_ascii "l"%char) with 108%nat.
  change (nat_of_ascii "d"%char) with 100%nat. lia.
Qed.

Lemma readsAs_length (w : string) (m : list ascii) :
  readsAs w m -> length m = String.length w.
Proof.
  unfold readsAs. intros H. apply Forall2_length in H. rewrite <- H.
  clear. induction w as [|a w IH]; [done|]. cbn. by rewrite IH.
Qed.

Lemma firstSchemeWord_unique (source m m' : list ascii) :
  firstSchemeWord source m -> firstSchemeWord source m' -> m = m'.
Proof.
  intros (pre & post & O & Hmin) (pre' & post' & O' & Hmin').
  pose proof (Hmin _ _ _ O') as H1. pose proof (Hmin' _ _ _ O) as H2.
  destruct O as (Hs & Hr & _). destruct O' as (Hs' & Hr' & _).
  rewrite Hs in Hs'. apply app_inj_1 in Hs' as [-> Hs']; [|lia].
  assert (Hlen : length m = length m').
  { destruct Hr as [Hr|Hr], Hr' as [Hr'|Hr'];
      pose proof (readsAs_length _ _ Hr) as E; pose proof (readsAs_length _ _ Hr') as E';
      try congruence; exfalso;
      unfold readsAs in Hr, Hr'; cbn [list_ascii_of_string] in Hr, Hr';
      apply Forall2_cons_inv_l in Hr as (a & m2 & Ha & _ & ->);
      apply Forall2_cons_inv_l in Hr' as (a' & m2' & Ha' & _ & ->);
      cbn [app] in Hs'; injection Hs' as <- _;
      [exact (sameLetter_l_d a Ha Ha')|exact (sameLetter_l_d a Ha' Ha)]. }
  by apply app_inj_1 in Hs' as [-> _].
Qed.

Lemma pointerName_existsb (source : string) :
  existsb (fun p => equal_ci p source) ["mouseup"; "mousedown"; "pointerup"; "pointerdown"]
  = true <-> pointerName source.
Proof.
  cbn [existsb]. rewrite ?orb_false_r, !orb_true_iff. unfold pointerName.
  rewrite !equal_ci_readsAs; [tauto|..]; unfold lowerWord; cbn; repeat constructor; lia.
Qed.

Lemma matchTrigger_pointer (source : string) :
  pointerName source -> matchTrigger source = Some source.
Proof. intros H. apply pointerName_existsb in H. unfold matchTrigger. by rewrite H. Qed.

Lemma matchTrigger_scan (source : string) :
  ~ pointerName source -> matchTrigger source = scan_scheme false source.
Proof.
  intros H. unfold matchTrigger.
  destruct (existsb _ _) eqn:E; [|done]. by apply pointerName_existsb in E.
Qed.

Lemma matchTrigger_scheme (source t : string) :
  ~ pointerName source ->
  (matchTrigger source = Some t <-> firstSchemeWord (list_ascii_of_string source) (list_ascii_of_string t)).
Proof.
  intros Hn. rewrite (matchTrigger_scan source Hn).
  pose proof (scan_scheme_spec source false) as S.
  destruct (scan_scheme false source) as [m|].
  - assert (F : firstSchemeWord (list_ascii_of_string source) (list_ascii_of_string m)).
    { destruct S as (pre & post & O & Hmin). exists pre, post.
      split; [by apply occAt_top|]. intros pre' m' post' O'. apply (Hmin pre' m' post'). by apply occAt_top. }
    split.
    + by intros [= <-].
    + intros F'. f_equal. apply L_inj. by apply (firstSchemeWord_unique (list_ascii_of_string source)).
  - split; [done|]. intros (pre & post & O & _). exfalso.
    apply (S pre (list_ascii_of_string t) post). by apply occAt_top.
Qed.

Lemma matchTrigger_none (source : string) :
  matchTrigger source = None <->
  ~ pointerName source /\ forall pre m post, ~ schemeWordAt (list_ascii_of_string source) pre m post.
Proof.
  split.
  - intros H.
    assert (Hn : ~ pointerName source).
    { intros Hp. by rewrite (matchTrigger_pointer source Hp) in H. }
    split; [done|]. rewrite (matchTrigger_scan source Hn) in H.
    pose proof (scan_scheme_spec source false) as S. rewrite H in S.
    intros pre m post O. apply (S pre m post). by apply occAt_top.
  - intros [Hn Hnone]. rewrite (matchTrigger_scan source Hn).
    pose proof (scan_scheme_spec source false) as S.
    destruct (scan_scheme false source) as [m|]; [|done].
    destruct S as (pre & post & O & _). exfalso. apply (Hnone pre (list_ascii_of_string m) post).
    by apply occAt_top.
Qed.

Lemma pointerName_length (source : string) :
  pointerName source -> (7 <= String.length source)%nat.
Proof.
  assert (Hlen : forall s, length (list_ascii_of_string s) = String.length s).
  { induction s as [|a s IH]; [done|]. cbn. by rewrite IH. }
  intros [H|[H|[H|H]]]; apply readsAs_length in H; rewrite Hlen in H; rewrite H; cbn; lia.
Qed.

(** The trigger of a string, and the arm of the [switch] it selects.  A
    string that is one of the four pointer-event names up to letter case is
    its own trigger.  For any other string the trigger is the leftmost
    whole word in it that spells "light" or "dark" up to case, as it stands
    in the string; there is no trigger if there is no such word.  The
    [switch] compares in a case-sensitive way: the press arm is taken for
    "mousedown" and "pointerdown" only, the release arm for "mouseup" and
    "pointerup" only, and a scheme arm exactly when that leftmost word is
    the scheme's name in lower case. *)
Theorem trigger_dispatch (source : string) :
  (pointerName source -> matchTrigger source = Some source) /\
  (~ pointerName source ->
   forall t, matchTrigger source = Some t <->
     firstSchemeWord (list_ascii_of_string source) (list_ascii_of_string t)) /\
  (matchTrigger source = None <->
   ~ pointerName source /\
   forall pre m post, ~ schemeWordAt (list_ascii_of_string source) pre m post) /\
  (armOf (matchTrigger source) = ArmDown <-> source = "mousedown" \/ source = "pointerdown") /\
  (armOf (matchTrigger source) = ArmUp <-> source = "mouseup" \/ source = "pointerup") /\
  (forall isDark, armOf (matchTrigger source) = ArmScheme isDark <->
     ~ pointerName source /\
     firstSchemeWord (list_ascii_of_string source)
       (list_ascii_of_string (if isDark then "dark" else "light"))).
Proof.
  split; [apply matchTrigger_pointer|].
  split; [intros Hn t; by apply matchTrigger_scheme|].
  split; [apply matchTrigger_none|].
  split; [|split].
  - split; [|by intros [-> | ->]].
    destruct (matchTrigger source) as [t|] eqn:E; [|done].
    intros H. apply armOf_Some in H.
    apply matchTrigger_cases in E as [[-> _]|[E _]]; [done|].
    destruct H as [-> | ->]; by destruct E.
  - split; [|by intros [-> | ->]].
    destruct (matchTrigger source) as [t|] eqn:E; [|done].
    intros H. apply armOf_Some in H.
    apply matchTrigger_cases in E as [[-> _]|[E _]]; [done|].
    destruct H as [-> | ->]; by destruct E.
  - intros isDark. split.
    + destruct (matchTrigger source) as [t|] eqn:E; [|done].
      intros H. apply armOf_Some in H. subst t.
      assert (Hn : ~ pointerName source).
      { intros Hp. rewrite (matchTrigger_pointer source Hp) in E. injection E as ->.
        apply pointerName_length in Hp. destruct isDark; cbn in Hp; lia. }
      split; [done|]. by apply matchTrigger_scheme.
    + intros [Hn F]. apply (matchTrigger_scheme source _ Hn) in F. rewrite F.
      by destruct isDark.
Qed.

(** Triggers of some strings: case is kept, the scheme has to be a whole
    word, and the leftmost one wins. *)
Example matchTrigger_examples :
  matchTrigger "(prefers-color-scheme: dark)" = Some "dark" /\
  matchTrigger "(prefers-color-scheme: light)" = Some "light" /\
  matchTrigger "MouseDown" = Some "MouseDown" /\
  matchTrigger "Dark light" = Some "Dark" /\
  matchTrigger "highlight" = None /\
  matchTrigger "dark_mode" = None /\
  matchTrigger "lights dark" = Some "dark" /\
  matchTrigger "mouseup " = None /\
  matchTrigger "click" = None.
Proof. repeat split; reflexivity. Qed.

(** ** The constructor's outcomes *)

(** Without a container that has a valid document the constructor throws a
    TypeError inside a live window and returns the inert placeholder
    anywhere else, whatever the options are (they are not read); and the
    placeholder is returned in no other case. *)
Theorem construct_invalid_container (g : Globals) (container : option HTMLElement)
    (options : Options) :
  (getValidDocumentFrom (defaultContainer g container) = None ->
   construct g container options
   = if liveWindow g then Throw TypeError else Normal Placeholder) /\
  (construct g container options = Normal Placeholder <->
   liveWindow g = false /\ getValidDocumentFrom container = None).
Proof.
  assert (H1 : getValidDocumentFrom (defaultContainer g container) = None ->
               construct g container options
               = if liveWindow g then Throw TypeError else Normal Placeholder).
  { intros Hv. unfold construct. cbv zeta.
    destruct (defaultContainer g container); by rewrite ?Hv. }
  split; [exact H1|]. split.
  - intros H. unfold construct in H. cbv zeta in H.
    destruct (defaultContainer g container) as [e|] eqn:He.
    + destruct (getValidDocumentFrom (Some e)) as [doc|] eqn:Hv.
      * exfalso. revert H.
        match goal with |- (?scope ≫= _) = _ -> _ => destruct scope as [sc|err] end; [|done].
        cbn [mbind completion_bind].
        destruct (resolveLongPressTimeout (opt_longPressTimeout options)) as [lp|err]; [|done].
        cbn [mbind completion_bind].
        match goal with |- (let '(_, _) := initialise ?c0 ?h0 in _) = _ -> _ =>
          by destruct (initialise c0 h0) end.
      * destruct (liveWindow g) eqn:Hl; [done|]. split; [done|].
        unfold defaultContainer in He. destruct container; [congruence|].
        by rewrite Hl in He.
    + destruct (liveWindow g) eqn:Hl.
      * by destruct (getValidDocumentFrom None).
      * split; [done|]. unfold defaultContainer in He.
        destruct container; [done|]. done.
  - intros [Hl Hv]. rewrite H1.
    + by rewrite Hl.
    + unfold defaultContainer. destruct container; [done|]. by rewrite Hl.
Qed.

Lemma toggle_immutables (arg : ToggleArg) (auto : option bool) (c : Controller) (h : Host) :
  id (toggle arg auto c h).1 = id c /\ scope (toggle arg auto c h).1 = scope c /\
  mediaQueries (toggle arg auto c h).1 = mediaQueries c.
Proof.
  unfold toggle. cbv zeta.
  set (c1 := if bool_decide (auto = Some true) then _ else c).
  assert (Hc1 : id c1 = id c /\ scope c1 = scope c /\ mediaQueries c1 = mediaQueries c).
  { unfold c1. destruct (bool_decide (auto = Some true)); [|done]. by destruct arg as [|[]|]. }
  by destruct (bool_decide (auto = Some true) && negb (bool_decide (state c1 = Some Auto))).
Qed.

Lemma initialise_names (c0 : Controller) (h0 : Host) (c : Controller) (h : Host) :
  initialise c0 h0 = (c, h) -> id c = id c0 /\ scope c = scope c0.
Proof.
  unfold initialise. destruct (storage h0) as [store|]; [|by intros [= <- <-]].
  cbv zeta.
  case_bool_decide; [|case_bool_decide].
  - destruct (enable _ h0) as [c1 h1] eqn:E. intros [= <- <-].
    pose proof (toggle_immutables (ArgBool true) None (set_state (Some Enabled) c0) h0)
      as (I & S & _).
    unfold enable in E. rewrite E in I, S. done.
  - destruct (disable _ h0) as [c1 h1] eqn:E. intros [= <- <-].
    pose proof (toggle_immutables (ArgBool false) None (set_state (Some Disabled) c0) h0)
      as (I & S & _).
    unfold disable in E. rewrite E in I, S. done.
  - match goal with |- (let '(_, _) := toggle ?a ?b ?c1 ?h1 in _) = _ -> _ =>
      pose proof (toggle_immutables a b c1 h1) as (I & S & _);
      destruct (toggle a b c1 h1) as [c2 h2] end.
    intros [= <- <-]. done.
Qed.

Lemma construct_id (g : Globals) (container : option HTMLElement) (options : Options)
    (c : Controller) (h : Host) :
  construct g container options = Normal (Instance c h) ->
  id c = match opt_id options with
         | Some i => if truthy i then matchID i else ""
         | None => ""
         end.
Proof.
  unfold construct.
  destruct (defaultContainer g container) as [e|]; cbn zeta.
  2:{ destruct (getValidDocumentFrom None); by destruct (liveWindow g). }
  destruct (getValidDocumentFrom (Some e)) as [doc|].
  2:{ by destruct (liveWindow g). }
  match goal with |- (?scope ≫= _) = _ -> _ => destruct scope as [sc|err] end; [|done].
  cbn [mbind completion_bind].
  destruct (resolveLongPressTimeout (opt_longPressTimeout options)) as [lp|err]; [|done].
  cbn [mbind completion_bind].
  match goal with |- (let '(_, _) := initialise ?c0 ?h0 in _) = _ -> _ =>
    destruct (initialise c0 h0) as [c1 h1] eqn:E; intros [= <- <-] end.
  apply initialise_names in E as [-> _]. reflexivity.
Qed.

Lemma append_empty_r (s : string) : (s ++ "")%string = s.
Proof. induction s as [|a s IH]; [done|]. change (String a (s ++ "")%string = String a s). by rewrite IH. Qed.

Lemma forallb_false_elem {A} (f : A -> bool) (l : list A) :
  forallb f l = false -> exists a, a ∈ l /\ f a = false.
Proof.
  induction l as [|x l IH]; cbn [forallb]; [done|].
  destruct (f x) eqn:Fx; cbn [andb].
  - intros H. destruct (IH H) as (a & Ha & Fa). exists a. split; [by right|done].
  - intros _. exists x. split; [by left|done].
Qed.

Lemma matchID_cases (source : string) :
  (matchID source = source /\ (2 <= String.length source)%nat /\ blankFree source) \/
  (matchID source = "" /\
   ((String.length source < 2)%nat \/
    exists a, a ∈ list_ascii_of_string source /\ is_white_space a = true)).
Proof.
  unfold matchID.
  destruct (forallb _ _) eqn:F; cbn [andb].
  - destruct (Nat.leb_spec 2 (String.length source)) as [L|L].
    + left. split; [done|]. split; [done|].
      intros a Ha. rewrite forallb_forall in F.
      apply list_elem_of_In in Ha. apply F in Ha. by destruct (is_white_space a).
    + right. split; [done|]. by left.
  - right. split; [done|]. right.
    apply forallb_false_elem in F as (a & Ha & Fa).
    exists a. split; [done|]. by destruct (is_white_space a).
Qed.

Lemma is_white_space_units (a : ascii) :
  is_white_space a = true <-> nat_of_ascii a ∈ [9; 10; 11; 12; 13; 32; 160]%nat.
Proof.
  unfold is_white_space, code.
  rewrite !orb_true_iff, !andb_true_iff, !Nat.leb_le, !Nat.eqb_eq.
  rewrite !elem_of_cons, elem_of_nil. lia.
Qed.

(** The id and the key of a constructed instance.  An id option of fewer
    than two code units, or holding one of the blank code units 9 to 13, 32
    and 160 (tab, line feed, vertical tab, form feed, carriage return, space
    and no-break space), or no id option at all, is replaced by the empty
    string, and the key is then the id-less key of the scope; any other id
    is kept as it is and follows the scope after a "#".  The key is never
    empty. *)
Theorem constructed_id_and_key (g : Globals) (container : option HTMLElement)
    (options : Options) (c : Controller) (h : Host) :
  construct g container options = Normal (Instance c h) ->
  key c ≠ "" /\
  ((id c = "" /\ key c = ("dark-mode-state@" ++ scope c)%string /\
    forall i, opt_id options = Some i ->
      (String.length i < 2)%nat \/
      exists a, a ∈ list_ascii_of_string i /\
        nat_of_ascii a ∈ [9; 10; 11; 12; 13; 32; 160]%nat) \/
   (opt_id options = Some (id c) /\ (2 <= String.length (id c))%nat /\
    (forall a, a ∈ list_ascii_of_string (id c) ->
       nat_of_ascii a ∉ [9; 10; 11; 12; 13; 32; 160]%nat) /\
    key c = ("dark-mode-state@" ++ scope c ++ "#" ++ id c)%string)).
Proof.
  intros H. apply construct_id in H. split; [discriminate|].
  destruct (opt_id options) as [i|] eqn:Hi.
  - unfold truthy in H. case_bool_decide as Hne; cbn [negb] in H.
    + left. split; [done|]. unfold key, makeKey. rewrite H. cbn.
      split; [by rewrite append_empty_r|].
      intros i' [= <-]. subst i. left. cbn. lia.
    + destruct (matchID_cases i) as [(M & Hlen & B)|(M & Hbad)]; rewrite M in H.
      * right. rewrite H. split; [done|]. split; [done|].
        split.
        { intros a Ha Hin. apply is_white_space_units in Hin. by rewrite (B a Ha) in Hin. }
        unfold key, makeKey. rewrite H. unfold truthy.
        by rewrite (bool_decide_eq_false_2 _ Hne).
      * left. split; [done|]. unfold key, makeKey. rewrite H. cbn.
        split; [by rewrite append_empty_r|]. intros i' [= <-].
        destruct Hbad as [Hshort|(a & Ha & Hw)]; [by left|].
        right. exists a. split; [done|]. by apply is_white_space_units.
  - left. split; [done|]. unfold key, makeKey. rewrite H. cbn.
    split; [by rewrite append_empty_r|]. done.
Qed.

Example named_construct :
  construct sampleGlobals (Some (sampleElement (Some emptyStore) true false)) (idOptions "ab")
  = Normal (Instance namedController namedHost).
Proof. vm_compute. reflexivity. Qed.

Example blank_id_construct :
  construct sampleGlobals (Some (sampleElement (Some emptyStore) true false)) (idOptions "a b")
  = Normal (Instance sampleController sampleHost).
Proof. vm_compute. reflexivity. Qed.

Lemma constructed_id_and_key_witness :
  (key sampleController ≠ "" /\
   ((id sampleController = "" /\
     key sampleController = ("dark-mode-state@" ++ scope sampleController)%string /\
     forall i, opt_id (idOptions "a b") = Some i ->
       (String.length i < 2)%nat \/
       exists a, a ∈ list_ascii_of_string i /\
         nat_of_ascii a ∈ [9; 10; 11; 12; 13; 32; 160]%nat) \/
    (opt_id (idOptions "a b") = Some (id sampleController) /\
     (2 <= String.length (id sampleController))%nat /\
     (forall a, a ∈ list_ascii_of_string (id sampleController) ->
        nat_of_ascii a ∉ [9; 10; 11; 12; 13; 32; 160]%nat) /\
     key sampleController
     = ("dark-mode-state@" ++ scope sampleController ++ "#" ++ id sampleController)%string))) /\
  (key namedController ≠ "" /\
   ((id namedController = "" /\
     key namedController = ("dark-mode-state@" ++ scope namedController)%string /\
     forall i, opt_id (idOptions "ab") = Some i ->
       (String.length i < 2)%nat \/
       exists a, a ∈ list_ascii_of_string i /\
         nat_of_ascii a ∈ [9; 10; 11; 12; 13; 32; 160]%nat) \/
    (opt_id (idOptions "ab") = Some (id namedController) /\
     (2 <= String.length (id namedController))%nat /\
     (forall a, a ∈ list_ascii_of_string (id namedController) ->
        nat_of_ascii a ∉ [9; 10; 11; 12; 13; 32; 160]%nat) /\
     key namedController
     = ("dark-mode-state@" ++ scope namedController ++ "#" ++ id namedController)%string))).
Proof.
  split.
  - exact (constructed_id_and_key _ _ _ _ _ blank_id_construct).
  - exact (constructed_id_and_key _ _ _ _ _ named_construct).
Defined.

(** What [matchID] makes of some ids. *)
Example matchID_examples :
  matchID "ab" = "ab" /\ matchID "a" = "" /\ matchID "" = "" /\
  matchID "a b" = "" /\ matchID "main-toggle" = "main-toggle" /\
  matchID (String (ascii_of_nat 9) "ab") = "" /\
  matchID (String (ascii_of_nat 160) "ab") = "".
Proof. repeat split; reflexivity. Qed.

(** ** Induction over the reachable states *)

Lemma timerFires_expire (handle : nat) (c : Controller) (h : Host) :
  timerFires handle c h =
  if bool_decide (handle ∈ timers h) then Some (handleEvent None c (expire handle h)) else None.
Proof. reflexivity. Qed.

Lemma reachable_invariant (P : Controller -> Host -> Prop) :
  (forall g container options c h,
     construct g container options = Normal (Instance c h) -> P c h) ->
  (forall arg auto c h,
     reachable c h -> P c h -> P (toggle arg auto c h).1 (toggle arg auto c h).2) ->
  (forall event c h, P c h -> P (handleEvent event c h).1 (handleEvent event c h).2) ->
  (forall handle c h, reachable c h -> P c h -> handle ∈ timers h -> P c (expire handle h)) ->
  (forall c h s h',
     reachable c h -> P c h -> handlerState c = Some s ->
     detach c h = Normal (set_handlerState (Some (set_targets [] s)) c, h') ->
     listeners h' = listeners h -> storage h' = storage h ->
     classList h' = classList h -> subscriptions h' = subscriptions h ->
     timers h' = timers h ->
     P (set_handlerState (Some (set_targets [] s)) c) h') ->
  forall c h, reachable c h -> P c h.
Proof.
  intros Hc Ht He Hx Hd.
  induction 1 as [g container options c h H|arg auto c h R IH
                 |event c h R IH|handle c h c' h' R IH Hf
                 |c h c' h' R IH Hdet].
  - by eapply Hc.
  - by apply Ht.
  - by apply He.
  - rewrite timerFires_expire in Hf. case_bool_decide as Hin; [|done].
    injection Hf as Hf.
    pose proof (He None c (expire handle h) (Hx handle c h R IH Hin)) as Hp.
    by rewrite Hf in Hp.
  - pose proof (reachable_invariants c h R) as (_ & _ & Ca).
    unfold detach in Hdet. destruct (handlerState c) as [s|] eqn:Hs; [|done].
    pose proof (detach_spec c h s Ca Hs) as (h1 & Hd1 & L & St & C & U & T & _).
    pose proof Hd1 as Hd2.
    unfold detach in Hd1. rewrite Hs in Hd1. rewrite Hdet in Hd1.
    injection Hd1 as -> ->. by eapply (Hd c h s h1).
Qed.

(** ** The markers and the mode *)

Lemma toggle_exclusive (arg : ToggleArg) (auto : option bool) (c : Controller) (h : Host) :
  exclusive c h -> exclusive (toggle arg auto c h).1 (toggle arg auto c h).2.
Proof.
  intros Hx. unfold toggle. cbv zeta.
  set (c1 := if bool_decide (auto = Some true) then _ else c).
  assert (Hc1 : state c1 = state c).
  { unfold c1. destruct (bool_decide (auto = Some true)); [|done]. by destruct arg as [|[]|]. }
  destruct (bool_decide (auto = Some true) && negb (bool_decide (state c1 = Some Auto))) eqn:E.
  { unfold exclusive. own_simpl. by rewrite Hc1, classList_log. }
  rewrite key_set_state, key_truthy, storage_log.
  set (ns := nextStateOf arg c1 _).
  unfold exclusive. own_simpl.
  rewrite classList_classList_remove, classList_classList_add.
  assert (Hcl : classList (match storage h with
                           | Some _ => storage_set (key c1)
                                        (State_string
                                           (if bool_decide (arg = ArgState Auto)
                                               || bool_decide (auto = Some true)
                                            then Auto else if ns then Enabled else Disabled))
                                        (log (CallToggle arg auto) h)
                           | None => log (CallToggle arg auto) h
                           end) = classList h).
  { by destruct (storage h). }
  rewrite Hcl.
  fold (marked (if ns then "dark-mode" else "light-mode")
          (if ns then "light-mode" else "dark-mode") (classList h)).
  intros _. destruct ns.
  - split; [intros _; apply marked_off|intros _; by apply marked_on].
  - split; [intros H; by apply marked_off in H|intros H; exfalso; apply H; by apply marked_on].
Qed.

Lemma handleEvent_exclusive (event : option Event) (c : Controller) (h : Host) :
  exclusive c h -> exclusive (handleEvent event c h).1 (handleEvent event c h).2.
Proof.
  intros Hx.
  destruct (handleEvent_shape event c h) as (s0 & h0 & P & Hshape).
  apply prepare_spec in P as (_ & _ & _ & _ & _ & _ & _ & _ & _ & Q0).
  assert (Hx0 : exclusive c h0).
  { destruct Q0 as (_ & Hcl & _). unfold exclusive. by rewrite Hcl. }
  destruct Hshape as [(s & h1 & -> & _ & Q1 & _)|(s & arg & auto & -> & _)]; cbn [fst snd].
  - destruct Q1 as (_ & Hcl & _). unfold exclusive. own_simpl. rewrite Hcl. exact Hx0.
  - exact (toggle_exclusive arg auto c h0 Hx0).
Qed.

Lemma reachable_exclusive (c : Controller) (h : Host) : reachable c h -> exclusive c h.
Proof.
  apply reachable_invariant.
  - intros g container options c0 h0 H.
    apply construct_Instance in H
      as (e & c1 & h1 & _ & Hi & Hst & _).
    apply initialise_spec in Hi as (_ & _ & _ & _ & _ & _ & _ & _ & Hi).
    unfold exclusive. destruct (storage h1) as [store|].
    + destruct Hi as (_ & Hi). intros _. repeat case_bool_decide.
      * destruct Hi as (_ & -> & _).
        split; [intros _; apply marked_off|intros _; by apply marked_on].
      * destruct Hi as (_ & -> & _).
        split; [intros HH; by apply marked_off in HH
               |intros HH; exfalso; apply HH; by apply marked_on].
      * destruct Hi as (_ & _ & -> & _). destruct (initiallyDark _).
        -- split; [intros _; apply marked_off|intros _; by apply marked_on].
        -- split; [intros HH; by apply marked_off in HH
                  |intros HH; exfalso; apply HH; by apply marked_on].
    + destruct Hi as (-> & _). rewrite Hst. by intros [? ?].
  - intros arg auto c0 h0 _. apply toggle_exclusive.
  - apply handleEvent_exclusive.
  - intros handle c0 h0 _ H _. exact H.
  - intros c0 h0 s h' _ H _ _ _ _ Hcl _ _. unfold exclusive. own_simpl. by rewrite Hcl.
Qed.

(** In every reachable state in which the mode is set, exactly one of the
    two markers is on the container; it is the dark one in mode [enabled]
    and the light one in mode [disabled]. *)
Theorem markers_follow_mode (c : Controller) (h : Host) :
  reachable c h -> is_Some (state c) ->
  ("dark-mode" ∈ classList h <-> "light-mode" ∉ classList h) /\
  (state c = Some Enabled -> "dark-mode" ∈ classList h /\ "light-mode" ∉ classList h) /\
  (state c = Some Disabled -> "light-mode" ∈ classList h /\ "dark-mode" ∉ classList h).
Proof.
  intros R Hs.
  pose proof (reachable_exclusive c h R Hs) as Hx.
  pose proof (reachable_invariants c h R) as ([He Hd] & _).
  split; [exact Hx|]. split.
  - intros E. split; [by apply He|]. apply Hx. by apply He.
  - intros D. split; [|by apply Hd].
    destruct (decide ("light-mode" ∈ classList h)) as [Hin|Hout]; [done|].
    exfalso. apply (Hd D). by apply Hx.
Qed.

Lemma markers_follow_mode_witness :
  ("dark-mode" ∈ classList sampleHost <-> "light-mode" ∉ classList sampleHost) /\
  (state sampleController = Some Enabled ->
   "dark-mode" ∈ classList sampleHost /\ "light-mode" ∉ classList sampleHost) /\
  (state sampleController = Some Disabled ->
   "light-mode" ∈ classList sampleHost /\ "dark-mode" ∉ classList sampleHost).
Proof.
  apply (markers_follow_mode sampleController sampleHost sample_reachable).
  by exists Auto.
Defined.

(** ** The mode survives a reload *)

(** A new instance built over the Storage contents an earlier instance left
    behind, and using the same key, starts in the mode the earlier one had,
    leaves the contents as they are, and shows the marker of that mode when
    it is [enabled] or [disabled]. *)
Theorem reload_restores_mode (c : Controller) (h : Host) (m : gmap string string)
    (g : Globals) (container : option HTMLElement) (options : Options)
    (e : HTMLElement) (c' : Controller) (h' : Host) :
  reachable c h -> storage h = Some m ->
  construct g container options = Normal (Instance c' h') ->
  defaultContainer g container = Some e ->
  resolveLocalStorage options e = Some m ->
  key c' = key c ->
  state c' = state c /\ storage h' = Some m /\
  (state c = Some Enabled -> "dark-mode" ∈ classList h' /\ "light-mode" ∉ classList h') /\
  (state c = Some Disabled -> "light-mode" ∈ classList h' /\ "dark-mode" ∉ classList h').
Proof.
  intros R Hm H He Hsto Hk.
  destruct (reachable_persisted c h R m Hm) as (st & Hst & Hlk).
  apply construct_Instance in H
    as (e' & c0 & h0 & He' & Hi & _ & _ & _ & _ & _ & Hsto' & _).
  rewrite He in He'. injection He' as <-.
  apply initialise_spec in Hi as (_ & Hk0 & _ & _ & _ & _ & _ & _ & Hi).
  rewrite Hsto', Hsto in Hi. destruct Hi as (_ & Hi).
  rewrite <- Hk0, Hk, Hlk in Hi. rewrite Hst.
  destruct st; cbn [State_string] in Hi.
  - rewrite (bool_decide_eq_false_2 (Some "auto" = Some "enabled")) in Hi by done.
    rewrite (bool_decide_eq_false_2 (Some "auto" = Some "disabled")) in Hi by done.
    destruct Hi as (-> & _ & _ & ->). rewrite insert_id by done. by repeat split.
  - rewrite (bool_decide_eq_true_2 (Some "enabled" = Some "enabled")) in Hi by done.
    destruct Hi as (-> & -> & ->). rewrite insert_id by done.
    repeat split; try done. + by apply marked_on. + apply marked_off.
  - rewrite (bool_decide_eq_false_2 (Some "disabled" = Some "enabled")) in Hi by done.
    rewrite (bool_decide_eq_true_2 (Some "disabled" = Some "disabled")) in Hi by done.
    destruct Hi as (-> & -> & ->). rewrite insert_id by done.
    repeat split; try done. + by apply marked_on. + apply marked_off.
Qed.

Example reopened_construct :
  construct sampleGlobals (Some (sampleElement (Some disabledStore) true false)) noOptions
  = Normal (Instance reopenedController reopenedHost).
Proof. vm_compute. reflexivity. Qed.

Lemma reload_restores_mode_witness :
  state reopenedController = state (toggle (ArgBool false) None sampleController sampleHost).1 /\
  storage reopenedHost = Some disabledStore /\
  (state (toggle (ArgBool false) None sampleController sampleHost).1 = Some Enabled ->
   "dark-mode" ∈ classList reopenedHost /\ "light-mode" ∉ classList reopenedHost) /\
  (state (toggle (ArgBool false) None sampleController sampleHost).1 = Some Disabled ->
   "light-mode" ∈ classList reopenedHost /\ "dark-mode" ∉ classList reopenedHost).
Proof.
  apply (reload_restores_mode
           (toggle (ArgBool false) None sampleController sampleHost).1
           (toggle (ArgBool false) None sampleController sampleHost).2
           disabledStore sampleGlobals
           (Some (sampleElement (Some disabledStore) true false)) noOptions
           (sampleElement (Some disabledStore) true false)).
  - apply reach_toggle. exact sample_reachable.
  - vm_compute. reflexivity.
  - exact reopened_construct.
  - reflexivity.
  - reflexivity.
  - reflexivity.
Defined.

(** ** toggle called with the name of a mode *)

(** [toggle('enabled')] and [toggle('disabled')] both switch dark mode on:
    a mode name other than 'auto' is read as a truthy value.  The mode
    becomes [enabled], "enabled" is persisted, the dark marker is applied
    and the light one removed. *)
Theorem toggle_mode_name_enables (st : State) (c : Controller) (h : Host) :
  st ≠ Auto ->
  let '(c', h') := toggle (ArgState st) None c h in
  state c' = Some Enabled /\
  "dark-mode" ∈ classList h' /\ ("light-mode" ∉ classList h') /\
  storage h' = (insert (key c) "enabled" <$> storage h).
Proof.
  intros Hst. rewrite toggle_manual. cbv zeta.
  rewrite (bool_decide_eq_false_2 (ArgState st = ArgState Auto)) by congruence.
  assert (Hn : nextStateOf (ArgState st) c h = true) by (by destruct st).
  rewrite Hn. cbn [state set_state classList storage State_string].
  repeat split; [by apply marked_on|apply marked_off].
Qed.

Lemma toggle_mode_name_enables_witness :
  let '(c', h') := toggle (ArgState Disabled) None sampleController sampleHost in
  state c' = Some Enabled /\
  "dark-mode" ∈ classList h' /\ ("light-mode" ∉ classList h') /\
  storage h'
  = (insert (key sampleController) "enabled" <$> storage sampleHost).
Proof. apply (toggle_mode_name_enables Disabled sampleController sampleHost). discriminate. Defined.

(** ** A scheme change outside automatic mode *)

(** In mode [enabled] or [disabled], a scheme change that reports a match is
    only remembered: mode, class list and Storage contents stay, and nothing
    is written.  A later [toggle('auto')] applies the remembered scheme. *)
Theorem scheme_change_in_manual_mode (c : Controller) (h : Host) (e : Event) (isDark : bool) :
  state c = Some Enabled \/ state c = Some Disabled ->
  armOf (triggerOf (Some e)) = ArmScheme isDark ->
  ev_matches e = Some true ->
  let '(c1, h1) := handleEvent (Some e) c h in
  state c1 = state c /\ classList h1 = classList h /\ storage h1 = storage h /\
  storageWrites (trace h1) = storageWrites (trace h) /\
  prefers c1 = Some (if isDark then Dark else Light) /\
  let '(c2, h2) := toggle (ArgState Auto) None c1 h1 in
  state c2 = Some Auto /\
  if isDark
  then "dark-mode" ∈ classList h2 /\ "light-mode" ∉ classList h2
  else "light-mode" ∈ classList h2 /\ "dark-mode" ∉ classList h2.
Proof.
  intros Hst Harm Hm.
  rewrite handleEvent_prepare.
  destruct (prepare (Some e) c h) as [s0 h0] eqn:P.
  apply prepare_spec in P as (_ & _ & _ & _ & _ & _ & _ & _ & _ & Q).
  destruct Q as (Qs & Qc & _ & _ & Qw & _).
  rewrite Harm. cbv zeta. cbn [mbind option_bind]. rewrite Hm.
  rewrite (bool_decide_eq_true_2 (Some true = Some true)) by done.
  rewrite toggle_system. cbv zeta.
  rewrite (bool_decide_eq_false_2 (state c = Some Auto)) by (destruct Hst; congruence).
  rewrite toggle_manual. cbv zeta.
  rewrite (bool_decide_eq_true_2 (ArgState Auto = ArgState Auto)) by done.
  own_simpl. cbn [nextStateOf]. own_simpl.
  rewrite classList_log, storage_log, trace_log, storageWrites_app.
  cbn [state set_state classList storageWrites List.filter isStorageSet].
  rewrite app_nil_r.
  split; [done|]. split; [done|]. split; [done|]. split; [done|]. split; [done|].
  split; [done|].
  destruct isDark.
  - rewrite (bool_decide_eq_false_2 (Some Dark = Some Light)) by done. cbn [negb].
    split; [by apply marked_on|apply marked_off].
  - rewrite (bool_decide_eq_true_2 (Some Light = Some Light)) by done. cbn [negb].
    split; [by apply marked_on|apply marked_off].
Qed.

Lemma scheme_change_in_manual_mode_witness :
  let '(c1, h1) :=
    handleEvent (Some (changeEvent "(prefers-color-scheme: dark)" true))
      reopenedController reopenedHost in
  state c1 = state reopenedController /\ classList h1 = classList reopenedHost /\
  storage h1 = storage reopenedHost /\
  storageWrites (trace h1) = storageWrites (trace reopenedHost) /\
  prefers c1 = Some (if true then Dark else Light) /\
  let '(c2, h2) := toggle (ArgState Auto) None c1 h1 in
  state c2 = Some Auto /\
  if true
  then "dark-mode" ∈ classList h2 /\ "light-mode" ∉ classList h2
  else "light-mode" ∈ classList h2 /\ "dark-mode" ∉ classList h2.
Proof.
  apply (scheme_change_in_manual_mode reopenedController reopenedHost
           (changeEvent "(prefers-color-scheme: dark)" true) true).
  - by right.
  - reflexivity.
  - reflexivity.
Defined.

(** ** A scheme change during a press *)

(** A delivery classified as a scheme change, whether it reports a match or
    not, cancels a press in progress: the long-press timer is cleared and
    the pending target is dropped, so the release that follows on the
    pressed element is ignored and toggles nothing. *)
Theorem scheme_change_cancels_press (c : Controller) (h : Host) (downType upType : string)
    (t : Element) (d : DocumentRef) (e : Event) (isDark : bool) :
  downType = "mousedown" \/ downType = "pointerdown" ->
  upType = "mouseup" \/ upType = "pointerup" ->
  el_ownerDocument t = Some d ->
  armOf (triggerOf (Some e)) = ArmScheme isDark ->
  let '(c1, h1) := handleEvent (Some (pointerEvent downType (Some t))) c h in
  let '(c2, h2) := handleEvent (Some e) c1 h1 in
  let '(c3, h3) := handleEvent (Some (pointerEvent upType (Some t))) c2 h2 in
  (exists handle, entryTimeout c1 = Some handle /\ handle ∈ timers h1 /\ handle ∉ timers h2) /\
  entryTarget c1 = Some t /\ entryTarget c2 = None /\
  toggleCalls (trace h3) = toggleCalls (trace h2) /\
  state c3 = state c2 /\ classList h3 = classList h2 /\ storage h3 = storage h2 /\
  exists s3,
    handlerState c3 = Some s3 /\ action s3 = Some "ignore" /\ target s3 = None /\
    timeout s3 = None.
Proof.
  intros Hd Hu Ht Harm.
  rewrite (handleEvent_capture _ _ _ _ _ Hd Ht).
  destruct (prepare _ c h) as [s0 h0] eqn:P0.
  set (s1 := set_timeout (Some (nextTimer h0)) _).
  set (c1 := set_handlerState (Some s1) c).
  set (h1 := (setTimeout (longPressTimeout c) h0).2).
  assert (Hin1 : nextTimer h0 ∈ timers h1).
  { unfold h1. rewrite timers_setTimeout. apply elem_of_app. right. by left. }
  rewrite (handleEvent_prepare (Some e)).
  destruct (prepare (Some e) c1 h1) as [s2 h2] eqn:P1.
  apply prepare_spec in P1 as (_ & _ & _ & M1 & _).
  assert (Hout : nextTimer h0 ∉ timers h2) by (by apply M1).
  rewrite Harm. cbv zeta.
  set (r := if bool_decide _ then _ else _).
  assert (Hr : timers r.2 = timers h2).
  { unfold r. destruct (bool_decide _); [|done].
    by pose proof (toggle_frame (ArgBool isDark) (Some true) c1 h2) as (_ & _ & _ & _ & _ & _ & T & _). }
  destruct r as [c2 h2'] eqn:Er. cbn [snd] in Hr.
  rewrite (handleEvent_up _ _ _ _ Hu).
  destruct (prepare _ (set_handlerState (Some (releaseState s2)) c2) h2') as [s3 h3] eqn:P2.
  apply prepare_spec in P2 as (O3 & T3 & _ & _ & _ & _ & _ & _ & _ & Q3).
  change (entryTarget (set_handlerState (Some (releaseState s2)) c2)) with (@None Element) in T3.
  rewrite T3. rewrite (bool_decide_eq_true_2 (None = None)) by done.
  destruct Q3 as (Qs & Qc & _ & Qt & _).
  split; [exists (nextTimer h0); by rewrite Hr|].
  split; [done|]. split; [done|].
  split; [done|]. split; [done|]. split; [done|]. split; [done|].
  eexists. split; [reflexivity|]. own_simpl. by rewrite O3, T3.
Qed.

Lemma scheme_change_cancels_press_witness :
  let '(c1, h1) :=
    handleEvent (Some (pointerEvent "mousedown" (Some sampleTarget)))
      sampleController sampleHost in
  let '(c2, h2) :=
    handleEvent (Some (changeEvent "(prefers-color-scheme: light)" false)) c1 h1 in
  let '(c3, h3) := handleEvent (Some (pointerEvent "mouseup" (Some sampleTarget))) c2 h2 in
  (exists handle, entryTimeout c1 = Some handle /\ handle ∈ timers h1 /\ handle ∉ timers h2) /\
  entryTarget c1 = Some sampleTarget /\ entryTarget c2 = None /\
  toggleCalls (trace h3) = toggleCalls (trace h2) /\
  state c3 = state c2 /\ classList h3 = classList h2 /\ storage h3 = storage h2 /\
  exists s3,
    handlerState c3 = Some s3 /\ action s3 = Some "ignore" /\ target s3 = None /\
    timeout s3 = None.
Proof.
  apply (scheme_change_cancels_press sampleController sampleHost "mousedown" "mouseup"
           sampleTarget 1 (changeEvent "(prefers-color-scheme: light)" false) false).
  - by left.
  - by left.
  - reflexivity.
  - reflexivity.
Defined.

(** ** The timer table *)

Lemma prepare_no_timer (event : option Event) (c : Controller) (h : Host)
    (s0 : HandlerState) (h0 : Host) :
  timerTracked c h -> prepare event c h = (s0, h0) -> timers h0 = [].
Proof.
  intros Ht P. apply prepare_spec in P as (_ & _ & _ & M & M' & _).
  apply elem_of_nil_inv. intros t Hin.
  pose proof (M' t Hin) as Hin'.
  destruct Ht as [Ht|(s & t' & Hs & Hto & Htm & _)].
  - rewrite Ht in Hin'. by apply elem_of_nil in Hin'.
  - rewrite Htm in Hin'. apply list_elem_of_singleton in Hin'. subst t'.
    apply (M t); [|done]. unfold entryTimeout. by rewrite Hs.
Qed.

Lemma handleEvent_after_prepare (event : option Event) (c : Controller) (h : Host)
    (s0 : HandlerState) (h0 : Host) :
  prepare event c h = (s0, h0) -> timers h0 = [] ->
  timerTracked (handleEvent event c h).1 (handleEvent event c h).2.
Proof.
  intros P T0. rewrite handleEvent_prepare, P. cbv zeta.
  destruct (armOf (triggerOf event)) as [isDark| | | |].
  - set (r := if bool_decide _ then _ else _).
    assert (Hr : timers r.2 = []).
    { unfold r. destruct (bool_decide _); [|done].
      pose proof (toggle_frame (ArgBool isDark) (Some true) c h0)
        as (_ & _ & _ & _ & _ & _ & T & _). by rewrite T. }
    destruct r as [c' h']. by left.
  - destruct (_ && _).
    + pose proof (toggle_frame (ArgState Auto) None c h0) as (_ & _ & _ & _ & _ & _ & T & _).
      destruct (toggle (ArgState Auto) None c h0) as [c' h']. left. cbn [fst snd] in *. congruence.
    + by left.
  - destruct (bool_decide (target s0 = None)); [by left|].
    destruct (_ && _).
    + pose proof (toggle_frame ArgUndefined None c h0) as (_ & _ & _ & _ & _ & _ & T & _).
      destruct (toggle ArgUndefined None c h0) as [c' h']. left. cbn [fst snd] in *. congruence.
    + by left.
  - destruct (event ≫= ev_target) as [t|]; cbn [mbind option_bind].
    + destruct (el_ownerDocument t) as [d|].
      * right. eexists _, (nextTimer h0). split; [reflexivity|]. own_simpl.
        split; [done|]. split; [|by eauto].
        change (timers (setTimeout (longPressTimeout c) h0).2 = [nextTimer h0]).
        by rewrite timers_setTimeout, T0.
      * destruct (bool_decide (target s0 = None)); by left.
    + destruct (bool_decide (target s0 = None)); by left.
  - left. cbn [snd]. by rewrite timers_console_warn.
Qed.

Lemma handleEvent_timerTracked (event : option Event) (c : Controller) (h : Host) :
  timerTracked c h -> timerTracked (handleEvent event c h).1 (handleEvent event c h).2.
Proof.
  intros Ht. destruct (prepare event c h) as [s0 h0] eqn:P.
  apply (handleEvent_after_prepare event c h s0 h0 P).
  by apply (prepare_no_timer event c h s0 h0).
Qed.

Lemma timers_expire (handle : nat) (c : Controller) (h : Host) :
  timerTracked c h -> handle ∈ timers h ->
  timers (expire handle h) = [] /\
  exists s, handlerState c = Some s /\ timeout s = Some handle /\
    is_Some (target s) /\ committed s = Some false.
Proof.
  intros [Ht|(s & t & Hs & Hto & Htm & Htg & Hc)] Hin.
  - rewrite Ht in Hin. by apply elem_of_nil in Hin.
  - rewrite Htm in Hin. apply list_elem_of_singleton in Hin. subst t.
    split; [|by eauto]. cbn [timers expire]. rewrite Htm.
    rewrite filter_cons. destruct (decide (handle ≠ handle)); done.
Qed.

Lemma reachable_timerTracked (c : Controller) (h : Host) : reachable c h -> timerTracked c h.
Proof.
  apply reachable_invariant.
  - intros g container options c0 h0 H.
    apply construct_invariants in H as (_ & _ & _ & _ & T). by left.
  - intros arg auto c0 h0 _ Ht.
    pose proof (toggle_frame arg auto c0 h0) as (Fh & _ & _ & _ & _ & _ & T & _).
    unfold timerTracked. by rewrite T, Fh.
  - apply handleEvent_timerTracked.
  - intros handle c0 h0 _ Ht Hin. left. by apply (timers_expire handle c0 h0 Ht Hin).
  - intros c0 h0 s h' _ Ht Hs _ _ _ _ _ T. unfold timerTracked. rewrite T. own_simpl.
    destruct Ht as [Ht|(s' & t & Hs' & Hto & Htm & Htg & Hc)]; [by left|].
    right. rewrite Hs in Hs'. injection Hs' as <-.
    eexists _, t. split; [reflexivity|]. own_simpl. done.
Qed.

(** In every reachable state at most one timer of the instance is pending,
    and only while a press is in progress: it is the one the handler state
    remembers, with the pressed target pending and not committed.  So a
    timer that goes off is always the one of the press in progress; its
    callback switches the mode to [auto] and leaves no timer behind. *)
Theorem at_most_one_timer (c : Controller) (h : Host) :
  reachable c h ->
  (timers h = [] \/
   exists s t, handlerState c = Some s /\ timeout s = Some t /\ timers h = [t] /\
     is_Some (target s) /\ committed s = Some false) /\
  forall handle c' h', timerFires handle c h = Some (c', h') ->
    entryTimeout c = Some handle /\ state c' = Some Auto /\ timers h' = [].
Proof.
  intros R. pose proof (reachable_timerTracked c h R) as Ht. split; [exact Ht|].
  intros handle c' h' Hf. rewrite timerFires_expire in Hf.
  case_bool_decide as Hin; [|done]. injection Hf as Hf.
  destruct (timers_expire handle c h Ht Hin) as (Tx & s & Hs & Hto & Htg & Hc).
  split; [unfold entryTimeout; by rewrite Hs|].
  rewrite handleEvent_timer in Hf.
  destruct (prepare None c (expire handle h)) as [s0 h0] eqn:P.
  apply prepare_spec in P as (_ & T0 & C0 & _ & M' & _).
  assert (Th0 : timers h0 = []).
  { apply elem_of_nil_inv. intros t Hin0.
    apply M' in Hin0. rewrite Tx in Hin0. by apply elem_of_nil in Hin0. }
  unfold entryTarget in T0. unfold entryCommitted in C0. rewrite Hs in T0, C0.
  cbn [mbind option_bind] in T0, C0.
  rewrite (bool_decide_eq_true_2 (target s0 ≠ None)) in Hf
    by (rewrite T0; destruct Htg as [x ->]; done).
  rewrite (bool_decide_eq_true_2 (committed s0 = Some false)) in Hf by congruence.
  cbn [andb] in Hf.
  rewrite toggle_manual in Hf. cbv zeta in Hf.
  rewrite (bool_decide_eq_true_2 (ArgState Auto = ArgState Auto)) in Hf by done.
  injection Hf as <- <-. split; [done|]. exact Th0.
Qed.

Lemma pressed_reachable : reachable pressedController pressedHost.
Proof. apply reach_event. exact sample_reachable. Qed.

Lemma at_most_one_timer_witness :
  timers pressedHost = [1%nat] /\
  (timerFires 1 pressedController pressedHost ≫= fun r => state r.1) = Some Auto /\
  (timers pressedHost = [] \/
   exists s t, handlerState pressedController = Some s /\ timeout s = Some t /\
     timers pressedHost = [t] /\ is_Some (target s) /\ committed s = Some false) /\
  forall handle c' h', timerFires handle pressedController pressedHost = Some (c', h') ->
    entryTimeout pressedController = Some handle /\ state c' = Some Auto /\ timers h' = [].
Proof.
  split; [vm_compute; reflexivity|]. split; [vm_compute; reflexivity|].
  exact (at_most_one_timer pressedController pressedHost pressed_reachable).
Defined.

(** ** The listeners *)

Lemma prepare_listeners (event : option Event) (c : Controller) (h : Host)
    (s0 : HandlerState) (h0 : Host) :
  prepare event c h = (s0, h0) ->
  forall l, l ∈ listeners h0 -> l ∈ listeners h \/ exists d, l = upListener c d.
Proof.
  unfold prepare.
  destruct (ensureHandlerState c h) as [s1 h1] eqn:E1.
  destruct (clearPending s1 h1) as [s2 h2] eqn:E2.
  intros E3 l Hl.
  apply clearPending_spec in E2 as (_ & _ & _ & _ & _ & _ & _ & L2 & _).
  assert (H1 : forall l, l ∈ listeners h1 -> l ∈ listeners h \/ exists d, l = upListener c d).
  { unfold ensureHandlerState in E1. destruct (handlerState c).
    - injection E1 as <- <-. by left.
    - injection E1 as <- <-. intros l'. rewrite listeners_addEventListener.
      intros Hl'. apply elem_of_if_app in Hl' as [Hl'| ->]; [by left|right; by eexists]. }
  unfold registerContext in E3.
  destruct ((event ≫= ev_target) ≫= el_ownerDocument) as [d0|].
  - destruct (_ || _); injection E3 as <- <-.
    + apply H1. by rewrite <- L2.
    + rewrite listeners_addEventListener in Hl.
      apply elem_of_if_app in Hl as [Hl| ->]; [|right; by eexists].
      apply H1. by rewrite <- L2.
  - injection E3 as <- <-. apply H1. by rewrite <- L2.
Qed.

Lemma handleEvent_listening (event : option Event) (c : Controller) (h : Host) :
  listening c h -> listening (handleEvent event c h).1 (handleEvent event c h).2.
Proof.
  intros (L1 & L2 & L3).
  destruct (handleEvent_shape event c h) as (s0 & h0 & P & Hshape).
  pose proof (prepare_listeners _ _ _ _ _ P) as PL.
  pose proof (prepare_spec _ _ _ _ _ P) as (_ & _ & _ & _ & _ & F0 & K0 & _).
  assert (A0 : upListener c (container_ownerDocument (container c)) ∈ listeners h0).
  { destruct (handlerState c) as [s|] eqn:Hs.
    - apply K0, L2. by eexists.
    - by apply F0. }
  assert (B0 : forall l, l ∈ listeners h0 -> l = upListener c (l_document l)).
  { intros l Hl. apply PL in Hl as [Hl|[d ->]]; [by apply L3|done]. }
  destruct Hshape as [(s & h1 & -> & _ & _ & Hl1 & _)|(s & arg & auto & -> & _)]; cbn [fst snd].
  - split; [done|]. rewrite Hl1. split; [by intros _|exact B0].
  - pose proof (toggle_frame arg auto c h0) as (_ & Fc & _ & _ & Fl & _).
    split; [done|]. rewrite Fl. unfold upListener. cbn [container set_handlerState].
    rewrite Fc. split; [by intros _|exact B0].
Qed.

Lemma reachable_listening (c : Controller) (h : Host) : reachable c h -> listening c h.
Proof.
  apply reachable_invariant.
  - intros g container options c0 h0 H.
    pose proof (construct_invariants _ _ _ _ _ H) as (_ & _ & _ & Hn & _).
    apply construct_Instance in H
      as (e & c1 & h1 & _ & Hi & _ & _ & _ & _ & _ & _ & _ & Hl & _).
    apply initialise_spec in Hi as (_ & _ & _ & _ & _ & Hl' & _).
    unfold listening. rewrite Hn, Hl', Hl.
    split; [done|]. split; [by intros [? ?]|]. intros l Hin. by apply elem_of_nil in Hin.
  - intros arg auto c0 h0 _ (L1 & L2 & L3).
    pose proof (toggle_frame arg auto c0 h0) as (Fh & Fc & _ & _ & Fl & _).
    unfold listening, upListener. by rewrite Fh, Fc, Fl.
  - apply handleEvent_listening.
  - intros handle c0 h0 _ H _. exact H.
  - intros c0 h0 s h' _ (L1 & L2 & L3) Hs _ Hl _ _ _ _.
    unfold listening. rewrite Hl. split; [done|]. split; [|exact L3].
    intros _. apply L2. by eexists.
Qed.

(** The instance installs no listener before its handler first runs.  From
    then on the release listener on the container's document is in place,
    and it stays in place for good, [detach] included.  Every listener the
    instance ever has is a capture-phase listener for the release event
    ([mouseup] if the container knows [onmouseup], [pointerup] if not):
    presses reach the handler only if the page routes them to it. *)
Theorem listeners_are_release_listeners (c : Controller) (h : Host) :
  reachable c h ->
  (handlerState c = None -> listeners h = []) /\
  (is_Some (handlerState c) ->
   upListener c (container_ownerDocument (container c)) ∈ listeners h) /\
  forall l, l ∈ listeners h ->
    l_capture l = true /\
    l_type l = if container_has_onmouseup (container c) then "mouseup" else "pointerup".
Proof.
  intros R. destruct (reachable_listening c h R) as (L1 & L2 & L3).
  split; [exact L1|]. split; [exact L2|].
  intros l Hl. apply L3 in Hl. rewrite Hl. done.
Qed.

Lemma listeners_are_release_listeners_witness :
  (handlerState
     (handleEvent (Some (pointerEvent "mousedown" (Some sampleTarget)))
        sampleController sampleHost).1 = None ->
   listeners
     (handleEvent (Some (pointerEvent "mousedown" (Some sampleTarget)))
        sampleController sampleHost).2 = []) /\
  (is_Some
     (handlerState
        (handleEvent (Some (pointerEvent "mousedown" (Some sampleTarget)))
           sampleController sampleHost).1) ->
   upListener
     (handleEvent (Some (pointerEvent "mousedown" (Some sampleTarget)))
        sampleController sampleHost).1
     (container_ownerDocument
        (container
           (handleEvent (Some (pointerEvent "mousedown" (Some sampleTarget)))
              sampleController sampleHost).1))
   ∈ listeners
       (handleEvent (Some (pointerEvent "mousedown" (Some sampleTarget)))
          sampleController sampleHost).2) /\
  forall l,
    l ∈ listeners
          (handleEvent (Some (pointerEvent "mousedown" (Some sampleTarget)))
             sampleController sampleHost).2 ->
    l_capture l = true /\
    l_type l
    = if container_has_onmouseup
           (container
              (handleEvent (Some (pointerEvent "mousedown" (Some sampleTarget)))
                 sampleController sampleHost).1)
      then "mouseup" else "pointerup".
Proof.
  apply listeners_are_release_listeners. apply reach_event. exact sample_reachable.
Defined.

(** ** What the instance does to the host *)

Lemma allowed_same (c c' : Controller) (e : Effect) :
  key c' = key c -> container c' = container c -> mediaQueries c' = mediaQueries c ->
  longPressTimeout c' = longPressTimeout c -> allowed c e -> allowed c' e.
Proof.
  intros K C M L. destruct e; cbn [allowed]; unfold upListener; by rewrite ?K, ?C, ?M, ?L.
Qed.

Lemma confined_same (c c' : Controller) (h : Host) :
  key c' = key c -> container c' = container c -> mediaQueries c' = mediaQueries c ->
  longPressTimeout c' = longPressTimeout c -> confined c h -> confined c' h.
Proof.
  intros K C M L Hh. unfold confined. eapply Forall_impl; [exact Hh|].
  intros e. by apply allowed_same.
Qed.

Lemma confined_step (c : Controller) (h h' : Host) (e : Effect) :
  trace h' = trace h ++ [e] -> allowed c e -> confined c h -> confined c h'.
Proof.
  unfold confined. intros -> He Hh. apply Forall_app. split; [done|]. by apply Forall_singleton.
Qed.

Lemma toggle_confined_here (arg : ToggleArg) (auto : option bool) (c : Controller) (h : Host) :
  confined c h -> confined c (toggle arg auto c h).2.
Proof.
  intros Hh. unfold toggle. cbv zeta.
  set (c1 := if bool_decide (auto = Some true) then _ else c).
  assert (Hk : key c1 = key c).
  { unfold c1. destruct (bool_decide (auto = Some true)); [|done]. by destruct arg as [|[]|]. }
  destruct (bool_decide (auto = Some true) && negb (bool_decide (state c1 = Some Auto))).
  { cbn [snd]. by eapply confined_step; [apply trace_log| |]. }
  cbn [snd]. rewrite key_set_state, key_truthy, storage_log, Hk.
  set (ns := nextStateOf arg c1 _).
  eapply confined_step; [apply trace_classList_remove|destruct ns; [by right|by left]|].
  eapply confined_step; [apply trace_classList_add|destruct ns; [by left|by right]|].
  assert (H0 : confined c (log (CallToggle arg auto) h)).
  { by eapply confined_step; [apply trace_log| |]. }
  destruct (storage h); [|done].
  eapply confined_step; [apply trace_storage_set| |exact H0].
  split; [done|]. by eexists.
Qed.

Lemma toggle_confined (arg : ToggleArg) (auto : option bool) (c : Controller) (h : Host) :
  confined c h -> confined (toggle arg auto c h).1 (toggle arg auto c h).2.
Proof.
  intros Hh.
  pose proof (toggle_frame arg auto c h) as (_ & Fc & Fk & Fl & _).
  pose proof (toggle_immutables arg auto c h) as (_ & _ & Fm).
  apply (confined_same c); try done. by apply toggle_confined_here.
Qed.

Lemma prepare_confined (event : option Event) (c : Controller) (h : Host)
    (s0 : HandlerState) (h0 : Host) :
  prepare event c h = (s0, h0) -> confined c h -> confined c h0.
Proof.
  unfold prepare.
  destruct (ensureHandlerState c h) as [s1 h1] eqn:E1.
  destruct (clearPending s1 h1) as [s2 h2] eqn:E2.
  intros E3 Hh.
  assert (H1 : confined c h1).
  { unfold ensureHandlerState in E1. destruct (handlerState c); injection E1 as <- <-; [done|].
    by eapply confined_step; [apply trace_addEventListener| |]. }
  assert (H2 : confined c h2).
  { unfold clearPending in E2. destruct (timeout s1); injection E2 as <- <-; [|done].
    by eapply confined_step; [apply trace_clearTimeout| |]. }
  unfold registerContext in E3.
  destruct ((event ≫= ev_target) ≫= el_ownerDocument) as [d0|]; [|by injection E3 as <- <-].
  destruct (_ || _); injection E3 as <- <-; [done|].
  by eapply confined_step; [apply trace_addEventListener| |].
Qed.

Lemma handleEvent_immutables (event : option Event) (c : Controller) (h : Host) :
  key (handleEvent event c h).1 = key c /\
  container (handleEvent event c h).1 = container c /\
  mediaQueries (handleEvent event c h).1 = mediaQueries c /\
  longPressTimeout (handleEvent event c h).1 = longPressTimeout c.
Proof.
  destruct (handleEvent_shape event c h)
    as (s0 & h0 & _ & [(s & h1 & -> & _)|(s & arg & auto & -> & _)]); cbn [fst]; [done|].
  pose proof (toggle_frame arg auto c h0) as (_ & Fc & Fk & Fl & _).
  pose proof (toggle_immutables arg auto c h0) as (_ & _ & Fm).
  rewrite key_set_handlerState. own_simpl. done.
Qed.

Lemma handleEvent_confined_here (event : option Event) (c : Controller) (h : Host) :
  confined c h -> confined c (handleEvent event c h).2.
Proof.
  intros Hh. rewrite handleEvent_prepare.
  destruct (prepare event c h) as [s0 h0] eqn:P.
  pose proof (prepare_confined _ _ _ _ _ P Hh) as H0.
  cbv zeta. destruct (armOf (triggerOf event)) as [isDark| | | |].
  - destruct (bool_decide _); [|done].
    pose proof (toggle_confined_here (ArgBool isDark) (Some true) c h0 H0) as Ht.
    by destruct (toggle (ArgBool isDark) (Some true) c h0).
  - destruct (_ && _); [|done].
    pose proof (toggle_confined_here (ArgState Auto) None c h0 H0) as Ht.
    by destruct (toggle (ArgState Auto) None c h0).
  - destruct (bool_decide (target s0 = None)); [done|].
    destruct (_ && _); [|done].
    pose proof (toggle_confined_here ArgUndefined None c h0 H0) as Ht.
    by destruct (toggle ArgUndefined None c h0).
  - destruct (event ≫= ev_target) as [t|]; cbn [mbind option_bind].
    + destruct (el_ownerDocument t) as [d|].
      * change (confined c (setTimeout (longPressTimeout c) h0).2).
        by eapply confined_step; [apply trace_setTimeout| |].
      * by destruct (bool_decide (target s0 = None)).
    + by destruct (bool_decide (target s0 = None)).
  - cbn [snd]. by eapply confined_step; [apply trace_console_warn| |].
Qed.

Lemma handleEvent_confined (event : option Event) (c : Controller) (h : Host) :
  confined c h -> confined (handleEvent event c h).1 (handleEvent event c h).2.
Proof.
  intros Hh. destruct (handleEvent_immutables event c h) as (K & C & M & L).
  apply (confined_same c); try done. by apply handleEvent_confined_here.
Qed.

Lemma subscribe_confined (c : Controller) (h : Host) :
  confined c h -> confined c (subscribe (mediaQueries c) h).
Proof.
  intros Hh. unfold subscribe. cbv zeta.
  destruct (prefersDarkMode (mediaQueries c)) as [qd|] eqn:Ed;
    destruct (prefersLightMode (mediaQueries c)) as [ql|] eqn:El; cbn [from_option]; try done.
  - eapply confined_step; [apply trace_addListener|cbn [allowed]; rewrite El; by right|].
    eapply confined_step; [apply trace_addListener|cbn [allowed]; rewrite Ed; by left|done].
  - eapply confined_step; [apply trace_addListener|cbn [allowed]; rewrite Ed; by left|done].
  - eapply confined_step; [apply trace_addListener|cbn [allowed]; rewrite El; by right|done].
Qed.

Lemma initialise_confined (c0 : Controller) (h0 : Host) (c : Controller) (h : Host) :
  initialise c0 h0 = (c, h) -> confined c0 h0 -> confined c h.
Proof.
  intros Hi Hh.
  pose proof (initialise_spec _ _ _ _ Hi) as (_ & K & M & C & L & _).
  apply (confined_same c0); try done.
  revert Hi. unfold initialise. destruct (storage h0) as [store|]; [|by intros [= <- <-]].
  cbv zeta.
  assert (Hsub : forall c1 h1, mediaQueries c1 = mediaQueries c0 -> key c1 = key c0 ->
                   container c1 = container c0 -> longPressTimeout c1 = longPressTimeout c0 ->
                   confined c1 h1 -> confined c0 (subscribe (mediaQueries c0) h1)).
  { intros c1 h1 M1 K1 C1 L1 H1. apply subscribe_confined.
    by apply (confined_same c1). }
  case_bool_decide; [|case_bool_decide].
  - unfold enable.
    pose proof (toggle_confined_here (ArgBool true) None (set_state (Some Enabled) c0) h0) as Ht.
    destruct (toggle (ArgBool true) None (set_state (Some Enabled) c0) h0) as [c1 h1].
    intros [= <- <-]. apply (Hsub (set_state (Some Enabled) c0)); try done.
    apply Ht. by apply (confined_same c0).
  - unfold disable.
    pose proof (toggle_confined_here (ArgBool false) None (set_state (Some Disabled) c0) h0) as Ht.
    destruct (toggle (ArgBool false) None (set_state (Some Disabled) c0) h0) as [c1 h1].
    intros [= <- <-]. apply (Hsub (set_state (Some Disabled) c0)); try done.
    apply Ht. by apply (confined_same c0).
  - match goal with |- (let '(_, _) := toggle ?a ?b ?c1 ?h1 in _) = _ -> _ =>
      pose proof (toggle_confined_here a b c1 h1) as Ht;
      destruct (toggle a b c1 h1) as [c2 h2] end.
    intros [= <- <-]. apply (Hsub (set_state (Some Auto) c0)); try done.
    apply Ht. apply (confined_same c0); try done.
    eapply confined_step; [apply trace_storage_set| |exact Hh].
    split; [done|]. by exists Auto.
Qed.

Lemma detachLoop_confined (c : Controller) (pending members : list DocumentRef) (h : Host) :
  confined c h -> confined c (detachLoop pending members h).2.
Proof.
  revert members h. induction pending as [|d pending IH]; intros members h Hh; [done|].
  cbn [detachLoop]. apply IH. unfold detachTarget. cbv zeta.
  repeat (eapply confined_step;
          [apply trace_removeEventListener
          |cbn [allowed l_capture l_type]; split; [done|set_solver]|]).
  done.
Qed.

Lemma detach_confined (c : Controller) (h : Host) (c' : Controller) (h' : Host) :
  detach c h = Normal (c', h') -> confined c h -> confined c h'.
Proof.
  unfold detach. destruct (handlerState c) as [s|]; [|done].
  case_bool_decide; [by intros [= <- <-]|].
  pose proof (detachLoop_confined c (targets s) (targets s) h) as Hl.
  destruct (detachLoop (targets s) (targets s) h) as [members h1].
  intros [= <- <-] Hh. by apply Hl.
Qed.

Lemma reachable_confined (c : Controller) (h : Host) : reachable c h -> confined c h.
Proof.
  apply reachable_invariant.
  - intros g container options c0 h0 H.
    apply construct_Instance in H
      as (e & c1 & h1 & _ & Hi & _ & _ & _ & _ & _ & _ & _ & _ & _ & _ & Ht).
    apply (initialise_confined _ _ _ _ Hi). unfold confined. by rewrite Ht.
  - intros arg auto c0 h0 _. apply toggle_confined.
  - apply handleEvent_confined.
  - intros handle c0 h0 _ H _. exact H.
  - intros c0 h0 s h' _ H _ Hd _ _ _ _ _.
    apply (confined_same c0); try done. by apply (detach_confined _ _ _ _ Hd).
Qed.

Lemma resolveLongPressTimeout_range (v : JsValue) (t : Number) :
  resolveLongPressTimeout v = Normal t -> exists z, t = num z /\ (1500 <= z <= 10000)%Z.
Proof.
  intros H. destruct (ToNumber v) as [n|e] eqn:Hv.
  2:{ unfold resolveLongPressTimeout in H. rewrite Hv in H. discriminate. }
  destruct (Math_round_cases n) as [Hn|[[b Hn]|[r Hn]]].
  - unfold resolveLongPressTimeout in H. rewrite Hv in H. simpl in H. rewrite Hn in H.
    simpl in H. inversion H; subst. exists 2000%Z. split; [done|lia].
  - unfold resolveLongPressTimeout in H. rewrite Hv in H. simpl in H. rewrite Hn in H.
    destruct b; simpl in H; inversion H; subst.
    + exists 2000%Z. split; [done|lia].
    + exists 10000%Z. split; [done|lia].
  - rewrite (resolve_rounded v n r Hv Hn) in H. inversion H; subst.
    exists (clampRounded r). split; [done|apply clampRounded_range].
Qed.

Lemma reachable_longPressTimeout (c : Controller) (h : Host) :
  reachable c h -> exists z, longPressTimeout c = num z /\ (1500 <= z <= 10000)%Z.
Proof.
  apply (reachable_invariant
           (fun c _ => exists z, longPressTimeout c = num z /\ (1500 <= z <= 10000)%Z)).
  - intros g container options c0 h0 H.
    apply construct_Instance in H
      as (e & c1 & h1 & _ & Hi & _ & _ & _ & _ & Hr & _).
    apply initialise_spec in Hi as (_ & _ & _ & _ & -> & _).
    by apply resolveLongPressTimeout_range in Hr.
  - intros arg auto c0 h0 _ H.
    pose proof (toggle_frame arg auto c0 h0) as (_ & _ & _ & -> & _). exact H.
  - intros event c0 h0 H.
    destruct (handleEvent_immutables event c0 h0) as (_ & _ & _ & ->). exact H.
  - intros handle c0 h0 _ H _. exact H.
  - intros c0 h0 s h' _ H _ _ _ _ _ _ _. exact H.
Qed.

(** Whatever was done since the construction, the instance has written to
    the Storage object only under its own key and only a mode name, has
    added and removed no class but the two markers, has installed only
    capture-phase listeners for the release event, and has asked only for
    the removal of bubbling-phase listeners with an [on...] name, which it
    never installs. *)
Theorem effects_are_confined (c : Controller) (h : Host) :
  reachable c h ->
  (forall k v, StorageSet k v ∈ trace h ->
     k = key c /\ (v = "auto" \/ v = "enabled" \/ v = "disabled")) /\
  (forall token, ClassListAdd token ∈ trace h \/ ClassListRemove token ∈ trace h ->
     token = "dark-mode" \/ token = "light-mode") /\
  (forall l, AddEventListener l ∈ trace h ->
     l_capture l = true /\ (l_type l = "mouseup" \/ l_type l = "pointerup")) /\
  (forall l, RemoveEventListener l ∈ trace h ->
     l_capture l = false /\
     l_type l ∈ ["onmousedown"; "onmouseup"; "onpointerdown"; "onpointerup"]).
Proof.
  intros R. pose proof (reachable_confined c h R) as Hc.
  unfold confined in Hc. rewrite Forall_forall in Hc.
  split; [|split; [|split]].
  - intros k v Hin. apply Hc in Hin as [-> [st ->]]. split; [done|]. destruct st; auto.
  - intros token [Hin|Hin]; by apply Hc in Hin.
  - intros l Hin. apply Hc in Hin. cbn [allowed] in Hin. rewrite Hin.
    split; [done|]. cbn [l_type upListener]. destruct (container_has_onmouseup _); auto.
  - intros l Hin. by apply Hc in Hin.
Qed.

Lemma effects_are_confined_witness :
  (forall k v, StorageSet k v ∈ trace sampleHost ->
     k = key sampleController /\ (v = "auto" \/ v = "enabled" \/ v = "disabled")) /\
  (forall token,
     ClassListAdd token ∈ trace sampleHost \/ ClassListRemove token ∈ trace sampleHost ->
     token = "dark-mode" \/ token = "light-mode") /\
  (forall l, AddEventListener l ∈ trace sampleHost ->
     l_capture l = true /\ (l_type l = "mouseup" \/ l_type l = "pointerup")) /\
  (forall l, RemoveEventListener l ∈ trace sampleHost ->
     l_capture l = false /\
     l_type l ∈ ["onmousedown"; "onmouseup"; "onpointerdown"; "onpointerup"]).
Proof. exact (effects_are_confined sampleController sampleHost sample_reachable). Defined.

(** Every timer the instance has armed was armed with its own
    [longPressTimeout], an integer between 1500 and 10000. *)
Theorem timer_delays_in_range (c : Controller) (h : Host) (handle : nat) (delay : Number) :
  reachable c h -> SetTimeout handle delay ∈ trace h ->
  delay = longPressTimeout c /\ exists z, delay = num z /\ (1500 <= z <= 10000)%Z.
Proof.
  intros R Hin. pose proof (reachable_confined c h R) as Hc.
  unfold confined in Hc. rewrite Forall_forall in Hc. apply Hc in Hin. cbn [allowed] in Hin.
  split; [done|]. rewrite Hin. by apply (reachable_longPressTimeout c h).
Qed.

Lemma timer_delays_in_range_witness :
  num 2000%Z
  = longPressTimeout
      (handleEvent (Some (pointerEvent "mousedown" (Some sampleTarget)))
         sampleController sampleHost).1 /\
  exists z, num 2000%Z = num z /\ (1500 <= z <= 10000)%Z.
Proof.
  apply (timer_delays_in_range
           (handleEvent (Some (pointerEvent "mousedown" (Some sampleTarget)))
              sampleController sampleHost).1
           (handleEvent (Some (pointerEvent "mousedown" (Some sampleTarget)))
              sampleController sampleHost).2 1 (num 2000%Z)).
  - apply reach_event. exact sample_reachable.
  - vm_compute. set_solver.
Defined.

(** ** The release listener follows the press *)

Lemma prepare_registers (event : option Event) (c : Controller) (h : Host)
    (s0 : HandlerState) (h0 : Host) (d : DocumentRef) :
  prepare event c h = (s0, h0) ->
  (event ≫= ev_target) ≫= el_ownerDocument = Some d ->
  d = container_ownerDocument (container c) \/ d ∈ targets s0.
Proof.
  unfold prepare.
  destruct (ensureHandlerState c h) as [s1 h1].
  destruct (clearPending s1 h1) as [s2 h2].
  intros E3 Hd. rewrite Hd in E3. unfold registerContext in E3.
  case_bool_decide as H1; [by left|]. case_bool_decide as H2; cbn [orb] in E3.
  - injection E3 as <- <-. by right.
  - injection E3 as <- <-. right. own_simpl. apply elem_of_app. right. by left.
Qed.

(** After a press on an element of any document, the instance's release
    listener is installed on that document, be it the container's or
    another one, so the release can reach the handler. *)
Theorem press_installs_release_listener (c : Controller) (h : Host) (downType : string)
    (t : Element) (d : DocumentRef) :
  reachable c h ->
  downType = "mousedown" \/ downType = "pointerdown" ->
  el_ownerDocument t = Some d ->
  let '(c1, h1) := handleEvent (Some (pointerEvent downType (Some t))) c h in
  upListener c1 d ∈ listeners h1 /\
  l_capture (upListener c1 d) = true /\
  exists s1, handlerState c1 = Some s1 /\ target s1 = Some t /\
    (d = container_ownerDocument (container c1) \/ d ∈ targets s1).
Proof.
  intros R Hd Ht.
  pose proof (reachable_invariants c h R) as (_ & Re & _).
  pose proof (reachable_listening c h R) as (_ & L2 & _).
  rewrite (handleEvent_capture _ _ _ _ _ Hd Ht).
  destruct (prepare _ c h) as [s0 h0] eqn:P.
  pose proof (prepare_registered _ _ _ _ _ Re P) as R0.
  pose proof (prepare_spec _ _ _ _ _ P) as (_ & _ & _ & _ & _ & F0 & K0 & _).
  assert (Hreg : d = container_ownerDocument (container c) \/ d ∈ targets s0).
  { apply (prepare_registers _ _ _ _ _ _ P). cbn [mbind option_bind ev_target pointerEvent].
    exact Ht. }
  split; [|split; [done|]].
  - change (upListener c d ∈ listeners (setTimeout (longPressTimeout c) h0).2).
    rewrite listeners_setTimeout.
    destruct Hreg as [-> |Hin]; [|by apply R0].
    destruct (handlerState c) as [s|] eqn:Hs.
    + apply K0, L2. by eexists.
    + by apply F0.
  - eexists. split; [reflexivity|]. own_simpl. split; [done|exact Hreg].
Qed.

Lemma press_installs_release_listener_witness :
  let '(c1, h1) :=
    handleEvent
      (Some (pointerEvent "pointerdown" (Some {| el_ref := 9; el_ownerDocument := Some 2 |})))
      sampleController sampleHost in
  upListener c1 2 ∈ listeners h1 /\
  l_capture (upListener c1 2) = true /\
  exists s1, handlerState c1 = Some s1 /\
    target s1 = Some {| el_ref := 9; el_ownerDocument := Some 2 |} /\
    (2 = container_ownerDocument (container c1) \/ 2 ∈ targets s1).
Proof.
  apply (press_installs_release_listener sampleController sampleHost "pointerdown"
           {| el_ref := 9; el_ownerDocument := Some 2 |} 2).
  - exact sample_reachable.
  - by right.
  - reflexivity.
Defined.

(** ** What is left alone *)

Lemma untouched_refl (c : Controller) (h : Host) : untouched c h h.
Proof. by repeat split. Qed.

Lemma untouched_trans (c : Controller) (h1 h2 h3 : Host) :
  untouched c h1 h2 -> untouched c h2 h3 -> untouched c h1 h3.
Proof.
  intros (C1 & S1 & U1) (C2 & S2 & U2). split; [|split].
  - intros token Hd Hl. rewrite (C2 token Hd Hl). by apply C1.
  - intros k Hk. rewrite (S2 k Hk). by apply S1.
  - congruence.
Qed.

Lemma quiet_untouched (c : Controller) (h h' : Host) : quiet h h' -> untouched c h h'.
Proof. intros (S & C & U & _). unfold untouched. rewrite S, C, U. by repeat split. Qed.

Lemma marked_other (on off token : string) (l : list string) :
  token ≠ on -> token ≠ off -> (token ∈ marked on off l <-> token ∈ l).
Proof.
  intros Hon Hoff. unfold marked, added. rewrite elem_of_filter_ne, elem_of_if_app. tauto.
Qed.

Lemma toggle_untouched (arg : ToggleArg) (auto : option bool) (c : Controller) (h : Host) :
  untouched c h (toggle arg auto c h).2.
Proof.
  unfold toggle. cbv zeta.
  set (c1 := if bool_decide (auto = Some true) then _ else c).
  assert (Hk : key c1 = key c).
  { unfold c1. destruct (bool_decide (auto = Some true)); [|done]. by destruct arg as [|[]|]. }
  destruct (bool_decide (auto = Some true) && negb (bool_decide (state c1 = Some Auto))).
  { cbn [snd]. unfold untouched. rewrite classList_log, storage_log, subscriptions_log.
    by repeat split. }
  cbn [snd]. rewrite key_set_state, key_truthy, storage_log, Hk.
  set (ns := nextStateOf arg c1 _).
  set (st := if _ || _ then Auto else _).
  unfold untouched. host_rw.
  assert (Hcl : classList (match storage h with
                           | Some _ => storage_set (key c) (State_string st)
                                         (log (CallToggle arg auto) h)
                           | None => log (CallToggle arg auto) h
                           end) = classList h) by (by destruct (storage h)).
  assert (Hsu : subscriptions (match storage h with
                               | Some _ => storage_set (key c) (State_string st)
                                             (log (CallToggle arg auto) h)
                               | None => log (CallToggle arg auto) h
                               end) = subscriptions h) by (by destruct (storage h)).
  rewrite Hcl, Hsu.
  fold (marked (if ns then "dark-mode" else "light-mode")
          (if ns then "light-mode" else "dark-mode") (classList h)).
  split; [|split; [|done]].
  - intros token Hd Hl. apply marked_other; by destruct ns.
  - intros k Hne. destruct (storage h) as [m|] eqn:Hs; host_rw; rewrite ?Hs; [|done].
    cbn [fmap option_fmap option_map mbind option_bind]. by rewrite lookup_insert_ne.
Qed.

Lemma handleEvent_untouched (event : option Event) (c : Controller) (h : Host) :
  untouched c h (handleEvent event c h).2.
Proof.
  destruct (handleEvent_shape event c h) as (s0 & h0 & P & Hshape).
  apply prepare_spec in P as (_ & _ & _ & _ & _ & _ & _ & _ & _ & Q0).
  apply (untouched_trans c h h0); [by apply quiet_untouched|].
  destruct Hshape as [(s & h1 & -> & _ & Q1 & _)|(s & arg & auto & -> & _)]; cbn [snd].
  - by apply quiet_untouched.
  - apply toggle_untouched.
Qed.

Lemma deliver_untouched (events : list (option Event)) (c : Controller) (h : Host) :
  untouched c h (deliver events c h).2 /\ key (deliver events c h).1 = key c.
Proof.
  revert c h. induction events as [|e events IH]; intros c h; cbn [deliver].
  - split; [apply untouched_refl|done].
  - pose proof (handleEvent_untouched e c h) as U.
    destruct (handleEvent_immutables e c h) as (K & _).
    destruct (handleEvent e c h) as [c1 h1]. cbn [fst snd] in *.
    destruct (IH c1 h1) as [U1 K1]. split; [|congruence].
    apply (untouched_trans c h h1); [done|].
    destruct U1 as (A & B & C). split; [done|]. split; [|done].
    intros k Hk. apply B. congruence.
Qed.

(** A call of [toggle] and any sequence of deliveries to the handler leave
    alone every class of the container but "dark-mode" and "light-mode",
    every entry of the Storage object but the one under the instance's key,
    and the subscriptions to the preference feeds. *)
Theorem page_state_is_left_alone (c : Controller) (h : Host) :
  (forall arg auto, untouched c h (toggle arg auto c h).2) /\
  (forall events, untouched c h (deliver events c h).2).
Proof.
  split.
  - intros arg auto. apply toggle_untouched.
  - intros events. apply deliver_untouched.
Qed.

(** ** The timeout of an instance as an option *)

Lemma Math_round_num (z : Z) : Math_round (num z) = num z.
Proof.
  unfold Math_round, num. f_equal.
  unfold Qfloor, Qplus, inject_Z. cbn [Qnum Qden].
  change (Z.pos (1 * 2)) with 2%Z.
  rewrite Z.mul_1_l. rewrite Z.div_add_l by done. change (1 / 2)%Z with 0%Z.
  by rewrite Z.add_0_r.
Qed.

(** The timeout an instance has resolved is a fixed point of the
    resolution: handed to the constructor as the [longPressTimeout] option,
    it comes out unchanged. *)
Theorem longPressTimeout_reusable (v : JsValue) (t : Number) :
  resolveLongPressTimeout v = Normal t ->
  resolveLongPressTimeout (VPrim (PNumber t)) = Normal t.
Proof.
  intros H. apply resolveLongPressTimeout_range in H as (z & -> & Hz).
  rewrite (resolve_rounded (VPrim (PNumber (num z))) (num z) z eq_refl (Math_round_num z)).
  unfold clampRounded. destruct (Z.leb_spec z 0); [lia|]. do 2 f_equal. lia.
Qed.

Lemma longPressTimeout_reusable_witness :
  resolveLongPressTimeout (VPrim (PNumber (num 1500%Z))) = Normal (num 1500%Z).
Proof.
  apply (longPressTimeout_reusable (VPrim (PNumber (num 100%Z))) (num 1500%Z)).
  reflexivity.
Defined.

(** ** Two taps *)

Lemma tap_spec (c : Controller) (h : Host) (downType upType : string)
    (t : Element) (d : DocumentRef) :
  downType = "mousedown" \/ downType = "pointerdown" ->
  upType = "mouseup" \/ upType = "pointerup" ->
  el_ownerDocument t = Some d ->
  state (tap downType upType t c h).1
  = Some (if bool_decide ("dark-mode" ∈ classList h) then Disabled else Enabled) /\
  classList (tap downType upType t c h).2
  = (if bool_decide ("dark-mode" ∈ classList h)
     then marked "light-mode" "dark-mode" (classList h)
     else marked "dark-mode" "light-mode" (classList h)) /\
  toggleCalls (trace (tap downType upType t c h).2)
  = toggleCalls (trace h) ++ [CallToggle ArgUndefined None] /\
  key (tap downType upType t c h).1 = key c.
Proof.
  intros Hd Hu Ht. unfold tap.
  rewrite (handleEvent_capture _ _ _ _ _ Hd Ht).
  destruct (prepare _ c h) as [s0 h0] eqn:P0.
  apply prepare_spec in P0 as (_ & _ & _ & _ & _ & _ & _ & _ & _ & Q0).
  set (s1 := set_timeout (Some (nextTimer h0)) _).
  set (c1 := set_handlerState (Some s1) c).
  set (h1 := (setTimeout (longPressTimeout c) h0).2).
  rewrite (handleEvent_up _ _ _ _ Hu).
  destruct (prepare _ c1 h1) as [s2 h2] eqn:P1.
  apply prepare_spec in P1 as (O2 & T2 & C2 & M2 & _ & _ & _ & _ & _ & Q1).
  change (entryTarget c1) with (Some t) in T2.
  change (entryCommitted c1) with (Some false) in C2.
  rewrite T2, C2.
  rewrite (bool_decide_eq_false_2 (Some t = None)) by done.
  rewrite !bool_decide_eq_true_2 by done. cbn [andb].
  pose proof (toggleCalls_toggle_manual ArgUndefined c1 h2) as TC.
  rewrite toggle_manual in TC |- *. cbv zeta in TC |- *. cbn [fst snd] in TC |- *.
  assert (Q : quiet h h2).
  { eapply quiet_trans; [exact Q0|]. eapply quiet_trans; [apply quiet_setTimeout|exact Q1]. }
  destruct Q as (_ & Qc & _ & Qt & _).
  split; [|split; [|split; [by rewrite TC, Qt|done]]].
  - own_simpl. cbn [nextStateOf].
    rewrite (bool_decide_eq_false_2 (ArgUndefined = ArgState Auto)) by done.
    unfold classList_contains. rewrite Qc.
    by destruct (bool_decide ("dark-mode" ∈ classList h)).
  - cbn [classList nextStateOf]. unfold classList_contains. rewrite Qc.
    by destruct (bool_decide ("dark-mode" ∈ classList h)).
Qed.

(** Two taps in a row call [toggle] twice and bring the container back to
    the marker it showed before them; the mode ends as the explicit mode of
    that marker: [enabled] if the dark marker was on, [disabled] if not. *)
Theorem double_tap_restores_marker (c : Controller) (h : Host) (downType upType : string)
    (t : Element) (d : DocumentRef) :
  downType = "mousedown" \/ downType = "pointerdown" ->
  upType = "mouseup" \/ upType = "pointerup" ->
  el_ownerDocument t = Some d ->
  let '(c2, h2) := tap downType upType t c h in
  let '(c4, h4) := tap downType upType t c2 h2 in
  ("dark-mode" ∈ classList h2 <-> "dark-mode" ∉ classList h) /\
  ("dark-mode" ∈ classList h4 <-> "dark-mode" ∈ classList h) /\
  ("light-mode" ∈ classList h4 <-> "dark-mode" ∉ classList h) /\
  state c4 = Some (if bool_decide ("dark-mode" ∈ classList h) then Enabled else Disabled) /\
  toggleCalls (trace h4)
  = toggleCalls (trace h) ++ [CallToggle ArgUndefined None; CallToggle ArgUndefined None].
Proof.
  intros Hd Hu Ht.
  pose proof (tap_spec c h downType upType t d Hd Hu Ht) as (S2 & C2 & T2 & _).
  destruct (tap downType upType t c h) as [c2 h2]. cbn [fst snd] in S2, C2, T2.
  pose proof (tap_spec c2 h2 downType upType t d Hd Hu Ht) as (S4 & C4 & T4 & _).
  destruct (tap downType upType t c2 h2) as [c4 h4]. cbn [fst snd] in S4, C4, T4.
  rewrite S4, C4, T4, T2, C2, <- app_assoc.
  destruct (decide ("dark-mode" ∈ classList h)) as [Hin|Hout].
  - rewrite (bool_decide_eq_true_2 _ Hin).
    rewrite (bool_decide_eq_false_2 ("dark-mode" ∈ marked "light-mode" "dark-mode" (classList h)))
      by apply marked_off.
    repeat split; try done.
    + intros H. by apply marked_off in H.
    + intros _. by apply marked_on.
    + intros H. by apply marked_off in H.
  - rewrite (bool_decide_eq_false_2 _ Hout).
    rewrite (bool_decide_eq_true_2 ("dark-mode" ∈ marked "dark-mode" "light-mode" (classList h)))
      by (by apply marked_on).
    repeat split; try done.
    + intros _. by apply marked_on.
    + intros H. by apply marked_off in H.
    + intros _. by apply marked_on.
Qed.

Lemma double_tap_restores_marker_witness :
  let '(c2, h2) := tap "pointerdown" "pointerup" sampleTarget sampleController sampleHost in
  let '(c4, h4) := tap "pointerdown" "pointerup" sampleTarget c2 h2 in
  ("dark-mode" ∈ classList h2 <-> "dark-mode" ∉ classList sampleHost) /\
  ("dark-mode" ∈ classList h4 <-> "dark-mode" ∈ classList sampleHost) /\
  ("light-mode" ∈ classList h4 <-> "dark-mode" ∉ classList sampleHost) /\
  state c4
  = Some (if bool_decide ("dark-mode" ∈ classList sampleHost) then Enabled else Disabled) /\
  toggleCalls (trace h4)
  = toggleCalls (trace sampleHost)
    ++ [CallToggle ArgUndefined None; CallToggle ArgUndefined None].
Proof.
  apply (double_tap_restores_marker sampleController sampleHost "pointerdown" "pointerup"
           sampleTarget 1).
  - by right.
  - by right.
  - reflexivity.
Defined.


(** ** The two feeds of one change of the system preference *)

Lemma scheme_unmatched (c : Controller) (h : Host) (e : Event) (isDark : bool) :
  armOf (triggerOf (Some e)) = ArmScheme isDark ->
  ev_matches e ≠ Some true ->
  state (handleEvent (Some e) c h).1 = state c /\
  prefers (handleEvent (Some e) c h).1 = prefers c /\
  key (handleEvent (Some e) c h).1 = key c /\
  classList (handleEvent (Some e) c h).2 = classList h /\
  storage (handleEvent (Some e) c h).2 = storage h /\
  toggleCalls (trace (handleEvent (Some e) c h).2) = toggleCalls (trace h).
Proof.
  intros Harm Hm. rewrite handleEvent_prepare.
  destruct (prepare (Some e) c h) as [s0 h0] eqn:P.
  apply prepare_spec in P as (_ & _ & _ & _ & _ & _ & _ & _ & _ & Q).
  destruct Q as (Qs & Qc & _ & Qt & _).
  rewrite Harm. cbv zeta. cbn [mbind option_bind].
  rewrite (bool_decide_eq_false_2 _ Hm). done.
Qed.

Lemma scheme_matched_auto (c : Controller) (h : Host) (e : Event) (isDark : bool) :
  armOf (triggerOf (Some e)) = ArmScheme isDark ->
  ev_matches e = Some true ->
  state c = Some Auto ->
  state (handleEvent (Some e) c h).1 = Some Auto /\
  prefers (handleEvent (Some e) c h).1 = Some (if isDark then Dark else Light) /\
  classList (handleEvent (Some e) c h).2
  = marked (if isDark then "dark-mode" else "light-mode")
      (if isDark then "light-mode" else "dark-mode") (classList h).
Proof.
  intros Harm Hm Hst. rewrite handleEvent_prepare.
  destruct (prepare (Some e) c h) as [s0 h0] eqn:P.
  apply prepare_spec in P as (_ & _ & _ & _ & _ & _ & _ & _ & _ & Q).
  destruct Q as (Qs & Qc & _ & Qt & _).
  rewrite Harm. cbv zeta. cbn [mbind option_bind]. rewrite Hm.
  rewrite (bool_decide_eq_true_2 (Some true = Some true)) by done.
  rewrite toggle_system. cbv zeta.
  rewrite (bool_decide_eq_true_2 _ Hst).
  own_simpl. cbn [classList]. by rewrite Qc.
Qed.

(** When the system preference changes, each of the two feeds reports it:
    the one that stopped matching and the one that started to.  In automatic
    mode the outcome does not depend on the order in which the two reports
    arrive: the report without a match changes nothing, and the mode stays
    [auto] with the preference and the marker of the feed that matches. *)
Theorem scheme_switch_order_irrelevant (c : Controller) (h : Host) (eOff eOn : Event)
    (isDark : bool) :
  state c = Some Auto ->
  armOf (triggerOf (Some eOn)) = ArmScheme isDark -> ev_matches eOn = Some true ->
  armOf (triggerOf (Some eOff)) = ArmScheme (negb isDark) -> ev_matches eOff = Some false ->
  forall events, events = [Some eOff; Some eOn] \/ events = [Some eOn; Some eOff] ->
    let '(c', h') := deliver events c h in
    state c' = Some Auto /\
    prefers c' = Some (if isDark then Dark else Light) /\
    classList h'
    = marked (if isDark then "dark-mode" else "light-mode")
        (if isDark then "light-mode" else "dark-mode") (classList h).
Proof.
  intros Hst HaOn HmOn HaOff HmOff events [-> | ->]; cbn [deliver].
  - assert (Hne : ev_matches eOff ≠ Some true) by (rewrite HmOff; discriminate).
    pose proof (scheme_unmatched c h eOff _ HaOff Hne) as (S1 & _ & _ & C1 & _).
    destruct (handleEvent (Some eOff) c h) as [c1 h1]. cbn [fst snd] in S1, C1.
    assert (Hst1 : state c1 = Some Auto) by congruence.
    pose proof (scheme_matched_auto c1 h1 eOn _ HaOn HmOn Hst1) as (S2 & P2 & C2).
    destruct (handleEvent (Some eOn) c1 h1) as [c2 h2]. cbn [fst snd] in S2, P2, C2.
    by rewrite S2, P2, C2, C1.
  - pose proof (scheme_matched_auto c h eOn _ HaOn HmOn Hst) as (S1 & P1 & C1).
    destruct (handleEvent (Some eOn) c h) as [c1 h1]. cbn [fst snd] in S1, P1, C1.
    assert (Hne : ev_matches eOff ≠ Some true) by (rewrite HmOff; discriminate).
    pose proof (scheme_unmatched c1 h1 eOff _ HaOff Hne) as (S2 & P2 & _ & C2 & _).
    destruct (handleEvent (Some eOff) c1 h1) as [c2 h2]. cbn [fst snd] in S2, P2, C2.
    by rewrite S2, P2, C2, S1, P1, C1.
Qed.

Lemma scheme_switch_order_irrelevant_witness :
  let '(c', h') :=
    deliver [Some (changeEvent "(prefers-color-scheme: light)" true);
             Some (changeEvent "(prefers-color-scheme: dark)" false)]
      sampleController sampleHost in
  state c' = Some Auto /\
  prefers c' = Some (if false then Dark else Light) /\
  classList h'
  = marked (if false then "dark-mode" else "light-mode")
      (if false then "light-mode" else "dark-mode") (classList sampleHost).
Proof.
  apply (scheme_switch_order_irrelevant sampleController sampleHost
           (changeEvent "(prefers-color-scheme: dark)" false)
           (changeEvent "(prefers-color-scheme: light)" true) false);
    try reflexivity.
  by right.
Defined.

(** ** Without a Storage object *)

Lemma toggle_storageWrites_none (arg : ToggleArg) (auto : option bool) (c : Controller)
    (h : Host) :
  storage h = None ->
  storageWrites (trace (toggle arg auto c h).2) = storageWrites (trace h).
Proof.
  intros Hs. unfold toggle. cbv zeta.
  set (c1 := if bool_decide (auto = Some true) then _ else c).
  destruct (bool_decide (auto = Some true) && negb (bool_decide (state c1 = Some Auto))).
  { cbn [snd]. rewrite trace_log, storageWrites_app. cbn. by rewrite app_nil_r. }
  cbn [snd]. rewrite storage_log, Hs.
  rewrite trace_classList_remove, trace_classList_add, trace_log, !storageWrites_app.
  cbn. by rewrite !app_nil_r.
Qed.

Lemma handleEvent_unpersisted (event : option Event) (c : Controller) (h : Host) :
  unpersisted h -> unpersisted (handleEvent event c h).2.
Proof.
  intros Hu.
  destruct (handleEvent_shape event c h) as (s0 & h0 & P & Hshape).
  apply prepare_spec in P as (_ & _ & _ & _ & _ & _ & _ & _ & _ & Q0).
  destruct Q0 as (S0 & _ & U0 & _ & W0 & _).
  destruct Hshape as [(s & h1 & -> & _ & Q1 & _)|(s & arg & auto & -> & _)]; cbn [snd].
  - destruct Q1 as (S1 & _ & U1 & _ & W1 & _).
    unfold unpersisted. rewrite S1, S0, U1, U0, W1, W0. exact Hu.
  - pose proof (toggle_frame arg auto c h0) as (_ & _ & _ & _ & _ & Fu & _ & _ & Fs).
    intros Hn.
    assert (Hs0 : storage h0 = None).
    { destruct (storage h0) eqn:E; [|done].
      assert (is_Some (storage (toggle arg auto c h0).2)) as [x Hx] by (apply Fs; by eexists).
      congruence. }
    rewrite (toggle_storageWrites_none arg auto c h0 Hs0), Fu, W0, U0.
    apply Hu. by rewrite <- S0.
Qed.

Lemma reachable_unpersisted (c : Controller) (h : Host) : reachable c h -> unpersisted h.
Proof.
  apply (reachable_invariant (fun _ h => unpersisted h)).
  - intros g container options c0 h0 H.
    apply construct_Instance in H
      as (e & c1 & h1 & _ & Hi & _ & _ & _ & _ & _ & _ & _ & _ & Hsub & _ & Ht).
    apply initialise_spec in Hi as (_ & _ & _ & _ & _ & _ & _ & _ & Hi).
    intros Hn. destruct (storage h1) as [store|].
    + destruct Hi as (_ & Hi). repeat case_bool_decide.
      * destruct Hi as (_ & _ & Hs). congruence.
      * destruct Hi as (_ & _ & Hs). congruence.
      * destruct Hi as (_ & _ & _ & Hs). congruence.
    + destruct Hi as (_ & ->). by rewrite Ht, Hsub.
  - intros arg auto c0 h0 _ Hu Hn.
    pose proof (toggle_frame arg auto c0 h0) as (_ & _ & _ & _ & _ & Fu & _ & _ & Fs).
    assert (Hs0 : storage h0 = None).
    { destruct (storage h0) eqn:E; [|done].
      assert (is_Some (storage (toggle arg auto c0 h0).2)) as [x Hx] by (apply Fs; by eexists).
      congruence. }
    rewrite (toggle_storageWrites_none arg auto c0 h0 Hs0), Fu. by apply Hu.
  - intros event c0 h0. apply handleEvent_unpersisted.
  - intros handle c0 h0 _ H _. exact H.
  - intros c0 h0 s h' R Hu Hs Hd _ St _ Su _. unfold unpersisted. rewrite St, Su.
    pose proof (reachable_invariants c0 h0 R) as (_ & _ & Ca).
    destruct (detach_spec c0 h0 s Ca Hs) as (h1 & Hd1 & _ & _ & _ & _ & _ & _ & W & _).
    rewrite Hd in Hd1. injection Hd1 as <-. rewrite W. exact Hu.
Qed.

(** An instance that found no Storage object never gets one: in every state
    it reaches nothing has been written, and, the constructor having
    skipped the subscriptions, no preference feed is subscribed. *)
Theorem without_storage_nothing_is_persisted (c : Controller) (h : Host) :
  reachable c h -> storage h = None ->
  storageWrites (trace h) = [] /\ subscriptions h = [].
Proof. intros R. exact (reachable_unpersisted c h R). Qed.

Lemma bare_reachable : reachable bareController bareHost.
Proof. exact (reach_construct _ _ _ _ _ bare_construct). Qed.

Lemma without_storage_nothing_is_persisted_witness :
  storageWrites
    (trace (tap "mousedown" "mouseup" sampleTarget bareController bareHost).2) = [] /\
  subscriptions (tap "mousedown" "mouseup" sampleTarget bareController bareHost).2 = [].
Proof.
  apply (without_storage_nothing_is_persisted
           (tap "mousedown" "mouseup" sampleTarget bareController bareHost).1).
  - unfold tap.
    pose proof (reach_event (Some (pointerEvent "mousedown" (Some sampleTarget)))
                  bareController bareHost bare_reachable) as R1.
    destruct (handleEvent (Some (pointerEvent "mousedown" (Some sampleTarget)))
                bareController bareHost) as [c1 h1].
    exact (reach_event _ c1 h1 R1).
  - vm_compute. reflexivity.
Defined.
